(** * powerbi-admin: the authenticated request pipeline and its callers

    A shallow embedding of [auth.py], [client.py], [powerbi_admin/gateway.py]
    and [powerbi_admin/workspace.py].

    Python code that logs, talks to the network and raises is written in a
    state-and-exception monad [M]: the state holds the outside world, the
    log written so far and the trace of outside calls; a computation ends
    either with a value ([Ok]) or with a raised exception ([Raise]).

    The three things the repository calls but does not define are the
    fields of the class [Backend]: the credential object of azure.identity,
    the HTTP session of requests, and the JSON decoder behind
    [Response.json()]. *)

From Stdlib Require Import ZArith String Ascii List DecimalString Lia.
From stdpp Require Import gmap strings list fin_maps.

Open Scope Z_scope.
Open Scope string_scope.

(** ** JSON values

    What [Response.json()] can return and what a payload can hold: Python's
    [None], [bool], [int], [float], [str], [list] and [dict].  A float is
    kept as its lexeme. *)

#[warnings="-register-all"]
Inductive json : Type :=
  | JNull
  | JBool (b : bool)
  | JInt (z : Z)
  | JFloat (lexeme : string)
  | JStr (s : string)
  | JArr (items : list json)
  | JObj (entries : gmap string json).

(** The name Python prints for the type of a value, as in
    ['list' object has no attribute 'get']. *)
Definition type_name (v : json) : string :=
  match v with
  | JNull => "NoneType"
  | JBool _ => "bool"
  | JInt _ => "int"
  | JFloat _ => "float"
  | JStr _ => "str"
  | JArr _ => "list"
  | JObj _ => "dict"
  end.

(** ** Strings *)

(** [c in chars] for a character and a string of characters. *)
Fixpoint char_in (c : ascii) (chars : string) : bool :=
  match chars with
  | EmptyString => false
  | String d rest => if Ascii.eqb c d then true else char_in c rest
  end.

(** [s.lstrip(chars)]: drop leading characters while they are in [chars]. *)
Fixpoint lstrip (chars : string) (s : string) : string :=
  match s with
  | EmptyString => EmptyString
  | String c rest => if char_in c chars then lstrip chars rest else s
  end.

(** Text is held as its UTF-8 bytes.  A byte [10xxxxxx] continues the
    character begun before it. *)
Definition is_continuation (c : ascii) : bool :=
  match c with
  | Ascii _ _ _ _ _ _ b6 b7 => b7 && negb b6
  end.

(** The number of characters (code points) of a text, which is what
    Python's [len] counts on a [str]: the bytes that begin a character. *)
Fixpoint code_points (s : string) : nat :=
  match s with
  | EmptyString => O
  | String c rest =>
      if is_continuation c then code_points rest else S (code_points rest)
  end.

(** [str(n)] for an integer. *)
Definition str_of_int (z : Z) : string := NilZero.string_of_int (Z.to_int z).

(** Truth value of an optional string ([if email_address:]): [None] and the
    empty string are false. *)
Definition truthy_str (o : option string) : bool :=
  match o with
  | Some s => negb (String.eqb s "")
  | None => false
  end.

(** Truth value of an optional integer ([if top:]): [None] and [0] are false. *)
Definition truthy_int (o : option Z) : bool :=
  match o with
  | Some z => negb (Z.eqb z 0)
  | None => false
  end.

(** Truth value of an optional dictionary ([... and profile]): [None] and
    the empty dictionary are false. *)
Definition truthy_dict (o : option (gmap string json)) : bool :=
  match o with
  | Some d => negb (bool_decide (d = ∅))
  | None => false
  end.

(** ** HTTP requests and responses *)

(** The arguments of one [session.request(method, url, headers=..., **kwargs)].
    The callers only ever pass [params=] and [json=]; [None] stands for an
    argument that is absent or [None]. *)
Record Request := mkRequest {
  req_method : string;
  req_url : string;
  req_headers : gmap string string;
  req_params : option (gmap string json);
  req_json : option (gmap string json)
}.

(** The keyword arguments [_request] forwards to the session. *)
Record Kwargs := mkKwargs {
  kw_params : option (gmap string json);
  kw_json : option (gmap string json)
}.

Definition no_kwargs : Kwargs := mkKwargs None None.

(** The fields of [requests.Response] the code reads. *)
Record Response := mkResponse {
  status_code : Z;
  reason : string;
  url : string;
  content : string
}.

(** [response.text]: the body as text. *)
Definition text (r : Response) : string := content r.

(** ** Exceptions

    The classes that occur, all below [Exception]:
    [HTTPError] and [JSONDecodeError] (of requests) are subclasses of
    [RequestException]; [CredentialUnavailableError] is azure.identity's,
    a subclass of azure.core's [ClientAuthenticationError];
    [AttributeError], [TypeError] and [UnboundLocalError] are built in;
    [Exception] stands for any other exception. *)
Inductive exn_class :=
  | Exception
  | ClientAuthenticationError
  | CredentialUnavailableError
  | RequestException
  | HTTPError
  | JSONDecodeError
  | AttributeError
  | TypeError
  | UnboundLocalError.

Definition exn_class_eqb (a b : exn_class) : bool :=
  match a, b with
  | Exception, Exception
  | ClientAuthenticationError, ClientAuthenticationError
  | CredentialUnavailableError, CredentialUnavailableError
  | RequestException, RequestException
  | HTTPError, HTTPError
  | JSONDecodeError, JSONDecodeError
  | AttributeError, AttributeError
  | TypeError, TypeError
  | UnboundLocalError, UnboundLocalError => true
  | _, _ => false
  end.

(** An exception object: its class, its message ([str(e)]) and the
    response attached to it.  [exn_response e = Some r] is the test
    [hasattr(e, 'response') and e.response is not None]. *)
Record exn := mkExn {
  exn_cls : exn_class;
  exn_msg : string;
  exn_response : option Response
}.

(** [issubclass(c, parent)]. *)
Definition subclass (c parent : exn_class) : bool :=
  match parent with
  | Exception => true
  | ClientAuthenticationError =>
      match c with
      | ClientAuthenticationError | CredentialUnavailableError => true
      | _ => false
      end
  | RequestException =>
      match c with
      | RequestException | HTTPError | JSONDecodeError => true
      | _ => false
      end
  | _ => exn_class_eqb c parent
  end.

(** [isinstance(e, cls)]: what an [except cls] clause tests. *)
Definition isinstance (e : exn) (cls : exn_class) : bool :=
  subclass (exn_cls e) cls.

(** ** The log

    A record is a level and the parts of the f-string, before Python turns
    them into text: literal or interpolated text, an integer, a decoded
    JSON value, or an exception. *)
Inductive level := DEBUG | INFO | WARNING | ERROR.

Inductive piece :=
  | Txt (s : string)
  | Num (z : Z)
  | Obj (v : json)
  | Exc (e : exn).

Record LogRecord := mkLog {
  log_level : level;
  log_parts : list piece
}.

Definition level_eqb (a b : level) : bool :=
  match a, b with
  | DEBUG, DEBUG | INFO, INFO | WARNING, WARNING | ERROR, ERROR => true
  | _, _ => false
  end.

(** The records of a log at a given level. *)
Definition at_level (l : level) (records : list LogRecord) : list LogRecord :=
  List.filter (fun r => level_eqb (log_level r) l) records.

(** ** The outside world *)

(** What [credential.get_token] returns: the token and its expiry. *)
Record AccessToken := mkAccessToken {
  token : string;
  expires_on : Z
}.

(** One call that leaves the process. *)
Inductive Call :=
  | GetToken (scopes : list string)
  | HttpRequest (r : Request).

(** The collaborators the repository uses and does not define.
    [credential_get_token] is [DefaultAzureCredential.get_token],
    [session_request] is [requests.Session.request], and [json_loads] is
    the decoder behind [Response.json()], which gives either the decoded
    value or the message of the decoding error.  Each outside call may
    change the world. *)
Class Backend := mkBackend {
  World : Type;
  credential_get_token : list string -> World -> (exn + AccessToken) * World;
  session_request : Request -> World -> (exn + Response) * World;
  json_loads : string -> string + json
}.

(** ** The credential chain of azure.identity

    [DefaultAzureCredential] is a [ChainedTokenCredential]: a list of
    credentials tried in order. *)

(** [get_token] of one credential of the chain. *)
Definition Strategy (W : Type) : Type :=
  list string -> W -> (exn + AccessToken) * W.

(** [ChainedTokenCredential.get_token]: the first credential that yields a
    token wins and is returned with it; a credential that raises
    [CredentialUnavailableError] is passed over; any other exception stops
    the loop; when the loop ends without a token the chain raises a
    [ClientAuthenticationError] of its own, whose message [render] makes
    from the exceptions met. *)
Fixpoint chained_get_token {W : Type} (render : list exn -> string)
    (credentials : list (Strategy W)) (history : list exn)
    (scopes : list string) (w : W) : (exn + Strategy W * AccessToken) * W :=
  match credentials with
  | [] => (inl (mkExn ClientAuthenticationError (render history) None), w)
  | credential :: rest =>
      match credential scopes w with
      | (inr t, w') => (inr (credential, t), w')
      | (inl ex, w') =>
          if isinstance ex CredentialUnavailableError
          then chained_get_token render rest (history ++ [ex])%list scopes w'
          else (inl (mkExn ClientAuthenticationError (render (history ++ [ex])%list) None),
                w')
      end
  end.

(** [DefaultAzureCredential.get_token]: the credential that succeeded
    before, when there is one, is asked directly; otherwise the chain is
    run and the credential that succeeds is remembered.  The world pairs
    the remembered credential with the world of the credentials. *)
Definition default_get_token {W : Type} (render : list exn -> string)
    (credentials : list (Strategy W)) (scopes : list string)
    (st : option (Strategy W) * W) : (exn + AccessToken) * (option (Strategy W) * W) :=
  match fst st with
  | Some credential =>
      match credential scopes (snd st) with
      | (res, w') => (res, (Some credential, w'))
      end
  | None =>
      match chained_get_token render credentials [] scopes (snd st) with
      | (inr (credential, t), w') => (inr t, (Some credential, w'))
      | (inl e, w') => (inl e, (None, w'))
      end
  end.

(** The backend whose credential is a [DefaultAzureCredential] over the
    given credentials. *)
Definition DefaultAzureCredential {W : Type} (render : list exn -> string)
    (credentials : list (Strategy W))
    (session : Request -> W -> (exn + Response) * W)
    (loads : string -> string + json) : Backend :=
  mkBackend (option (Strategy W) * W)
    (default_get_token render credentials)
    (fun req st =>
       match session req (snd st) with
       | (res, w') => (res, (fst st, w'))
       end)
    loads.

(** ** The monad *)

Inductive Result (A : Type) :=
  | Ok (a : A)
  | Raise (e : exn).

Arguments Ok {A} a.
Arguments Raise {A} e.

Section Monad.
Context `{B : Backend}.

Record State := mkState {
  world : World;
  log : list LogRecord;
  calls : list Call
}.

Definition M (A : Type) : Type := State -> Result A * State.

#[global] Instance M_ret : MRet M := fun A a st => (Ok a, st).

#[global] Instance M_bind : MBind M := fun A C f m st =>
  match m st with
  | (Ok a, st') => f a st'
  | (Raise e, st') => (Raise e, st')
  end.

(** [raise e] *)
Definition raise {A} (e : exn) : M A := fun st => (Raise e, st).

(** [try: body / except cls1 as e: h1 / except cls2 as e: h2 ...]: the
    first clause whose class the exception is an instance of handles it;
    with no such clause the exception goes on. *)
Definition try_except {A} (body : M A)
    (handlers : list (exn_class * (exn -> M A))) : M A :=
  fun st =>
    match body st with
    | (Ok a, st') => (Ok a, st')
    | (Raise e, st') =>
        match List.find (fun h => isinstance e (fst h)) handlers with
        | Some h => snd h e st'
        | None => (Raise e, st')
        end
    end.

(** [logger.<level>(f"...")] *)
Definition logger (l : level) (parts : list piece) : M unit :=
  fun st => (Ok tt, mkState (world st) (log st ++ [mkLog l parts]) (calls st)).

(** [credential.get_token] applied to the scopes, on the world of the state. *)
Definition call_get_token (scopes : list string) : M AccessToken :=
  fun st =>
    match credential_get_token scopes (world st) with
    | (res, w') =>
        let st' := mkState w' (log st) (calls st ++ [GetToken scopes]) in
        match res with
        | inl e => (Raise e, st')
        | inr t => (Ok t, st')
        end
    end.

(** [session.request(...)] on the world of the state. *)
Definition call_session_request (req : Request) : M Response :=
  fun st =>
    match session_request req (world st) with
    | (res, w') =>
        let st' := mkState w' (log st) (calls st ++ [HttpRequest req]) in
        match res with
        | inl e => (Raise e, st')
        | inr r => (Ok r, st')
        end
    end.
End Monad.

Arguments State {B}.
Arguments M {B} A.

(** ** Python built-ins on decoded values *)

Section Builtins.
Context `{B : Backend}.

(** [v.get(key, default)]: defined on a [dict] only; any other JSON value
    has no attribute [get]. *)
Definition dict_get (v : json) (key : string) (dflt : json) : M json :=
  match v with
  | JObj d => mret (default dflt (d !! key))
  | _ =>
      raise (mkExn AttributeError
               ("'" ++ type_name v ++ "' object has no attribute 'get'") None)
  end.

(** [len(v)]: defined on [str], [list] and [dict]. *)
Definition len (v : json) : M Z :=
  match v with
  | JStr s => mret (Z.of_nat (code_points s))
  | JArr items => mret (Z.of_nat (List.length items))
  | JObj d => mret (Z.of_nat (size d))
  | _ =>
      raise (mkExn TypeError
               ("object of type '" ++ type_name v ++ "' has no len()") None)
  end.

(** [response.raise_for_status()] of requests: an [HTTPError] carrying the
    response for a status in 400..599, nothing otherwise. *)
Definition raise_for_status (r : Response) : M unit :=
  let http_error_msg :=
    if (400 <=? status_code r)%Z && (status_code r <? 500)%Z then
      str_of_int (status_code r) ++ " Client Error: " ++ reason r
        ++ " for url: " ++ url r
    else if (500 <=? status_code r)%Z && (status_code r <? 600)%Z then
      str_of_int (status_code r) ++ " Server Error: " ++ reason r
        ++ " for url: " ++ url r
    else "" in
  if negb (String.eqb http_error_msg "")
  then raise (mkExn HTTPError http_error_msg (Some r))
  else mret tt.

(** [response.json()]: the decoded body, or requests' [JSONDecodeError]. *)
Definition Response_json (r : Response) : M json :=
  match json_loads (content r) with
  | inr v => mret v
  | inl msg => raise (mkExn JSONDecodeError msg None)
  end.
End Builtins.

(** ** auth.py *)

Module PowerBIAuth.
Section Auth.
Context `{B : Backend}.

(** [self.scope] *)
Definition scope : list string :=
  ["https://analysis.windows.net/powerbi/api/.default"].

Definition remediation : string :=
  "Ensure you are logged in via Azure CLI ('az login'), "
  ++ "or have environment variables (AZURE_CLIENT_ID, AZURE_CLIENT_SECRET, AZURE_TENANT_ID), "
  ++ "or are running in an environment with Managed Identity.".

(** [PowerBIAuth.get_access_token] *)
Definition get_access_token : M string :=
  try_except
    (logger INFO [Txt "Attempting to acquire token using DefaultAzureCredential..."];;
     access_token_info ← call_get_token scope;
     logger INFO [Txt "Successfully acquired access token."];;
     mret (token access_token_info))
    [ (CredentialUnavailableError, fun e =>
         logger ERROR [Txt "DefaultAzureCredential failed: "; Exc e];;
         logger ERROR [Txt remediation];;
         raise e);
      (Exception, fun e =>
         logger ERROR [Txt "An unexpected error occurred during token acquisition: "; Exc e];;
         raise e) ].
End Auth.
End PowerBIAuth.

(** ** client.py *)

Module PowerBIClient.
Section Client.
Context `{B : Backend}.

Definition BASE_URL : string := "https://api.powerbi.com/v1.0/myorg".

(** The absolute URL of an endpoint, first line of [_request]. *)
Definition request_url (endpoint : string) : string :=
  BASE_URL ++ "/" ++ lstrip "/" endpoint.

(** [PowerBIClient._get_headers] *)
Definition _get_headers : M (gmap string string) :=
  access_token ← PowerBIAuth.get_access_token;
  mret ({[ "Authorization" := "Bearer " ++ access_token;
           "Content-Type" := "application/json" ]} : gmap string string).

(** The two [except] clauses of [_request].  The first one reads the
    local variable [response], which is bound only once
    [session.request] has returned. *)
Definition _request_handlers (response : option Response)
  : list (exn_class * (exn -> M Response)) :=
  [ (HTTPError, fun http_err =>
       match response with
       | Some r =>
           logger ERROR [Txt "HTTP error occurred: "; Exc http_err;
                         Txt " - "; Txt (text r)];;
           raise http_err
       | None =>
           raise (mkExn UnboundLocalError
                    "cannot access local variable 'response' where it is not associated with a value"
                    None)
       end);
    (RequestException, fun req_err =>
       logger ERROR [Txt "Request exception occurred: "; Exc req_err];;
       raise req_err) ].

(** [PowerBIClient._request].  The [try] block is cut after its first
    statement, because the handlers see [response] unbound before it and
    bound after it; an exception that leaves a handler leaves [_request]. *)
Definition _request (method endpoint : string) (kwargs : Kwargs) : M Response :=
  let url := request_url endpoint in
  headers ← _get_headers;
  logger DEBUG [Txt "Making "; Txt method; Txt " request to "; Txt url];;
  response ← try_except
    (call_session_request
       (mkRequest method url headers (kw_params kwargs) (kw_json kwargs)))
    (_request_handlers None);
  try_except
    (raise_for_status response;;
     logger DEBUG [Txt "Request successful: "; Num (status_code response)];;
     mret response)
    (_request_handlers (Some response)).

(** [PowerBIClient.get] *)
Definition get (endpoint : string) (params : option (gmap string json)) : M json :=
  response ← _request "GET" endpoint (mkKwargs params None);
  Response_json response.

(** [PowerBIClient.post] *)
Definition post (endpoint : string) (json_body : option (gmap string json)) : M json :=
  response ← _request "POST" endpoint (mkKwargs None json_body);
  if (status_code response =? 204)%Z then mret (JObj ∅)
  else
    try_except
      (Response_json response)
      [ (JSONDecodeError, fun _ =>
           logger WARNING [Txt "POST request to "; Txt endpoint;
                           Txt " did not return JSON. Status: ";
                           Num (status_code response)];;
           mret (JObj ∅)) ].

(** [PowerBIClient.delete] *)
Definition delete (endpoint : string) (params : option (gmap string json)) : M json :=
  response ← _request "DELETE" endpoint (mkKwargs params None);
  if ((status_code response =? 200)%Z || (status_code response =? 204)%Z)
     && String.eqb (content response) ""
  then
    logger DEBUG [Txt "DELETE request to "; Txt endpoint;
                  Txt " successful with status "; Num (status_code response);
                  Txt " and no content."];;
    mret (JObj ∅)
  else
    try_except
      (Response_json response)
      [ (JSONDecodeError, fun _ =>
           logger WARNING [Txt "DELETE request to "; Txt endpoint;
                           Txt " did not return JSON. Status: ";
                           Num (status_code response)];;
           mret (JObj ∅)) ].
End Client.
End PowerBIClient.

(** ** powerbi_admin/gateway.py *)

Module GatewayAdmin.
Section Gateway.
Context `{B : Backend}.

(** The lines both [except] blocks of this file repeat: status and body
    of the response attached to the exception, when there is one. *)
Definition log_error_response (e : exn) : M unit :=
  match exn_response e with
  | Some response =>
      logger ERROR [Txt "API Response Status: "; Num (status_code response)];;
      try_except
        (body ← Response_json response;
         logger ERROR [Txt "API Response Body: "; Obj body])
        [ (Exception, fun _ =>
             logger ERROR [Txt "API Response Body: "; Txt (text response)]) ]
  | None => mret tt
  end.

(** [GatewayAdmin.get_gateways] *)
Definition get_gateways : M json :=
  logger INFO [Txt "Fetching gateways..."];;
  response ← PowerBIClient.get "gateways" None;
  gateways ← dict_get response "value" (JArr []);
  n ← len gateways;
  logger INFO [Txt "Found "; Num n; Txt " gateways."];;
  mret gateways.

(** [GatewayAdmin.get_gateway_datasources] *)
Definition get_gateway_datasources (gateway_id : string) : M json :=
  logger INFO [Txt "Fetching datasources for gateway ID: "; Txt gateway_id];;
  let endpoint := "gateways/" ++ gateway_id ++ "/datasources" in
  response ← PowerBIClient.get endpoint None;
  datasources ← dict_get response "value" (JArr []);
  n ← len datasources;
  logger INFO [Txt "Found "; Num n; Txt " datasources for gateway ";
               Txt gateway_id; Txt "."];;
  mret datasources.

Definition datasource_users_endpoint (gateway_id datasource_id : string) : string :=
  "gateways/" ++ gateway_id ++ "/datasources/" ++ datasource_id ++ "/users".

(** The [try] block of [get_gateway_datasource_users]. *)
Definition get_gateway_datasource_users_try (gateway_id datasource_id : string)
  : M json :=
  response ← PowerBIClient.get (datasource_users_endpoint gateway_id datasource_id) None;
  users ← dict_get response "value" (JArr []);
  n ← len users;
  logger INFO [Txt "Found "; Num n; Txt " users for datasource ";
               Txt datasource_id; Txt "."];;
  mret users.

(** The [except Exception as e] block of [get_gateway_datasource_users]. *)
Definition get_gateway_datasource_users_except (gateway_id datasource_id : string)
    (e : exn) : M json :=
  logger ERROR [Txt "Could not get users for datasource "; Txt datasource_id;
                Txt " on gateway "; Txt gateway_id; Txt ": "; Exc e];;
  log_error_response e;;
  mret (JArr []).

(** [GatewayAdmin.get_gateway_datasource_users] *)
Definition get_gateway_datasource_users (gateway_id datasource_id : string)
  : M json :=
  logger INFO [Txt "Fetching users for datasource ID: "; Txt datasource_id;
               Txt " on gateway ID: "; Txt gateway_id];;
  try_except
    (get_gateway_datasource_users_try gateway_id datasource_id)
    [ (Exception, get_gateway_datasource_users_except gateway_id datasource_id) ].

(** The payload [add_datasource_user] builds before its [try]. *)
Definition datasource_user_payload (principal_id principal_type access_right : string)
    (display_name email_address : option string)
    (profile : option (gmap string json)) : gmap string json :=
  let payload : gmap string json :=
    {[ "identifier" := JStr principal_id;
       "principalType" := JStr principal_type;
       "datasourceUserAccessRight" := JStr access_right ]} in
  let payload :=
    if truthy_str display_name
    then <["displayName" := JStr (default "" display_name)]> payload
    else payload in
  let payload :=
    if truthy_str email_address
    then <["emailAddress" := JStr (default "" email_address)]> payload
    else payload in
  if String.eqb principal_type "ServicePrincipal" && truthy_dict profile
  then <["profile" := JObj (default ∅ profile)]> payload
  else payload.

(** The [try] block of [add_datasource_user]. *)
Definition add_datasource_user_try (gateway_id datasource_id principal_id
    principal_type : string) (payload : gmap string json) : M bool :=
  PowerBIClient.post (datasource_users_endpoint gateway_id datasource_id) (Some payload);;
  logger INFO [Txt "Successfully added "; Txt principal_type; Txt " ";
               Txt principal_id; Txt " to datasource "; Txt datasource_id; Txt "."];;
  mret true.

(** The [except Exception as e] block of [add_datasource_user]. *)
Definition add_datasource_user_except (gateway_id datasource_id principal_id : string)
    (e : exn) : M bool :=
  logger ERROR [Txt "Failed to add user "; Txt principal_id; Txt " to datasource ";
                Txt datasource_id; Txt " on gateway "; Txt gateway_id; Txt ": "; Exc e];;
  log_error_response e;;
  mret false.

(** [GatewayAdmin.add_datasource_user] *)
Definition add_datasource_user (gateway_id datasource_id principal_id
    principal_type access_right : string)
    (display_name email_address : option string)
    (profile : option (gmap string json)) : M bool :=
  logger INFO [Txt "Adding "; Txt principal_type; Txt " (ID: "; Txt principal_id;
               Txt ") to datasource "; Txt datasource_id; Txt " on gateway ";
               Txt gateway_id; Txt " with rights: "; Txt access_right];;
  let payload := datasource_user_payload principal_id principal_type access_right
                   display_name email_address profile in
  (if String.eqb principal_type "ServicePrincipal" && truthy_dict profile
   then mret tt
   else if String.eqb principal_type "User" && negb (truthy_str email_address)
   then logger WARNING [Txt "Adding a user principal ("; Txt principal_id;
                        Txt ") without an emailAddress is often problematic."]
   else mret tt);;
  try_except
    (add_datasource_user_try gateway_id datasource_id principal_id principal_type payload)
    [ (Exception, add_datasource_user_except gateway_id datasource_id principal_id) ].
End Gateway.
End GatewayAdmin.

(** ** powerbi_admin/workspace.py *)

Module WorkspaceAdmin.
Section Workspace.
Context `{B : Backend}.

(** [WorkspaceAdmin._log_api_error] *)
Definition _log_api_error (error : exn) : M unit :=
  match exn_response error with
  | Some response =>
      logger ERROR [Txt "API Response Status: "; Num (status_code response)];;
      try_except
        (body ← Response_json response;
         logger ERROR [Txt "API Response Body: "; Obj body])
        [ (Exception, fun _ =>
             logger ERROR [Txt "API Response Body: "; Txt (text response)]) ]
  | None => mret tt
  end.

(** The query parameters [get_workspaces] builds. *)
Definition workspaces_params (filter_str : option string) (top skip : option Z)
  : gmap string json :=
  let params : gmap string json := ∅ in
  let params :=
    if truthy_str filter_str
    then <["$filter" := JStr (default "" filter_str)]> params else params in
  let params :=
    if truthy_int top
    then <["$top" := JInt (default 0%Z top)]> params else params in
  if truthy_int skip
  then <["$skip" := JInt (default 0%Z skip)]> params else params.

(** [WorkspaceAdmin.get_workspaces] *)
Definition get_workspaces (filter_str : option string) (top skip : option Z)
  : M json :=
  logger INFO [Txt "Fetching workspaces..."];;
  let params := workspaces_params filter_str top skip in
  response ← PowerBIClient.get "groups" (Some params);
  workspaces ← dict_get response "value" (JArr []);
  n ← len workspaces;
  logger INFO [Txt "Found "; Num n; Txt " workspaces matching criteria."];;
  mret workspaces.

(** [WorkspaceAdmin.get_workspace_users] *)
Definition get_workspace_users (workspace_id : string) : M json :=
  logger INFO [Txt "Fetching users for workspace ID: "; Txt workspace_id];;
  let endpoint := "groups/" ++ workspace_id ++ "/users" in
  try_except
    (response ← PowerBIClient.get endpoint None;
     users ← dict_get response "value" (JArr []);
     n ← len users;
     logger INFO [Txt "Found "; Num n; Txt " users for workspace ";
                  Txt workspace_id; Txt "."];;
     mret users)
    [ (Exception, fun e =>
         logger ERROR [Txt "Could not get users for workspace "; Txt workspace_id;
                       Txt ": "; Exc e];;
         _log_api_error e;;
         mret (JArr [])) ].

Definition workspace_users_endpoint (workspace_id : string) : string :=
  "groups/" ++ workspace_id ++ "/users".

(** The payload [add_workspace_user] builds before its [try]. *)
Definition workspace_user_payload (identifier principal_type access_right : string)
    (email_address : option string) : gmap string json :=
  let payload : gmap string json :=
    {[ "identifier" := JStr identifier;
       "principalType" := JStr principal_type;
       "groupUserAccessRight" := JStr access_right ]} in
  if String.eqb principal_type "User" then
    if truthy_str email_address
    then <["emailAddress" := JStr (default "" email_address)]> payload
    else <["emailAddress" := JStr identifier]> payload
  else payload.

(** The [try] block of [add_workspace_user]. *)
Definition add_workspace_user_try (workspace_id identifier principal_type : string)
    (payload : gmap string json) : M bool :=
  PowerBIClient.post (workspace_users_endpoint workspace_id) (Some payload);;
  logger INFO [Txt "Successfully added "; Txt principal_type; Txt " ";
               Txt identifier; Txt " to workspace "; Txt workspace_id; Txt "."];;
  mret true.

(** The [except Exception as e] block of [add_workspace_user]. *)
Definition add_workspace_user_except (workspace_id identifier principal_type : string)
    (e : exn) : M bool :=
  logger ERROR [Txt "Failed to add "; Txt principal_type; Txt " "; Txt identifier;
                Txt " to workspace "; Txt workspace_id; Txt ": "; Exc e];;
  _log_api_error e;;
  mret false.

(** [WorkspaceAdmin.add_workspace_user] *)
Definition add_workspace_user (workspace_id identifier principal_type
    access_right : string) (email_address : option string) : M bool :=
  logger INFO [Txt "Adding "; Txt principal_type; Txt " ("; Txt identifier;
               Txt ") to workspace "; Txt workspace_id; Txt " with rights: ";
               Txt access_right];;
  let payload := workspace_user_payload identifier principal_type access_right
                   email_address in
  (if String.eqb principal_type "User" && negb (truthy_str email_address)
   then logger WARNING [Txt "Adding User principal ("; Txt identifier;
                        Txt ") without explicit emailAddress. Assuming identifier is email/UPN."]
   else mret tt);;
  try_except
    (add_workspace_user_try workspace_id identifier principal_type payload)
    [ (Exception, add_workspace_user_except workspace_id identifier principal_type) ].

(** [principal_info] of [delete_workspace_user]. *)
Definition principal_info (identifier : string) (principal_type : option string)
  : string :=
  if truthy_str principal_type
  then default "" principal_type ++ " (" ++ identifier ++ ")"
  else identifier.

Definition delete_user_endpoint (workspace_id identifier : string) : string :=
  "groups/" ++ workspace_id ++ "/users/" ++ identifier.

(** The [try] block of [delete_workspace_user]: it calls [_request], not
    [delete]. *)
Definition delete_workspace_user_try (workspace_id identifier : string)
    (principal_type : option string) : M bool :=
  PowerBIClient._request "DELETE" (delete_user_endpoint workspace_id identifier) no_kwargs;;
  logger INFO [Txt "Successfully deleted "; Txt (principal_info identifier principal_type);
               Txt " from workspace "; Txt workspace_id; Txt "."];;
  mret true.

(** The [except Exception as e] block of [delete_workspace_user]. *)
Definition delete_workspace_user_except (workspace_id identifier : string)
    (principal_type : option string) (e : exn) : M bool :=
  logger ERROR [Txt "Failed to delete "; Txt (principal_info identifier principal_type);
                Txt " from workspace "; Txt workspace_id; Txt ": "; Exc e];;
  _log_api_error e;;
  mret false.

(** [WorkspaceAdmin.delete_workspace_user] *)
Definition delete_workspace_user (workspace_id identifier : string)
    (principal_type : option string) : M bool :=
  logger INFO [Txt "Deleting "; Txt (principal_info identifier principal_type);
               Txt " from workspace "; Txt workspace_id];;
  try_except
    (delete_workspace_user_try workspace_id identifier principal_type)
    [ (Exception, delete_workspace_user_except workspace_id identifier principal_type) ].
End Workspace.
End WorkspaceAdmin.

(** * Vocabulary of the statements *)

(** A status for which [raise_for_status] raises. *)
Definition is_http_error (s : Z) : bool :=
  ((400 <=? s)%Z && (s <? 600)%Z).

(** A 2xx status. *)
Definition is_success (s : Z) : bool :=
  ((200 <=? s)%Z && (s <? 300)%Z).

(** [n] separators in a row. *)
Fixpoint separators (n : nat) : string :=
  match n with
  | O => ""
  | S n' => String "/" (separators n')
  end.

(** Two separators in a row at positions [i] and [i + 1] of [s]. *)
Definition double_separator_at (i : nat) (s : string) : Prop :=
  String.get i s = Some "/"%char /\ String.get (S i) s = Some "/"%char.

Section Vocabulary.
Context `{B : Backend}.

(** The headers [_get_headers] builds from a token. *)
Definition headers_of (t : AccessToken) : gmap string string :=
  {[ "Authorization" := "Bearer " ++ token t;
     "Content-Type" := "application/json" ]}.

(** The request [_request] hands to the session. *)
Definition request_of (method endpoint : string) (t : AccessToken)
    (kwargs : Kwargs) : Request :=
  mkRequest method (PowerBIClient.request_url endpoint) (headers_of t)
    (kw_params kwargs) (kw_json kwargs).

(** In world [w] the credential grants token [t], leaving world [w1]. *)
Definition grants (w : World) (t : AccessToken) (w1 : World) : Prop :=
  credential_get_token PowerBIAuth.scope w = (inr t, w1).

(** In world [w] the credential grants a token and the session answers
    the request for [method] and [endpoint] with the response [r]. *)
Definition answers (w : World) (method endpoint : string) (kwargs : Kwargs)
    (r : Response) : Prop :=
  exists t w1 w2,
    grants w t w1 /\
    session_request (request_of method endpoint t kwargs) w1 = (inr r, w2).

(** The records of a token acquisition that succeeds. *)
Definition token_records : list LogRecord :=
  [ mkLog INFO [Txt "Attempting to acquire token using DefaultAzureCredential..."];
    mkLog INFO [Txt "Successfully acquired access token."] ].

(** The records of a token acquisition that ends with exception [e]. *)
Definition token_failure_records (e : exn) : list LogRecord :=
  mkLog INFO [Txt "Attempting to acquire token using DefaultAzureCredential..."]
  :: (if isinstance e CredentialUnavailableError
      then [ mkLog ERROR [Txt "DefaultAzureCredential failed: "; Exc e];
             mkLog ERROR [Txt PowerBIAuth.remediation] ]
      else [ mkLog ERROR [Txt "An unexpected error occurred during token acquisition: ";
                          Exc e] ]).

(** The records of [_request] up to the moment the request leaves. *)
Definition request_records (method endpoint : string) : list LogRecord :=
  (token_records ++
   [ mkLog DEBUG [Txt "Making "; Txt method; Txt " request to ";
                  Txt (PowerBIClient.request_url endpoint)] ])%list.

(** The records of a [_request] that returns the response [r]. *)
Definition success_records (method endpoint : string) (r : Response)
  : list LogRecord :=
  (request_records method endpoint ++
   [ mkLog DEBUG [Txt "Request successful: "; Num (status_code r)] ])%list.

(** The calls of a [_request] that reaches the session. *)
Definition exchange_calls (method endpoint : string) (t : AccessToken)
    (kwargs : Kwargs) : list Call :=
  [ GetToken PowerBIAuth.scope; HttpRequest (request_of method endpoint t kwargs) ].

(** The warning of [post] for a body that does not decode. *)
Definition post_warning (endpoint : string) (r : Response) : LogRecord :=
  mkLog WARNING [Txt "POST request to "; Txt endpoint;
                 Txt " did not return JSON. Status: "; Num (status_code r)].

(** The warning of [delete] for a body that does not decode. *)
Definition delete_warning (endpoint : string) (r : Response) : LogRecord :=
  mkLog WARNING [Txt "DELETE request to "; Txt endpoint;
                 Txt " did not return JSON. Status: "; Num (status_code r)].

(** The debug record of [delete] on its no-content path. *)
Definition delete_no_content (endpoint : string) (r : Response) : LogRecord :=
  mkLog DEBUG [Txt "DELETE request to "; Txt endpoint;
               Txt " successful with status "; Num (status_code r);
               Txt " and no content."].

(** The test that sends [delete] down its no-content path. *)
Definition delete_shortcut (r : Response) : bool :=
  ((status_code r =? 200)%Z || (status_code r =? 204)%Z)
  && String.eqb (content r) "".

(** State [st] with more records in its log. *)
Definition with_records (st : State) (records : list LogRecord) : State :=
  mkState (world st) (log st ++ records) (calls st).

(** The records an [except] block of the domain modules writes about the
    response attached to the exception: its status, then its body, decoded
    when it decodes and as text otherwise; nothing without a response. *)
Definition response_records (e : exn) : list LogRecord :=
  match exn_response e with
  | Some r =>
      [ mkLog ERROR [Txt "API Response Status: "; Num (status_code r)];
        match json_loads (content r) with
        | inr body => mkLog ERROR [Txt "API Response Body: "; Obj body]
        | inl _ => mkLog ERROR [Txt "API Response Body: "; Txt (text r)]
        end ]
  | None => []
  end.

(** The body of a response is not valid JSON. *)
Definition not_json (r : Response) : Prop :=
  exists msg, json_loads (content r) = inl msg.

(** A run that ends with a value. *)
Definition returns {A} (m : M A) (st : State) (a : A) : Prop :=
  exists st', m st = (Ok a, st').

(** A run that ends with an exception. *)
Definition raises {A} (m : M A) (st : State) (e : exn) : Prop :=
  exists st', m st = (Raise e, st').

(** The records a run adds to the log. *)
Definition logged {A} (m : M A) (st : State) (records : list LogRecord) : Prop :=
  log (snd (m st)) = (log st ++ records)%list.

(** The outside calls a run makes. *)
Definition called {A} (m : M A) (st : State) (cs : list Call) : Prop :=
  calls (snd (m st)) = (calls st ++ cs)%list.

(** A run that raises an [HTTPError] carrying the response [r], and so
    its status, and returns nothing. *)
Definition raises_http_error {A} (m : M A) (st : State) (r : Response) : Prop :=
  exists e,
    raises m st e /\
    exn_cls e = HTTPError /\
    exn_response e = Some r /\
    status_code <$> exn_response e = Some (status_code r) /\
    forall a, ~ returns m st a.

(** A run that ends with the value [a] and with no exception. *)
Definition returns_only {A} (m : M A) (st : State) (a : A) : Prop :=
  returns m st a /\ forall e, ~ raises m st e.

(** The shape of a mutating operation [op] around its request: from a
    state [st0] that differs from [st] by log records only, the request
    runs; when it returns, [op] returns [true]; when it raises [e], [op]
    returns [false] after the record [failure e] and the records about the
    response of [e].  Either way [op] raises nothing. *)
Definition reports_boolean {A} (op : M bool) (st : State) (request : M A)
    (failure : exn -> LogRecord) : Prop :=
  exists pre,
    match request (with_records st pre) with
    | (Ok _, _) => returns_only op st true
    | (Raise e, st1) =>
        returns_only op st false /\
        log (snd (op st)) = (log st1 ++ failure e :: response_records e)%list
    end.

(** An outside call that is either a token acquisition or an HTTP request
    satisfying [good]. *)
Definition call_ok (good : Request -> Prop) (c : Call) : Prop :=
  match c with
  | GetToken _ => True
  | HttpRequest req => good req
  end.

(** Every HTTP request a run of [m] sends satisfies [good], from whatever
    state it starts and however the outside answers. *)
Definition sends_only (good : Request -> Prop) {A} (m : M A) : Prop :=
  forall st, exists cs,
    calls (snd (m st)) = (calls st ++ cs)%list /\ Forall (call_ok good) cs.
End Vocabulary.

(** ** Sample backends

    Closed backends for the examples: the world has no state, the
    credential and the session give one scripted outcome each, and the
    decoder knows two documents and rejects everything else. *)

Definition sample_loads (s : string) : string + json :=
  if String.eqb s "{}" then inr (JObj ∅)
  else if String.eqb s "[]" then inr (JArr [])
  else inl "Expecting value: line 1 column 1 (char 0)".

Definition scripted (tok : exn + AccessToken) (resp : exn + Response) : Backend :=
  mkBackend unit (fun _ w => (tok, w)) (fun _ w => (resp, w)) sample_loads.

Definition sample_token : AccessToken := mkAccessToken "eyJ0" 1700000000.

Definition answering (r : Response) : Backend :=
  scripted (inr sample_token) (inr r).

Definition fresh (B : Backend) (w : @World B) : @State B := mkState w [] [].

Definition unavailable : exn :=
  mkExn CredentialUnavailableError
    "DefaultAzureCredential failed to retrieve a token from the included credentials."
    None.

Definition ok_object : Response :=
  mkResponse 200 "OK" "https://api.powerbi.com/v1.0/myorg/gateways" "{}".

(** A chain none of whose credentials is available: no environment
    variables, no managed identity endpoint, no Azure CLI session. *)
Definition environment_unavailable : exn :=
  mkExn CredentialUnavailableError
    "EnvironmentCredential authentication unavailable. Environment variables are not fully configured."
    None.

Definition managed_identity_unavailable : exn :=
  mkExn CredentialUnavailableError
    "ManagedIdentityCredential authentication unavailable, no response from the IMDS endpoint."
    None.

Definition cli_unavailable : exn :=
  mkExn CredentialUnavailableError "Please run 'az login' to set up an account" None.

Definition unavailable_strategy (e : exn) : Strategy unit :=
  fun _ w => (inl e, w).

Definition exhausted_message (history : list exn) : string :=
  "DefaultAzureCredential failed to retrieve a token from the included credentials.".

Definition exhausted_chain : Backend :=
  DefaultAzureCredential exhausted_message
    [ unavailable_strategy environment_unavailable;
      unavailable_strategy managed_identity_unavailable;
      unavailable_strategy cli_unavailable ]
    (fun _ w => (inr ok_object, w)) sample_loads.

Definition forbidden_users : Response :=
  mkResponse 403 "Forbidden"
    "https://api.powerbi.com/v1.0/myorg/gateways/gw1/datasources/ds1/users"
    "{}".

Definition ok_added : Response :=
  mkResponse 200 "OK" "https://api.powerbi.com/v1.0/myorg/groups/g1/users" "".

Definition forbidden : Response :=
  mkResponse 403 "Forbidden" "https://api.powerbi.com/v1.0/myorg/gateways"
    "{}".

Definition ok_html : Response :=
  mkResponse 200 "OK" "https://api.powerbi.com/v1.0/myorg/gateways"
    "<html></html>".

Definition ok_empty : Response :=
  mkResponse 200 "OK" "https://api.powerbi.com/v1.0/myorg/groups/g1/users/u1"
    "".

(** * Vocabulary of the further properties *)

(** [len(v)] as a value: the size of a string, a list or a dictionary, and
    nothing for a value that has no length. *)
Definition sized (v : json) : option Z :=
  match v with
  | JStr s => Some (Z.of_nat (code_points s))
  | JArr items => Some (Z.of_nat (List.length items))
  | JObj d => Some (Z.of_nat (size d))
  | _ => None
  end.

(** A decoded value that is a mapping. *)
Definition is_mapping (v : json) : bool :=
  match v with
  | JObj _ => true
  | _ => false
  end.

(** An optional string argument that counts as given: neither [None] nor
    the empty string. *)
Definition given (o : option string) : option string :=
  if truthy_str o then o else None.

(** An optional integer argument that counts as given: neither [None] nor
    zero. *)
Definition given_int (o : option Z) : option Z :=
  if truthy_int o then o else None.

(** An optional dictionary argument that counts as given: neither [None]
    nor empty. *)
Definition given_dict (o : option (gmap string json)) : option (gmap string json) :=
  if truthy_dict o then o else None.

(** The exception Python raises when [v.get("value", [])] and then [len]
    are applied to a decoded body [v] they do not fit: an [AttributeError]
    for a body that is no mapping, a [TypeError] for a ["value"] without a
    length; nothing for the other bodies. *)
Definition listing_failure (v : json) : option exn :=
  match v with
  | JObj d =>
      match d !! "value" with
      | Some u =>
          match sized u with
          | None =>
              Some (mkExn TypeError
                      ("object of type '" ++ type_name u ++ "' has no len()") None)
          | Some _ => None
          end
      | None => None
      end
  | _ =>
      Some (mkExn AttributeError
              ("'" ++ type_name v ++ "' object has no attribute 'get'") None)
  end.

Section FurtherVocabulary.
Context `{B : Backend}.

(** The record of [_request] for an exception of the requests family
    raised by the session. *)
Definition transport_record (e : exn) : LogRecord :=
  mkLog ERROR [Txt "Request exception occurred: "; Exc e].

(** The exception that takes the place of an [HTTPError] raised by
    [session.request] itself: reading the unbound local [response]. *)
Definition unbound_response : exn :=
  mkExn UnboundLocalError
    "cannot access local variable 'response' where it is not associated with a value"
    None.

(** The common body of [get_gateways], [get_gateway_datasources] and
    [get_workspaces]: announce, [get], take ["value"], count, report. *)
Definition listing (intro : list piece) (endpoint : string)
    (params : option (gmap string json)) (after : list piece) : M json :=
  logger INFO intro;;
  response ← PowerBIClient.get endpoint params;
  items ← dict_get response "value" (JArr []);
  n ← len items;
  logger INFO (Txt "Found " :: Num n :: after);;
  mret items.

(** The [try] block shared by [get_gateway_datasource_users] and
    [get_workspace_users]. *)
Definition users_try (endpoint : string) (after : list piece) : M json :=
  response ← PowerBIClient.get endpoint None;
  users ← dict_get response "value" (JArr []);
  n ← len users;
  logger INFO (Txt "Found " :: Num n :: after);;
  mret users.

(** The records [add_datasource_user] writes before its [try]. *)
Definition datasource_user_preamble (gateway_id datasource_id principal_id
    principal_type access_right : string) (email_address : option string)
    (profile : option (gmap string json)) : list LogRecord :=
  mkLog INFO [Txt "Adding "; Txt principal_type; Txt " (ID: "; Txt principal_id;
              Txt ") to datasource "; Txt datasource_id; Txt " on gateway ";
              Txt gateway_id; Txt " with rights: "; Txt access_right]
  :: (if String.eqb principal_type "ServicePrincipal" && truthy_dict profile
      then []
      else if String.eqb principal_type "User" && negb (truthy_str email_address)
      then [ mkLog WARNING [Txt "Adding a user principal ("; Txt principal_id;
                            Txt ") without an emailAddress is often problematic."] ]
      else []).

(** The records [add_workspace_user] writes before its [try]. *)
Definition workspace_user_preamble (workspace_id identifier principal_type
    access_right : string) (email_address : option string) : list LogRecord :=
  mkLog INFO [Txt "Adding "; Txt principal_type; Txt " ("; Txt identifier;
              Txt ") to workspace "; Txt workspace_id; Txt " with rights: ";
              Txt access_right]
  :: (if String.eqb principal_type "User" && negb (truthy_str email_address)
      then [ mkLog WARNING [Txt "Adding User principal ("; Txt identifier;
                            Txt ") without explicit emailAddress. Assuming identifier is email/UPN."] ]
      else []).

(** The outcome of a mutating operation as a function of the outcome of
    its request: [true] after the record [done], or [false] after the
    record [failure e] and the records about the response of [e]. *)
Definition boolean_of {A} (outcome : Result A * State) (done : list piece)
    (failure : exn -> LogRecord) : Result bool * State :=
  match outcome with
  | (Ok _, st1) => (Ok true, with_records st1 [mkLog INFO done])
  | (Raise e, st1) => (Ok false, with_records st1 (failure e :: response_records e))
  end.

(** The one GET a listing sends with the token [t]. *)
Definition one_get (t : AccessToken) (endpoint : string)
    (params : option (gmap string json)) : list Call :=
  [ GetToken PowerBIAuth.scope;
    HttpRequest
      (mkRequest "GET" (PowerBIClient.BASE_URL ++ "/" ++ endpoint) (headers_of t)
         params None) ].

(** A run that makes no outside call, from whatever state. *)
Definition silent {A} (m : M A) : Prop :=
  forall st, calls (snd (m st)) = calls st /\ world (snd (m st)) = world st.

(** A run that ends with a value, from whatever state. *)
Definition never_raises {A} (m : M A) : Prop :=
  forall st, exists a st', m st = (Ok a, st').
End FurtherVocabulary.

(** ** More sample data *)

Definition timed_out : exn :=
  mkExn RequestException
    "HTTPSConnectionPool(host='api.powerbi.com', port=443): Read timed out."
    None.

Definition stray_http_error : exn :=
  mkExn HTTPError "502 Server Error: Bad Gateway" None.

Definition broken_pipe : exn :=
  mkExn Exception "[Errno 32] Broken pipe" None.

Definition not_modified : Response :=
  mkResponse 304 "Not Modified" "https://api.powerbi.com/v1.0/myorg/gateways" "".

Definition no_content_with_body : Response :=
  mkResponse 204 "No Content" "https://api.powerbi.com/v1.0/myorg/gateways" "[]".

Definition ok_list : Response :=
  mkResponse 200 "OK" "https://api.powerbi.com/v1.0/myorg/gateways" "[]".

(** A backend whose credential hands out a new token at every call: the
    world counts the tokens granted so far. *)
Definition rotating : Backend :=
  mkBackend nat
    (fun _ n =>
       (inr (mkAccessToken (if Nat.eqb n 0 then "first" else "second") 0), S n))
    (fun _ n => (inr ok_object, n))
    sample_loads.

(** The double quote, for the bodies of the examples. *)
Definition dq : string := String (Ascii.ascii_of_nat 34) "".

(** The body [{"value": [{"id": "g1"}, {"id": "g2"}]}] and its decoding. *)
Definition two_items_body : string :=
  "{" ++ dq ++ "value" ++ dq ++ ": [{" ++ dq ++ "id" ++ dq ++ ": " ++ dq ++ "g1" ++ dq
  ++ "}, {" ++ dq ++ "id" ++ dq ++ ": " ++ dq ++ "g2" ++ dq ++ "}]}".

Definition two_items : list json :=
  [ JObj {[ "id" := JStr "g1" ]}; JObj {[ "id" := JStr "g2" ]} ].

(** The body [{"value": null}]. *)
Definition null_value_body : string :=
  "{" ++ dq ++ "value" ++ dq ++ ": null}".

(** A decoder for the examples that knows these two bodies besides the
    two documents of [sample_loads]. *)
Definition listing_loads (s : string) : string + json :=
  if String.eqb s two_items_body
  then inr (JObj {[ "value" := JArr two_items ]})
  else if String.eqb s null_value_body
  then inr (JObj {[ "value" := JNull ]})
  else sample_loads s.

(** A backend that grants [sample_token], answers with [r] and decodes
    with [listing_loads]. *)
Definition listing_backend (r : Response) : Backend :=
  mkBackend unit (fun _ w => (inr sample_token, w)) (fun _ w => (inr r, w))
    listing_loads.

Definition ok_two_items : Response :=
  mkResponse 200 "OK" "https://api.powerbi.com/v1.0/myorg/gateways" two_items_body.

Definition ok_null_value : Response :=
  mkResponse 200 "OK" "https://api.powerbi.com/v1.0/myorg/gateways" null_value_body.

(** * Properties *)

(** ** The monad *)

Section MonadFacts.
Context `{B : Backend}.

Lemma bind_ok {A C} (m : M A) (f : A -> M C) st a st' :
  m st = (Ok a, st') -> (m ≫= f) st = f a st'.
Proof. intros H. unfold mbind, M_bind. now rewrite H. Qed.

Lemma bind_raise {A C} (m : M A) (f : A -> M C) st e st' :
  m st = (Raise e, st') -> (m ≫= f) st = (Raise e, st').
Proof. intros H. unfold mbind, M_bind. now rewrite H. Qed.

Lemma try_except_ok {A} (m : M A) hs st a st' :
  m st = (Ok a, st') -> try_except m hs st = (Ok a, st').
Proof. intros H. unfold try_except. now rewrite H. Qed.

Lemma try_except_caught {A} (m : M A) hs st e st' h :
  m st = (Raise e, st') ->
  List.find (fun h => isinstance e (fst h)) hs = Some h ->
  try_except m hs st = snd h e st'.
Proof. intros H F. unfold try_except. now rewrite H, F. Qed.

Lemma isinstance_Exception e : isinstance e Exception = true.
Proof. reflexivity. Qed.

(** An [except Exception] clause catches whatever the block raises. *)
Lemma try_except_Exception {A} (m : M A) (h : exn -> M A) st e st' :
  m st = (Raise e, st') ->
  try_except m [(Exception, h)] st = h e st'.
Proof. intros H. unfold try_except. now rewrite H. Qed.

Lemma logger_run l parts st :
  logger l parts st = (Ok tt, mkState (world st) (log st ++ [mkLog l parts]) (calls st)).
Proof. reflexivity. Qed.
End MonadFacts.

(** ** Strings *)

Lemma append_nonempty (a b : string) : b <> "" -> String.eqb (a ++ b) "" = false.
Proof.
  intros Hb. destruct a as [|c a]; simpl.
  - destruct b; [congruence | reflexivity].
  - reflexivity.
Qed.

(** ** [raise_for_status] and [Response.json] *)

Section BuiltinFacts.
Context `{B : Backend}.

Lemma raise_for_status_error r st :
  is_http_error (status_code r) = true ->
  exists msg, raise_for_status r st = (Raise (mkExn HTTPError msg (Some r)), st).
Proof.
  unfold is_http_error, raise_for_status. intros H.
  apply andb_true_iff in H as [H1 H2].
  rewrite H1. simpl.
  destruct (status_code r <? 500)%Z eqn:E5.
  - eexists. rewrite append_nonempty by discriminate. reflexivity.
  - assert (H5 : (500 <=? status_code r)%Z = true) by lia.
    rewrite H5, H2. simpl.
    eexists. rewrite append_nonempty by discriminate. reflexivity.
Qed.

Lemma raise_for_status_pass r st :
  is_http_error (status_code r) = false ->
  raise_for_status r st = (Ok tt, st).
Proof.
  unfold is_http_error, raise_for_status. intros H.
  destruct (400 <=? status_code r)%Z eqn:E4; simpl in *.
  - rewrite H.
    assert (H5 : (status_code r <? 500)%Z = false) by lia.
    rewrite H5. rewrite andb_false_r. reflexivity.
  - assert (H5 : (500 <=? status_code r)%Z = false) by lia.
    rewrite H5. reflexivity.
Qed.

Lemma Response_json_invalid r msg st :
  json_loads (content r) = inl msg ->
  Response_json r st = (Raise (mkExn JSONDecodeError msg None), st).
Proof. intros H. unfold Response_json. now rewrite H. Qed.

Lemma Response_json_valid r v st :
  json_loads (content r) = inr v ->
  Response_json r st = (Ok v, st).
Proof. intros H. unfold Response_json. now rewrite H. Qed.
End BuiltinFacts.

(** ** [get_access_token] *)

Section AuthFacts.
Context `{B : Backend}.

Lemma get_access_token_granted st t w1 :
  grants (world st) t w1 ->
  PowerBIAuth.get_access_token st =
    (Ok (token t),
     mkState w1 (log st ++ token_records) (calls st ++ [GetToken PowerBIAuth.scope])).
Proof.
  unfold grants. intros H.
  unfold PowerBIAuth.get_access_token, try_except, mbind, M_bind, mret, M_ret,
    call_get_token, logger.
  simpl. rewrite H. simpl. rewrite <- app_assoc. reflexivity.
Qed.

(** Whatever [credential.get_token] raises leaves [get_access_token]
    unchanged, after one or two error records. *)
Lemma get_access_token_refused st e w1 :
  credential_get_token PowerBIAuth.scope (world st) = (inl e, w1) ->
  PowerBIAuth.get_access_token st =
    (Raise e,
     mkState w1 (log st ++ token_failure_records e)
       (calls st ++ [GetToken PowerBIAuth.scope])).
Proof.
  intros H.
  unfold PowerBIAuth.get_access_token, try_except, mbind, M_bind, mret, M_ret,
    call_get_token, logger, token_failure_records, isinstance.
  simpl. rewrite H. simpl.
  destruct (exn_class_eqb (exn_cls e) CredentialUnavailableError); simpl;
    unfold raise; simpl; rewrite <- ?app_assoc; reflexivity.
Qed.
End AuthFacts.

(** ** [_request] *)

Section RequestFacts.
Context `{B : Backend}.

(** Up to the answer of the session. *)
Lemma _request_answered st method endpoint kwargs t w1 r w2 :
  grants (world st) t w1 ->
  session_request (request_of method endpoint t kwargs) w1 = (inr r, w2) ->
  PowerBIClient._request method endpoint kwargs st =
    try_except
      (raise_for_status r;;
       logger DEBUG [Txt "Request successful: "; Num (status_code r)];;
       mret r)
      (PowerBIClient._request_handlers (Some r))
      (mkState w2 (log st ++ request_records method endpoint)
         (calls st ++ exchange_calls method endpoint t kwargs)).
Proof.
  intros G S. unfold PowerBIClient._request, PowerBIClient._get_headers.
  erewrite bind_ok.
  2: { erewrite bind_ok; [| apply (get_access_token_granted _ _ _ G)]. reflexivity. }
  erewrite bind_ok; [| apply logger_run].
  erewrite bind_ok.
  2: { apply try_except_ok. unfold call_session_request. simpl.
       unfold request_of, headers_of in S. rewrite S. reflexivity. }
  simpl. unfold request_records, exchange_calls. rewrite <- !app_assoc. reflexivity.
Qed.

(** A response whose status passes [raise_for_status] is returned. *)
Lemma _request_ok st method endpoint kwargs t w1 r w2 :
  grants (world st) t w1 ->
  session_request (request_of method endpoint t kwargs) w1 = (inr r, w2) ->
  is_http_error (status_code r) = false ->
  PowerBIClient._request method endpoint kwargs st =
    (Ok r,
     mkState w2 (log st ++ success_records method endpoint r)
       (calls st ++ exchange_calls method endpoint t kwargs)).
Proof.
  intros G S E. rewrite (_request_answered _ _ _ _ _ _ _ _ G S).
  apply try_except_ok.
  erewrite bind_ok; [| apply raise_for_status_pass, E].
  erewrite bind_ok; [| apply logger_run].
  simpl. unfold success_records. rewrite <- !app_assoc. reflexivity.
Qed.

(** A response with a status in 400..599 comes back as an [HTTPError]
    that carries it, after one error record. *)
Lemma _request_http_error st method endpoint kwargs t w1 r w2 :
  grants (world st) t w1 ->
  session_request (request_of method endpoint t kwargs) w1 = (inr r, w2) ->
  is_http_error (status_code r) = true ->
  exists msg,
    let e := mkExn HTTPError msg (Some r) in
    PowerBIClient._request method endpoint kwargs st =
      (Raise e,
       mkState w2
         (log st ++ request_records method endpoint ++
          [ mkLog ERROR [Txt "HTTP error occurred: "; Exc e; Txt " - "; Txt (text r)] ])
         (calls st ++ exchange_calls method endpoint t kwargs)).
Proof.
  intros G S E. rewrite (_request_answered _ _ _ _ _ _ _ _ G S).
  destruct (raise_for_status_error r
              (mkState w2 (log st ++ request_records method endpoint)
                 (calls st ++ exchange_calls method endpoint t kwargs)) E)
    as [msg Hmsg].
  exists msg. simpl.
  erewrite try_except_caught.
  2: { erewrite bind_raise; [reflexivity | apply Hmsg]. }
  2: { reflexivity. }
  simpl. unfold mbind, M_bind, logger, raise. simpl.
  rewrite <- !app_assoc. reflexivity.
Qed.
End RequestFacts.

(** ** [get], [post] and [delete] on an answered request *)

Section ClientFacts.
Context `{B : Backend}.

Lemma success_is_not_error s : is_success s = true -> is_http_error s = false.
Proof. unfold is_success, is_http_error. lia. Qed.

(** An [HTTPError] raised by the first step of a sequence is the
    outcome of the sequence. *)
Lemma http_error_through_bind {A C} (m : M A) (k : A -> M C) st msg r st' :
  m st = (Raise (mkExn HTTPError msg (Some r)), st') ->
  raises_http_error (m ≫= k) st r.
Proof.
  intros H. exists (mkExn HTTPError msg (Some r)). repeat split.
  - exists st'. now apply bind_raise.
  - intros a [st'' Ha]. erewrite bind_raise in Ha by apply H. discriminate.
Qed.

Lemma get_http_error st endpoint params r :
  is_http_error (status_code r) = true ->
  answers (world st) "GET" endpoint (mkKwargs params None) r ->
  raises_http_error (PowerBIClient.get endpoint params) st r.
Proof.
  intros E (t & w1 & w2 & G & S).
  destruct (_request_http_error _ _ _ _ _ _ _ _ G S E) as [msg H].
  eapply http_error_through_bind, H.
Qed.

Lemma post_http_error st endpoint json_body r :
  is_http_error (status_code r) = true ->
  answers (world st) "POST" endpoint (mkKwargs None json_body) r ->
  raises_http_error (PowerBIClient.post endpoint json_body) st r.
Proof.
  intros E (t & w1 & w2 & G & S).
  destruct (_request_http_error _ _ _ _ _ _ _ _ G S E) as [msg H].
  eapply http_error_through_bind, H.
Qed.

Lemma delete_http_error st endpoint params r :
  is_http_error (status_code r) = true ->
  answers (world st) "DELETE" endpoint (mkKwargs params None) r ->
  raises_http_error (PowerBIClient.delete endpoint params) st r.
Proof.
  intros E (t & w1 & w2 & G & S).
  destruct (_request_http_error _ _ _ _ _ _ _ _ G S E) as [msg H].
  eapply http_error_through_bind, H.
Qed.

(** [get] on a response that passes [raise_for_status]: the decoding of
    its body decides. *)
Lemma get_answered st endpoint params t w1 r w2 :
  grants (world st) t w1 ->
  session_request (request_of "GET" endpoint t (mkKwargs params None)) w1 = (inr r, w2) ->
  is_http_error (status_code r) = false ->
  PowerBIClient.get endpoint params st =
    Response_json r
      (mkState w2 (log st ++ success_records "GET" endpoint r)
         (calls st ++ exchange_calls "GET" endpoint t (mkKwargs params None))).
Proof.
  intros G S E. unfold PowerBIClient.get.
  erewrite bind_ok; [reflexivity | now eapply _request_ok; eauto].
Qed.

(** [post] on a response that passes [raise_for_status] and whose body
    does not decode. *)
Lemma post_not_json st endpoint json_body t w1 r w2 :
  grants (world st) t w1 ->
  session_request (request_of "POST" endpoint t (mkKwargs None json_body)) w1 = (inr r, w2) ->
  is_http_error (status_code r) = false ->
  not_json r ->
  PowerBIClient.post endpoint json_body st =
    (Ok (JObj ∅),
     mkState w2
       (log st ++ success_records "POST" endpoint r ++
        (if (status_code r =? 204)%Z then [] else [post_warning endpoint r]))
       (calls st ++ exchange_calls "POST" endpoint t (mkKwargs None json_body))).
Proof.
  intros G S E [msg N]. unfold PowerBIClient.post.
  erewrite bind_ok; [| now eapply _request_ok; eauto].
  destruct (status_code r =? 204)%Z.
  - rewrite app_nil_r. reflexivity.
  - erewrite try_except_caught;
      [| apply Response_json_invalid, N | reflexivity].
    simpl. unfold mbind, M_bind, logger, mret, M_ret, post_warning. simpl.
    rewrite <- !app_assoc. reflexivity.
Qed.

(** [delete] on a response that passes [raise_for_status] and whose body
    does not decode. *)
Lemma delete_not_json st endpoint params t w1 r w2 :
  grants (world st) t w1 ->
  session_request (request_of "DELETE" endpoint t (mkKwargs params None)) w1 = (inr r, w2) ->
  is_http_error (status_code r) = false ->
  not_json r ->
  PowerBIClient.delete endpoint params st =
    (Ok (JObj ∅),
     mkState w2
       (log st ++ success_records "DELETE" endpoint r ++
        [ if delete_shortcut r then delete_no_content endpoint r
          else delete_warning endpoint r ])
       (calls st ++ exchange_calls "DELETE" endpoint t (mkKwargs params None))).
Proof.
  intros G S E [msg N]. unfold PowerBIClient.delete.
  erewrite bind_ok; [| now eapply _request_ok; eauto].
  fold (delete_shortcut r). destruct (delete_shortcut r).
  - unfold mbind, M_bind, logger, mret, M_ret, delete_no_content. simpl.
    rewrite <- !app_assoc. reflexivity.
  - erewrite try_except_caught;
      [| apply Response_json_invalid, N | reflexivity].
    simpl. unfold mbind, M_bind, logger, mret, M_ret, delete_warning. simpl.
    rewrite <- !app_assoc. reflexivity.
Qed.

(** No record of a successful [_request] is a warning. *)
Lemma success_records_no_warning method endpoint r :
  at_level WARNING (success_records method endpoint r) = [].
Proof. reflexivity. Qed.

End ClientFacts.

(** C1. For every response with a 4xx or 5xx status, each of [get], [post]
    and [delete] raises an [HTTPError] that carries the response, hence a
    status equal to the response's status, and returns no mapping: the
    error leaves the client layer as it is. *)
Theorem C1_error_status_raises `{B : Backend} (st : State) (endpoint : string)
    (params json_body : option (gmap string json)) (r : Response) :
  is_http_error (status_code r) = true ->
  (answers (world st) "GET" endpoint (mkKwargs params None) r ->
   raises_http_error (PowerBIClient.get endpoint params) st r) /\
  (answers (world st) "POST" endpoint (mkKwargs None json_body) r ->
   raises_http_error (PowerBIClient.post endpoint json_body) st r) /\
  (answers (world st) "DELETE" endpoint (mkKwargs params None) r ->
   raises_http_error (PowerBIClient.delete endpoint params) st r).
Proof.
  intros E. repeat split; intros A.
  - now apply get_http_error.
  - now apply post_http_error.
  - now apply delete_http_error.
Qed.

Lemma C1_error_status_raises_witness :
  is_http_error (status_code forbidden) = true /\
  raises_http_error (B := answering forbidden)
    (PowerBIClient.get "gateways" None) (fresh (answering forbidden) tt) forbidden /\
  raises_http_error (B := answering forbidden)
    (PowerBIClient.post "gateways" None) (fresh (answering forbidden) tt) forbidden /\
  raises_http_error (B := answering forbidden)
    (PowerBIClient.delete "gateways" None) (fresh (answering forbidden) tt) forbidden.
Proof.
  destruct (C1_error_status_raises (B := answering forbidden) (fresh (answering forbidden) tt)
              "gateways" None None forbidden eq_refl) as (Hget & Hpost & Hdelete).
  split; [reflexivity |].
  split; [| split]; [apply Hget | apply Hpost | apply Hdelete];
    exists sample_token, tt, tt; split; reflexivity.
Defined.

Section Determinism.
Context `{B : Backend}.

Lemma returns_is_only {A} (m : M A) st a : returns m st a -> returns_only m st a.
Proof.
  intros [st' H]. split; [now exists st' |].
  intros e [st'' H']. rewrite H in H'. discriminate.
Qed.

Lemma raises_not_returns {A} (m : M A) st e a : raises m st e -> ~ returns m st a.
Proof. intros [st' H] [st'' H']. rewrite H in H'. discriminate. Qed.

Lemma at_level_app l (xs ys : list LogRecord) :
  at_level l (xs ++ ys) = (at_level l xs ++ at_level l ys)%list.
Proof. unfold at_level. apply List.filter_app. Qed.
End Determinism.

(** ** Tolerance of [post] and [delete], and its absence in [get] *)

Section Tolerance.
Context `{B : Backend}.

Lemma post_tolerates st endpoint json_body r :
  is_http_error (status_code r) = false ->
  not_json r ->
  answers (world st) "POST" endpoint (mkKwargs None json_body) r ->
  returns_only (PowerBIClient.post endpoint json_body) st (JObj ∅) /\
  exists records,
    logged (PowerBIClient.post endpoint json_body) st records /\
    at_level WARNING records =
      if (status_code r =? 204)%Z then [] else [post_warning endpoint r].
Proof.
  intros E N (t & w1 & w2 & G & S).
  pose proof (post_not_json _ _ _ _ _ _ _ G S E N) as R.
  split.
  - apply returns_is_only. eexists. apply R.
  - eexists. split.
    + unfold logged. rewrite R. reflexivity.
    + rewrite at_level_app, success_records_no_warning.
      destruct (status_code r =? 204)%Z; reflexivity.
Qed.

Lemma delete_tolerates st endpoint params r :
  is_http_error (status_code r) = false ->
  not_json r ->
  answers (world st) "DELETE" endpoint (mkKwargs params None) r ->
  returns_only (PowerBIClient.delete endpoint params) st (JObj ∅) /\
  exists records,
    logged (PowerBIClient.delete endpoint params) st records /\
    at_level WARNING records =
      if delete_shortcut r then [] else [delete_warning endpoint r].
Proof.
  intros E N (t & w1 & w2 & G & S).
  pose proof (delete_not_json _ _ _ _ _ _ _ G S E N) as R.
  split.
  - apply returns_is_only. eexists. apply R.
  - eexists. split.
    + unfold logged. rewrite R. reflexivity.
    + rewrite at_level_app, success_records_no_warning.
      destruct (delete_shortcut r); reflexivity.
Qed.

Lemma get_propagates st endpoint params r :
  is_http_error (status_code r) = false ->
  not_json r ->
  answers (world st) "GET" endpoint (mkKwargs params None) r ->
  exists e,
    raises (PowerBIClient.get endpoint params) st e /\
    exn_cls e = JSONDecodeError /\
    forall v, ~ returns (PowerBIClient.get endpoint params) st v.
Proof.
  intros E [msg N] (t & w1 & w2 & G & S).
  assert (R : raises (PowerBIClient.get endpoint params) st
                (mkExn JSONDecodeError msg None)).
  { eexists. rewrite (get_answered _ _ _ _ _ _ _ G S E).
    apply Response_json_invalid, N. }
  eexists. split; [apply R |]. split; [reflexivity |].
  intros v. eapply raises_not_returns, R.
Qed.
End Tolerance.

(** C2, as amended.  For every response with a 2xx status whose body is
    not valid JSON: [post] and [delete] return an empty mapping and do not
    raise; the warning is written except on the no-content paths ([post]
    at status 204, [delete] at status 200 or 204 with an empty body);
    [get] has no such tolerance and raises the [JSONDecodeError]. *)
Theorem C2_malformed_success_post_delete `{B : Backend} (st : State)
    (endpoint : string) (params json_body : option (gmap string json))
    (r : Response) :
  is_success (status_code r) = true ->
  not_json r ->
  (answers (world st) "POST" endpoint (mkKwargs None json_body) r ->
   returns_only (PowerBIClient.post endpoint json_body) st (JObj ∅) /\
   exists records,
     logged (PowerBIClient.post endpoint json_body) st records /\
     at_level WARNING records =
       if (status_code r =? 204)%Z then [] else [post_warning endpoint r]) /\
  (answers (world st) "DELETE" endpoint (mkKwargs params None) r ->
   returns_only (PowerBIClient.delete endpoint params) st (JObj ∅) /\
   exists records,
     logged (PowerBIClient.delete endpoint params) st records /\
     at_level WARNING records =
       if delete_shortcut r then [] else [delete_warning endpoint r]) /\
  (answers (world st) "GET" endpoint (mkKwargs params None) r ->
   exists e,
     raises (PowerBIClient.get endpoint params) st e /\
     exn_cls e = JSONDecodeError /\
     forall v, ~ returns (PowerBIClient.get endpoint params) st v).
Proof.
  intros Hs N. apply success_is_not_error in Hs.
  split; [| split]; intros A.
  - now apply (post_tolerates st endpoint json_body r).
  - now apply (delete_tolerates st endpoint params r).
  - now apply (get_propagates st endpoint params r).
Qed.

Lemma C2_malformed_success_post_delete_witness :
  is_success (status_code ok_html) = true /\
  not_json (B := answering ok_html) ok_html /\
  returns_only (B := answering ok_html)
    (PowerBIClient.post "gateways" None) (fresh (answering ok_html) tt) (JObj ∅) /\
  returns_only (B := answering ok_html)
    (PowerBIClient.delete "gateways" None) (fresh (answering ok_html) tt) (JObj ∅).
Proof.
  assert (N : not_json (B := answering ok_html) ok_html) by (eexists; reflexivity).
  destruct (C2_malformed_success_post_delete (B := answering ok_html)
              (fresh (answering ok_html) tt) "gateways" None None ok_html eq_refl N)
    as (Hpost & Hdelete & _).
  split; [reflexivity |]. split; [exact N |].
  split; [apply Hpost | apply Hdelete];
    exists sample_token, tt, tt; split; reflexivity.
Defined.

(** C2 fails as stated: a 200 response with an HTML body makes [get] raise
    the [JSONDecodeError]; it returns no mapping and writes no warning. *)
Lemma C2_get_counterexample :
  is_success (status_code ok_html) = true /\
  not_json (B := answering ok_html) ok_html /\
  answers (B := answering ok_html) tt "GET" "gateways" (mkKwargs None None) ok_html /\
  (exists e,
     raises (B := answering ok_html)
       (PowerBIClient.get "gateways" None) (fresh (answering ok_html) tt) e /\
     exn_cls e = JSONDecodeError) /\
  ~ returns (B := answering ok_html)
      (PowerBIClient.get "gateways" None) (fresh (answering ok_html) tt) (JObj ∅) /\
  at_level WARNING
    (log (snd (PowerBIClient.get (B := answering ok_html) "gateways" None
                 (fresh (answering ok_html) tt)))) = [].
Proof.
  assert (R : raises (B := answering ok_html)
                (PowerBIClient.get "gateways" None) (fresh (answering ok_html) tt)
                (mkExn JSONDecodeError "Expecting value: line 1 column 1 (char 0)" None)).
  { eexists. vm_compute. reflexivity. }
  split; [reflexivity |].
  split; [eexists; reflexivity |].
  split; [exists sample_token, tt, tt; split; reflexivity |].
  split; [eexists; split; [apply R | reflexivity] |].
  split; [eapply raises_not_returns, R |].
  vm_compute. reflexivity.
Qed.

(** C3. For every 2xx response with an empty body, [post] and [delete]
    return an empty mapping and raise nothing.  The decoder behind
    [Response.json()] rejects the empty document, as JSON requires. *)
Theorem C3_empty_body_success `{B : Backend} (st : State) (endpoint : string)
    (params json_body : option (gmap string json)) (r : Response) (msg : string) :
  json_loads "" = inl msg ->
  is_success (status_code r) = true ->
  content r = "" ->
  (answers (world st) "POST" endpoint (mkKwargs None json_body) r ->
   returns_only (PowerBIClient.post endpoint json_body) st (JObj ∅)) /\
  (answers (world st) "DELETE" endpoint (mkKwargs params None) r ->
   returns_only (PowerBIClient.delete endpoint params) st (JObj ∅)).
Proof.
  intros D Hs Hc.
  assert (N : not_json r) by (exists msg; now rewrite Hc).
  apply success_is_not_error in Hs.
  split; intros (t & w1 & w2 & G & S); apply returns_is_only; eexists.
  - apply (post_not_json _ _ _ _ _ _ _ G S Hs N).
  - apply (delete_not_json _ _ _ _ _ _ _ G S Hs N).
Qed.

Lemma C3_empty_body_success_witness :
  json_loads (Backend := answering ok_empty) "" =
    inl "Expecting value: line 1 column 1 (char 0)" /\
  is_success (status_code ok_empty) = true /\
  content ok_empty = "" /\
  returns_only (B := answering ok_empty)
    (PowerBIClient.post "groups/g1/users/u1" None) (fresh (answering ok_empty) tt)
    (JObj ∅) /\
  returns_only (B := answering ok_empty)
    (PowerBIClient.delete "groups/g1/users/u1" None) (fresh (answering ok_empty) tt)
    (JObj ∅).
Proof.
  destruct (C3_empty_body_success (B := answering ok_empty)
              (fresh (answering ok_empty) tt) "groups/g1/users/u1" None None ok_empty
              _ eq_refl eq_refl eq_refl) as (Hpost & Hdelete).
  repeat (split; [reflexivity |]).
  split; [apply Hpost | apply Hdelete];
    exists sample_token, tt, tt; split; reflexivity.
Defined.

(** C4, as amended.  For every 200 response whose body is not valid JSON,
    [post] and [delete] return an empty mapping and do not raise; [post]
    writes its warning; [delete] writes its warning when the body is not
    empty, and with an empty body it takes the no-content path, whose only
    record is at debug level. *)
Theorem C4_ok_malformed_post_delete `{B : Backend} (st : State) (endpoint : string)
    (params json_body : option (gmap string json)) (r : Response) :
  status_code r = 200%Z ->
  not_json r ->
  (answers (world st) "POST" endpoint (mkKwargs None json_body) r ->
   returns_only (PowerBIClient.post endpoint json_body) st (JObj ∅) /\
   exists records,
     logged (PowerBIClient.post endpoint json_body) st records /\
     at_level WARNING records = [post_warning endpoint r]) /\
  (answers (world st) "DELETE" endpoint (mkKwargs params None) r ->
   returns_only (PowerBIClient.delete endpoint params) st (JObj ∅) /\
   exists records,
     logged (PowerBIClient.delete endpoint params) st records /\
     at_level WARNING records =
       if String.eqb (content r) "" then [] else [delete_warning endpoint r]).
Proof.
  intros H200 N.
  assert (E : is_http_error (status_code r) = false) by (now rewrite H200).
  split; intros A.
  - destruct (post_tolerates st endpoint json_body r E N A) as (R & records & L & W).
    split; [exact R |]. exists records. split; [exact L |].
    rewrite W, H200. reflexivity.
  - destruct (delete_tolerates st endpoint params r E N A) as (R & records & L & W).
    split; [exact R |]. exists records. split; [exact L |].
    rewrite W. unfold delete_shortcut. rewrite H200. reflexivity.
Qed.

Lemma C4_ok_malformed_post_delete_witness :
  status_code ok_html = 200%Z /\
  not_json (B := answering ok_html) ok_html /\
  (exists records,
     logged (B := answering ok_html) (PowerBIClient.post "gateways" None)
       (fresh (answering ok_html) tt) records /\
     at_level WARNING records = [post_warning "gateways" ok_html]) /\
  (exists records,
     logged (B := answering ok_html) (PowerBIClient.delete "gateways" None)
       (fresh (answering ok_html) tt) records /\
     at_level WARNING records = [delete_warning "gateways" ok_html]).
Proof.
  assert (N : not_json (B := answering ok_html) ok_html) by (eexists; reflexivity).
  destruct (C4_ok_malformed_post_delete (B := answering ok_html)
              (fresh (answering ok_html) tt) "gateways" None None ok_html eq_refl N)
    as (Hpost & Hdelete).
  split; [reflexivity |]. split; [exact N |].
  split; [apply Hpost | apply Hdelete];
    exists sample_token, tt, tt; split; reflexivity.
Defined.

(** C4 fails as stated: a 200 response with an empty body, which is not
    valid JSON, makes [delete] return the empty mapping with a debug
    record and no warning. *)
Lemma C4_delete_empty_counterexample :
  status_code ok_empty = 200%Z /\
  not_json (B := answering ok_empty) ok_empty /\
  answers (B := answering ok_empty) tt "DELETE" "groups/g1/users/u1"
    (mkKwargs None None) ok_empty /\
  returns (B := answering ok_empty)
    (PowerBIClient.delete "groups/g1/users/u1" None) (fresh (answering ok_empty) tt)
    (JObj ∅) /\
  logged (B := answering ok_empty)
    (PowerBIClient.delete "groups/g1/users/u1" None) (fresh (answering ok_empty) tt)
    (success_records "DELETE" "groups/g1/users/u1" ok_empty
       ++ [delete_no_content "groups/g1/users/u1" ok_empty]) /\
  at_level WARNING
    (log (snd (PowerBIClient.delete (B := answering ok_empty) "groups/g1/users/u1" None
                 (fresh (answering ok_empty) tt)))) = [].
Proof.
  split; [reflexivity |].
  split; [eexists; reflexivity |].
  split; [exists sample_token, tt, tt; split; reflexivity |].
  split; [eexists; vm_compute; reflexivity |].
  split; vm_compute; reflexivity.
Qed.

(** A chain none of whose credentials yields a token ends with its own
    [ClientAuthenticationError]. *)
Lemma chained_get_token_exhausted {W : Type} (render : list exn -> string)
    (credentials : list (Strategy W)) (scopes : list string) :
  Forall (fun credential : Strategy W =>
            forall sc w0, exists e w1, credential sc w0 = (inl e, w1)) credentials ->
  forall history w,
    exists msg w',
      chained_get_token render credentials history scopes w
      = (inl (mkExn ClientAuthenticationError msg None), w').
Proof.
  induction 1 as [| credential rest Hc _ IH]; intros history w; simpl.
  - eexists. eexists. reflexivity.
  - destruct (Hc scopes w) as (e & w1 & E). rewrite E.
    unfold isinstance. simpl.
    destruct (exn_class_eqb (exn_cls e) CredentialUnavailableError).
    + apply IH.
    + eexists. eexists. reflexivity.
Qed.

(** C5. The code misses the claim.  When every credential of the chain
    fails to produce a token, [DefaultAzureCredential.get_token] raises a
    [ClientAuthenticationError] of its own, which is no
    [CredentialUnavailableError]: [get_access_token] handles it in its
    general [except] clause, writes the record of an unexpected error
    instead of the remediation, and raises it.  The chain is asked once,
    the exception is raised once and no token is returned; but the
    exception is not the [CredentialUnavailableError] that the claim, and
    the docstring of [get_access_token], announce. *)
Theorem C5_exhausted_chain_raises_client_authentication_error {W : Type}
    (render : list exn -> string) (credentials : list (Strategy W))
    (session : Request -> W -> (exn + Response) * W)
    (loads : string -> string + json)
    (w : W) (records : list LogRecord) (cs : list Call) :
  Forall (fun credential : Strategy W =>
            forall sc w0, exists e w1, credential sc w0 = (inl e, w1)) credentials ->
  let B := DefaultAzureCredential render credentials session loads in
  let st := mkState (B := B) (None, w) records cs in
  exists e,
    raises (B := B) PowerBIAuth.get_access_token st e /\
    exn_cls e = ClientAuthenticationError /\
    isinstance e CredentialUnavailableError = false /\
    (forall tok, ~ returns (B := B) PowerBIAuth.get_access_token st tok) /\
    called (B := B) PowerBIAuth.get_access_token st [GetToken PowerBIAuth.scope] /\
    logged (B := B) PowerBIAuth.get_access_token st
      [ mkLog INFO [Txt "Attempting to acquire token using DefaultAzureCredential..."];
        mkLog ERROR [Txt "An unexpected error occurred during token acquisition: ";
                     Exc e] ].
Proof.
  intros F B st.
  destruct (chained_get_token_exhausted render credentials PowerBIAuth.scope F [] w)
    as (msg & w' & E).
  set (e := mkExn ClientAuthenticationError msg None).
  assert (H : credential_get_token (Backend := B) PowerBIAuth.scope (world st)
              = (inl e, (None, w'))).
  { unfold B, st. simpl. unfold default_get_token. simpl. now rewrite E. }
  pose proof (get_access_token_refused (B := B) st e (None, w') H) as R.
  assert (Rs : raises (B := B) PowerBIAuth.get_access_token st e)
    by (eexists; apply R).
  exists e.
  split; [exact Rs |].
  split; [reflexivity |].
  split; [reflexivity |].
  split; [intros tok; eapply raises_not_returns, Rs |].
  unfold called, logged. rewrite R. split; reflexivity.
Qed.

Lemma C5_exhausted_chain_raises_client_authentication_error_witness :
  raises (B := exhausted_chain) PowerBIAuth.get_access_token
    (fresh exhausted_chain (None, tt))
    (mkExn ClientAuthenticationError
       "DefaultAzureCredential failed to retrieve a token from the included credentials."
       None) /\
  at_level ERROR
    (log (snd (PowerBIAuth.get_access_token (B := exhausted_chain)
                 (fresh exhausted_chain (None, tt)))))
  = [ mkLog ERROR
        [Txt "An unexpected error occurred during token acquisition: ";
         Exc (mkExn ClientAuthenticationError
                "DefaultAzureCredential failed to retrieve a token from the included credentials."
                None)] ].
Proof.
  destruct (C5_exhausted_chain_raises_client_authentication_error
              exhausted_message
              [ unavailable_strategy environment_unavailable;
                unavailable_strategy managed_identity_unavailable;
                unavailable_strategy cli_unavailable ]
              (fun _ w => (inr ok_object, w)) sample_loads tt [] [])
    as (e & R & _ & _ & _ & _ & L).
  { repeat constructor; intros sc w0; eexists; eexists; reflexivity. }
  assert (He : e = mkExn ClientAuthenticationError
                     "DefaultAzureCredential failed to retrieve a token from the included credentials."
                     None).
  { destruct R as [st' R]. vm_compute in R. now injection R as <-. }
  subst e. split; [exact R |].
  unfold logged in L. unfold fresh, exhausted_chain. rewrite L. reflexivity.
Defined.

(** ** The request URL *)

Lemma lstrip_separators (s : string) :
  exists n, s = separators n ++ lstrip "/" s.
Proof.
  induction s as [| c s IH].
  - exists O. reflexivity.
  - simpl. destruct (Ascii.eqb c "/") eqn:E.
    + apply Ascii.eqb_eq in E. subst c. destruct IH as [n IH].
      exists (S n).
      change (String "/" s = String "/" (separators n ++ lstrip "/" s)).
      f_equal. exact IH.
    + exists O. reflexivity.
Qed.

Lemma lstrip_no_leading_separator (s tail : string) :
  lstrip "/" s <> String "/" tail.
Proof.
  induction s as [| c s IH]; simpl.
  - discriminate.
  - destruct (Ascii.eqb c "/") eqn:E.
    + exact IH.
    + intros H. injection H as Hc _. subst c. discriminate.
Qed.

(** C9. For every endpoint, the request URL is the base URL, one ["/"],
    and the endpoint without its leading separators; so whether or not the
    endpoint begins with ["/"], there are no two separators in a row at
    the join: neither the one of the join with the character before it,
    nor the one of the join with the character after it. *)
Theorem C9_request_url_join (endpoint : string) :
  PowerBIClient.request_url endpoint
    = PowerBIClient.BASE_URL ++ "/" ++ lstrip "/" endpoint /\
  (exists n, endpoint = separators n ++ lstrip "/" endpoint) /\
  (forall tail, lstrip "/" endpoint <> String "/" tail) /\
  String.get (String.length PowerBIClient.BASE_URL)
    (PowerBIClient.request_url endpoint) = Some "/"%char /\
  ~ double_separator_at (String.length PowerBIClient.BASE_URL - 1)
      (PowerBIClient.request_url endpoint) /\
  ~ double_separator_at (String.length PowerBIClient.BASE_URL)
      (PowerBIClient.request_url endpoint).
Proof.
  split; [reflexivity |].
  split; [apply lstrip_separators |].
  split; [apply lstrip_no_leading_separator |].
  split; [reflexivity |].
  split.
  - intros [H _]. vm_compute in H. discriminate.
  - intros [_ H]. unfold PowerBIClient.request_url in H. simpl in H.
    destruct (lstrip "/" endpoint) as [| c tail] eqn:E; [discriminate |].
    injection H as Hc. subst c.
    now apply (lstrip_no_leading_separator endpoint tail).
Qed.

(** ** Listings *)

Section ListingFacts.
Context `{B : Backend}.

(** What a listing does with the mapping [get] returned, when the
    mapping has no ["value"]. *)
Lemma listing_tail (d : gmap string json) (after : list piece) st :
  d !! "value" = None ->
  (gateways ← dict_get (JObj d) "value" (JArr []);
   n ← len gateways;
   logger INFO (Txt "Found " :: Num n :: after);;
   mret gateways) st
  = (Ok (JArr []),
     mkState (world st)
       (log st ++ [mkLog INFO (Txt "Found " :: Num 0%Z :: after)]) (calls st)).
Proof.
  intros H. unfold dict_get. rewrite H. reflexivity.
Qed.

Lemma get_decoded st endpoint params r v :
  is_http_error (status_code r) = false ->
  json_loads (content r) = inr v ->
  answers (world st) "GET" endpoint (mkKwargs params None) r ->
  exists st', PowerBIClient.get endpoint params st = (Ok v, st').
Proof.
  intros E D (t & w1 & w2 & G & S).
  rewrite (get_answered _ _ _ _ _ _ _ G S E).
  eexists. apply Response_json_valid, D.
Qed.
End ListingFacts.

(** C10. When the listing call succeeds and the decoded body is a mapping
    without the key ["value"], each of [get_gateways],
    [get_gateway_datasources] and [get_workspaces] returns the empty list,
    and raises nothing. *)
Theorem C10_listing_without_value `{B : Backend} (st : State) (gateway_id : string)
    (filter_str : option string) (top skip : option Z)
    (r : Response) (d : gmap string json) :
  is_success (status_code r) = true ->
  json_loads (content r) = inr (JObj d) ->
  d !! "value" = None ->
  (answers (world st) "GET" "gateways" (mkKwargs None None) r ->
   returns_only GatewayAdmin.get_gateways st (JArr [])) /\
  (answers (world st) "GET" ("gateways/" ++ gateway_id ++ "/datasources")
     (mkKwargs None None) r ->
   returns_only (GatewayAdmin.get_gateway_datasources gateway_id) st (JArr [])) /\
  (answers (world st) "GET" "groups"
     (mkKwargs (Some (WorkspaceAdmin.workspaces_params filter_str top skip)) None) r ->
   returns_only (WorkspaceAdmin.get_workspaces filter_str top skip) st (JArr [])).
Proof.
  intros Hs D V. apply success_is_not_error in Hs.
  split; [| split]; intros A; apply returns_is_only.
  - destruct (get_decoded
                (mkState (world st)
                   (log st ++ [mkLog INFO [Txt "Fetching gateways..."]]) (calls st))
                "gateways" None r (JObj d) Hs D A) as [st' G].
    eexists. unfold GatewayAdmin.get_gateways.
    erewrite bind_ok by apply logger_run.
    erewrite bind_ok by apply G. apply listing_tail, V.
  - destruct (get_decoded
                (mkState (world st)
                   (log st ++ [mkLog INFO [Txt "Fetching datasources for gateway ID: ";
                                           Txt gateway_id]]) (calls st))
                ("gateways/" ++ gateway_id ++ "/datasources") None r (JObj d) Hs D A)
      as [st' G].
    eexists. unfold GatewayAdmin.get_gateway_datasources.
    erewrite bind_ok by apply logger_run.
    erewrite bind_ok by apply G. apply listing_tail, V.
  - destruct (get_decoded
                (mkState (world st)
                   (log st ++ [mkLog INFO [Txt "Fetching workspaces..."]]) (calls st))
                "groups" (Some (WorkspaceAdmin.workspaces_params filter_str top skip))
                r (JObj d) Hs D A) as [st' G].
    eexists. unfold WorkspaceAdmin.get_workspaces.
    erewrite bind_ok by apply logger_run.
    erewrite bind_ok by apply G. apply listing_tail, V.
Qed.

Lemma C10_listing_without_value_witness :
  is_success (status_code ok_object) = true /\
  json_loads (Backend := answering ok_object) (content ok_object) = inr (JObj ∅) /\
  (∅ : gmap string json) !! "value" = None /\
  returns_only (B := answering ok_object)
    GatewayAdmin.get_gateways (fresh (answering ok_object) tt) (JArr []) /\
  returns_only (B := answering ok_object)
    (GatewayAdmin.get_gateway_datasources "gw1") (fresh (answering ok_object) tt)
    (JArr []) /\
  returns_only (B := answering ok_object)
    (WorkspaceAdmin.get_workspaces (Some "startswith(name,'Test')") None None)
    (fresh (answering ok_object) tt) (JArr []).
Proof.
  destruct (C10_listing_without_value (B := answering ok_object)
              (fresh (answering ok_object) tt) "gw1"
              (Some "startswith(name,'Test')") None None ok_object ∅
              eq_refl eq_refl eq_refl) as (H1 & H2 & H3).
  repeat (split; [reflexivity |]).
  split; [| split]; [apply H1 | apply H2 | apply H3];
    exists sample_token, tt, tt; split; reflexivity.
Defined.

(** ** The [except] blocks of the domain modules *)

Section HandlerFacts.
Context `{B : Backend}.

Lemma with_records_nil (st : State) : with_records st [] = st.
Proof. destruct st. unfold with_records. simpl. now rewrite app_nil_r. Qed.

Lemma log_error_response_run e st :
  GatewayAdmin.log_error_response e st = (Ok tt, with_records st (response_records e)).
Proof.
  unfold GatewayAdmin.log_error_response, response_records.
  destruct (exn_response e) as [r |].
  - unfold try_except, mbind, M_bind, logger, Response_json, with_records. simpl.
    destruct (json_loads (content r)); simpl; rewrite <- app_assoc; reflexivity.
  - now rewrite with_records_nil.
Qed.

Lemma _log_api_error_run e st :
  WorkspaceAdmin._log_api_error e st = (Ok tt, with_records st (response_records e)).
Proof.
  unfold WorkspaceAdmin._log_api_error, response_records.
  destruct (exn_response e) as [r |].
  - unfold try_except, mbind, M_bind, logger, Response_json, with_records. simpl.
    destruct (json_loads (content r)); simpl; rewrite <- app_assoc; reflexivity.
  - now rewrite with_records_nil.
Qed.

(** A block that logs, runs a request, logs and returns [true], under an
    [except Exception] that logs, logs the response and returns [false]. *)
Lemma guarded_request {A} (request : M A) (done : list piece) (failure : exn -> LogRecord)
    (details : exn -> M unit) st0 :
  (forall e st, details e st = (Ok tt, with_records st (response_records e))) ->
  match request st0 with
  | (Ok _, st1) =>
      try_except (request;; logger INFO done;; mret true)
        [ (Exception, fun e =>
             logger (log_level (failure e)) (log_parts (failure e));;
             details e;; mret false) ] st0
      = (Ok true, with_records st1 [mkLog INFO done])
  | (Raise e, st1) =>
      try_except (request;; logger INFO done;; mret true)
        [ (Exception, fun e =>
             logger (log_level (failure e)) (log_parts (failure e));;
             details e;; mret false) ] st0
      = (Ok false, with_records st1 (failure e :: response_records e))
  end.
Proof.
  intros D. unfold try_except, mbind, M_bind.
  destruct (request st0) as [[a | e] st1] eqn:R.
  - reflexivity.
  - simpl. rewrite D.
    unfold with_records, mret, M_ret. simpl.
    rewrite <- app_assoc. destruct (failure e). reflexivity.
Qed.
End HandlerFacts.

(** C7. Whatever error the [try] block of [get_gateway_datasource_users]
    raises while it fetches the users of a datasource, the operation
    catches it: it writes an error record with the exception, then the
    status and the body of the attached response when there is one, and
    returns the empty list; it raises nothing. *)
Theorem C7_datasource_users_error_degrades `{B : Backend} (st : State)
    (gateway_id datasource_id : string) (e : exn) (st1 : State) :
  GatewayAdmin.get_gateway_datasource_users_try gateway_id datasource_id
    (with_records st
       [mkLog INFO [Txt "Fetching users for datasource ID: "; Txt datasource_id;
                    Txt " on gateway ID: "; Txt gateway_id]])
  = (Raise e, st1) ->
  returns_only (GatewayAdmin.get_gateway_datasource_users gateway_id datasource_id)
    st (JArr []) /\
  log (snd (GatewayAdmin.get_gateway_datasource_users gateway_id datasource_id st))
  = (log st1 ++
     mkLog ERROR [Txt "Could not get users for datasource "; Txt datasource_id;
                  Txt " on gateway "; Txt gateway_id; Txt ": "; Exc e]
     :: response_records e)%list.
Proof.
  intros T.
  assert (R : GatewayAdmin.get_gateway_datasource_users gateway_id datasource_id st
              = (Ok (JArr []),
                 with_records st1
                   (mkLog ERROR [Txt "Could not get users for datasource ";
                                 Txt datasource_id; Txt " on gateway "; Txt gateway_id;
                                 Txt ": "; Exc e] :: response_records e))).
  { unfold GatewayAdmin.get_gateway_datasource_users.
    erewrite bind_ok by apply logger_run.
    erewrite try_except_Exception by apply T.
    unfold GatewayAdmin.get_gateway_datasource_users_except.
    erewrite bind_ok by apply logger_run.
    erewrite bind_ok by apply log_error_response_run.
    unfold with_records, mret, M_ret. simpl. rewrite <- app_assoc. reflexivity. }
  split.
  - apply returns_is_only. eexists. apply R.
  - rewrite R. reflexivity.
Qed.

Lemma C7_datasource_users_error_degrades_witness :
  returns_only (B := answering forbidden_users)
    (GatewayAdmin.get_gateway_datasource_users "gw1" "ds1")
    (fresh (answering forbidden_users) tt) (JArr []) /\
  at_level ERROR
    (log (snd (GatewayAdmin.get_gateway_datasource_users (B := answering forbidden_users)
                 "gw1" "ds1" (fresh (answering forbidden_users) tt))))
  = [ mkLog ERROR
        [Txt "HTTP error occurred: ";
         Exc (mkExn HTTPError
                "403 Client Error: Forbidden for url: https://api.powerbi.com/v1.0/myorg/gateways/gw1/datasources/ds1/users"
                (Some forbidden_users));
         Txt " - "; Txt "{}"];
      mkLog ERROR
        [Txt "Could not get users for datasource "; Txt "ds1"; Txt " on gateway ";
         Txt "gw1"; Txt ": ";
         Exc (mkExn HTTPError
                "403 Client Error: Forbidden for url: https://api.powerbi.com/v1.0/myorg/gateways/gw1/datasources/ds1/users"
                (Some forbidden_users))];
      mkLog ERROR [Txt "API Response Status: "; Num 403%Z];
      mkLog ERROR [Txt "API Response Body: "; Obj (JObj ∅)] ].
Proof.
  destruct (C7_datasource_users_error_degrades (B := answering forbidden_users)
              (fresh (answering forbidden_users) tt) "gw1" "ds1"
              (mkExn HTTPError
                 "403 Client Error: Forbidden for url: https://api.powerbi.com/v1.0/myorg/gateways/gw1/datasources/ds1/users"
                 (Some forbidden_users))
              (snd (GatewayAdmin.get_gateway_datasource_users_try
                      (B := answering forbidden_users) "gw1" "ds1"
                      (with_records (fresh (answering forbidden_users) tt)
                         [mkLog INFO [Txt "Fetching users for datasource ID: "; Txt "ds1";
                                      Txt " on gateway ID: "; Txt "gw1"]])))
              eq_refl) as (R & L).
  split; [exact R |].
  rewrite L. reflexivity.
Defined.

(** ** Mutating operations *)

Section MutationFacts.
Context `{B : Backend}.

(** From the outcome of the guarded block to [reports_boolean]. *)
Lemma reports_boolean_intro {A} (op : M bool) st (request : M A)
    (failure : exn -> LogRecord) pre :
  match request (with_records st pre) with
  | (Ok _, st1) => exists st2, op st = (Ok true, st2)
  | (Raise e, st1) => op st = (Ok false, with_records st1 (failure e :: response_records e))
  end ->
  reports_boolean op st request failure.
Proof.
  intros H. exists pre.
  destruct (request (with_records st pre)) as [[a | e] st1].
  - apply returns_is_only. exact H.
  - split.
    + apply returns_is_only. eexists. exact H.
    + rewrite H. reflexivity.
Qed.

Lemma add_datasource_user_reports st gateway_id datasource_id principal_id
    principal_type access_right display_name email_address profile :
  reports_boolean
    (GatewayAdmin.add_datasource_user gateway_id datasource_id principal_id
       principal_type access_right display_name email_address profile)
    st
    (PowerBIClient.post
       (GatewayAdmin.datasource_users_endpoint gateway_id datasource_id)
       (Some (GatewayAdmin.datasource_user_payload principal_id principal_type
                access_right display_name email_address profile)))
    (fun e =>
       mkLog ERROR [Txt "Failed to add user "; Txt principal_id;
                    Txt " to datasource "; Txt datasource_id; Txt " on gateway ";
                    Txt gateway_id; Txt ": "; Exc e]).
Proof.
  set (info := mkLog INFO [Txt "Adding "; Txt principal_type; Txt " (ID: ";
                           Txt principal_id; Txt ") to datasource "; Txt datasource_id;
                           Txt " on gateway "; Txt gateway_id; Txt " with rights: ";
                           Txt access_right]).
  set (warning := mkLog WARNING [Txt "Adding a user principal ("; Txt principal_id;
                                 Txt ") without an emailAddress is often problematic."]).
  apply (reports_boolean_intro _ _ _ _
           (info :: if String.eqb principal_type "ServicePrincipal" && truthy_dict profile
                    then []
                    else if String.eqb principal_type "User"
                            && negb (truthy_str email_address)
                         then [warning] else [])).
  match goal with |- context [PowerBIClient.post ?ep ?pl (with_records st ?pre)] =>
    pose proof (guarded_request (PowerBIClient.post ep pl)
      [Txt "Successfully added "; Txt principal_type; Txt " "; Txt principal_id;
       Txt " to datasource "; Txt datasource_id; Txt "."]
      (fun e => mkLog ERROR [Txt "Failed to add user "; Txt principal_id;
                             Txt " to datasource "; Txt datasource_id;
                             Txt " on gateway "; Txt gateway_id; Txt ": "; Exc e])
      GatewayAdmin.log_error_response (with_records st pre) log_error_response_run) as G;
    assert (R : GatewayAdmin.add_datasource_user gateway_id datasource_id principal_id
                  principal_type access_right display_name email_address profile st
                = try_except
                    (GatewayAdmin.add_datasource_user_try gateway_id datasource_id
                       principal_id principal_type
                       (GatewayAdmin.datasource_user_payload principal_id principal_type
                          access_right display_name email_address profile))
                    [ (Exception,
                       GatewayAdmin.add_datasource_user_except gateway_id datasource_id
                         principal_id) ] (with_records st pre))
  end.
  { unfold GatewayAdmin.add_datasource_user.
    erewrite bind_ok by apply logger_run.
    destruct (String.eqb principal_type "ServicePrincipal" && truthy_dict profile).
    - reflexivity.
    - destruct (String.eqb principal_type "User" && negb (truthy_str email_address)).
      + erewrite bind_ok by apply logger_run.
        unfold with_records. simpl. rewrite <- app_assoc. reflexivity.
      + reflexivity. }
  rewrite R.
  destruct (PowerBIClient.post _ _ (with_records st _)) as [[a | e] st1].
  - eexists. exact G.
  - exact G.
Qed.

Lemma add_workspace_user_reports st workspace_id identifier principal_type
    access_right email_address :
  reports_boolean
    (WorkspaceAdmin.add_workspace_user workspace_id identifier principal_type
       access_right email_address)
    st
    (PowerBIClient.post (WorkspaceAdmin.workspace_users_endpoint workspace_id)
       (Some (WorkspaceAdmin.workspace_user_payload identifier principal_type
                access_right email_address)))
    (fun e =>
       mkLog ERROR [Txt "Failed to add "; Txt principal_type; Txt " "; Txt identifier;
                    Txt " to workspace "; Txt workspace_id; Txt ": "; Exc e]).
Proof.
  set (info := mkLog INFO [Txt "Adding "; Txt principal_type; Txt " ("; Txt identifier;
                           Txt ") to workspace "; Txt workspace_id;
                           Txt " with rights: "; Txt access_right]).
  set (warning := mkLog WARNING [Txt "Adding User principal ("; Txt identifier;
                                 Txt ") without explicit emailAddress. Assuming identifier is email/UPN."]).
  apply (reports_boolean_intro _ _ _ _
           (info :: if String.eqb principal_type "User" && negb (truthy_str email_address)
                    then [warning] else [])).
  match goal with |- context [PowerBIClient.post ?ep ?pl (with_records st ?pre)] =>
    pose proof (guarded_request (PowerBIClient.post ep pl)
      [Txt "Successfully added "; Txt principal_type; Txt " "; Txt identifier;
       Txt " to workspace "; Txt workspace_id; Txt "."]
      (fun e => mkLog ERROR [Txt "Failed to add "; Txt principal_type; Txt " ";
                             Txt identifier; Txt " to workspace "; Txt workspace_id;
                             Txt ": "; Exc e])
      WorkspaceAdmin._log_api_error (with_records st pre) _log_api_error_run) as G;
    assert (R : WorkspaceAdmin.add_workspace_user workspace_id identifier principal_type
                  access_right email_address st
                = try_except
                    (WorkspaceAdmin.add_workspace_user_try workspace_id identifier
                       principal_type
                       (WorkspaceAdmin.workspace_user_payload identifier principal_type
                          access_right email_address))
                    [ (Exception,
                       WorkspaceAdmin.add_workspace_user_except workspace_id identifier
                         principal_type) ] (with_records st pre))
  end.
  { unfold WorkspaceAdmin.add_workspace_user.
    erewrite bind_ok by apply logger_run.
    destruct (String.eqb principal_type "User" && negb (truthy_str email_address)).
    - erewrite bind_ok by apply logger_run.
      unfold with_records. simpl. rewrite <- app_assoc. reflexivity.
    - reflexivity. }
  rewrite R.
  destruct (PowerBIClient.post _ _ (with_records st _)) as [[a | e] st1].
  - eexists. exact G.
  - exact G.
Qed.

Lemma delete_workspace_user_reports st workspace_id identifier principal_type :
  reports_boolean
    (WorkspaceAdmin.delete_workspace_user workspace_id identifier principal_type)
    st
    (PowerBIClient._request "DELETE"
       (WorkspaceAdmin.delete_user_endpoint workspace_id identifier) no_kwargs)
    (fun e =>
       mkLog ERROR [Txt "Failed to delete ";
                    Txt (WorkspaceAdmin.principal_info identifier principal_type);
                    Txt " from workspace "; Txt workspace_id; Txt ": "; Exc e]).
Proof.
  apply (reports_boolean_intro _ _ _ _
           [mkLog INFO [Txt "Deleting ";
                        Txt (WorkspaceAdmin.principal_info identifier principal_type);
                        Txt " from workspace "; Txt workspace_id]]).
  match goal with |- context [PowerBIClient._request ?m ?ep ?kw (with_records st ?pre)] =>
    pose proof (guarded_request (PowerBIClient._request m ep kw)
      [Txt "Successfully deleted ";
       Txt (WorkspaceAdmin.principal_info identifier principal_type);
       Txt " from workspace "; Txt workspace_id; Txt "."]
      (fun e => mkLog ERROR [Txt "Failed to delete ";
                             Txt (WorkspaceAdmin.principal_info identifier principal_type);
                             Txt " from workspace "; Txt workspace_id; Txt ": "; Exc e])
      WorkspaceAdmin._log_api_error (with_records st pre) _log_api_error_run) as G
  end.
  unfold WorkspaceAdmin.delete_workspace_user.
  erewrite bind_ok by apply logger_run.
  destruct (PowerBIClient._request _ _ _ (with_records st _)) as [[a | e] st1].
  - eexists. exact G.
  - exact G.
Qed.
End MutationFacts.

(** C8. Each of [add_datasource_user], [add_workspace_user] and
    [delete_workspace_user] runs its request under [except Exception]:
    when the request returns, the operation returns [true]; when the
    request raises, the operation writes an error record with the
    exception, then the status and body of the attached response when
    there is one, and returns [false]; in both cases it raises nothing. *)
Theorem C8_mutations_report_boolean `{B : Backend} (st : State)
    (gateway_id datasource_id principal_id principal_type access_right : string)
    (display_name email_address : option string)
    (profile : option (gmap string json))
    (workspace_id identifier : string) (hint : option string) :
  reports_boolean
    (GatewayAdmin.add_datasource_user gateway_id datasource_id principal_id
       principal_type access_right display_name email_address profile)
    st
    (PowerBIClient.post
       (GatewayAdmin.datasource_users_endpoint gateway_id datasource_id)
       (Some (GatewayAdmin.datasource_user_payload principal_id principal_type
                access_right display_name email_address profile)))
    (fun e =>
       mkLog ERROR [Txt "Failed to add user "; Txt principal_id;
                    Txt " to datasource "; Txt datasource_id; Txt " on gateway ";
                    Txt gateway_id; Txt ": "; Exc e]) /\
  reports_boolean
    (WorkspaceAdmin.add_workspace_user workspace_id identifier principal_type
       access_right email_address)
    st
    (PowerBIClient.post (WorkspaceAdmin.workspace_users_endpoint workspace_id)
       (Some (WorkspaceAdmin.workspace_user_payload identifier principal_type
                access_right email_address)))
    (fun e =>
       mkLog ERROR [Txt "Failed to add "; Txt principal_type; Txt " "; Txt identifier;
                    Txt " to workspace "; Txt workspace_id; Txt ": "; Exc e]) /\
  reports_boolean
    (WorkspaceAdmin.delete_workspace_user workspace_id identifier hint)
    st
    (PowerBIClient._request "DELETE"
       (WorkspaceAdmin.delete_user_endpoint workspace_id identifier) no_kwargs)
    (fun e =>
       mkLog ERROR [Txt "Failed to delete ";
                    Txt (WorkspaceAdmin.principal_info identifier hint);
                    Txt " from workspace "; Txt workspace_id; Txt ": "; Exc e]).
Proof.
  split; [| split].
  - apply add_datasource_user_reports.
  - apply add_workspace_user_reports.
  - apply delete_workspace_user_reports.
Qed.

(** ** What a run sends *)

Section SendFacts.
Context `{B : Backend}.
Variable good : Request -> Prop.

Lemma sends_only_quiet {A} (m : M A) :
  (forall st, calls (snd (m st)) = calls st) -> sends_only good m.
Proof. intros H st. exists []. rewrite H, app_nil_r. split; [reflexivity | constructor]. Qed.

Lemma sends_only_mret {A} (a : A) : sends_only good (mret a).
Proof. now apply sends_only_quiet. Qed.

Lemma sends_only_raise {A} (e : exn) : sends_only good (raise (A := A) e).
Proof. now apply sends_only_quiet. Qed.

Lemma sends_only_logger l parts : sends_only good (logger l parts).
Proof. now apply sends_only_quiet. Qed.

Lemma sends_only_bind {A C} (m : M A) (k : A -> M C) :
  sends_only good m -> (forall a, sends_only good (k a)) -> sends_only good (m ≫= k).
Proof.
  intros Hm Hk st. destruct (Hm st) as (cs1 & E1 & F1).
  unfold mbind, M_bind. destruct (m st) as [[a | e] st1]; simpl in *.
  - destruct (Hk a st1) as (cs2 & E2 & F2).
    exists (cs1 ++ cs2)%list. split.
    + rewrite E2, E1, app_assoc. reflexivity.
    + apply Forall_app. split; assumption.
  - exists cs1. split; assumption.
Qed.

Lemma sends_only_try_except {A} (m : M A) handlers :
  sends_only good m ->
  Forall (fun h => forall e, sends_only good (snd h e)) handlers ->
  sends_only good (try_except m handlers).
Proof.
  intros Hm Hh st. destruct (Hm st) as (cs1 & E1 & F1).
  unfold try_except. destruct (m st) as [[a | e] st1]; simpl in *.
  - exists cs1. split; assumption.
  - destruct (List.find _ handlers) as [h |] eqn:Fh.
    + apply List.find_some in Fh as [Hin _].
      rewrite List.Forall_forall in Hh.
      destruct (Hh h Hin e st1) as (cs2 & E2 & F2).
      exists (cs1 ++ cs2)%list. split.
      * rewrite E2, E1, app_assoc. reflexivity.
      * apply Forall_app. split; assumption.
    + exists cs1. split; assumption.
Qed.

Lemma sends_only_call_get_token scopes : sends_only good (call_get_token scopes).
Proof.
  intros st. exists [GetToken scopes]. unfold call_get_token.
  destruct (credential_get_token scopes (world st)) as [[e | t] w]; simpl;
    (split; [reflexivity | repeat constructor]).
Qed.

Lemma sends_only_call_session_request req :
  good req -> sends_only good (call_session_request req).
Proof.
  intros G st. exists [HttpRequest req]. unfold call_session_request.
  destruct (session_request req (world st)) as [[e | r] w]; simpl;
    (split; [reflexivity | repeat constructor; exact G]).
Qed.

Lemma sends_only_raise_for_status r : sends_only good (raise_for_status r).
Proof.
  apply sends_only_quiet. intros st. unfold raise_for_status.
  destruct (negb _); reflexivity.
Qed.

Lemma sends_only_Response_json r : sends_only good (Response_json r).
Proof.
  apply sends_only_quiet. intros st. unfold Response_json.
  destruct (json_loads (content r)); reflexivity.
Qed.

Lemma sends_only_get_access_token : sends_only good PowerBIAuth.get_access_token.
Proof.
  unfold PowerBIAuth.get_access_token.
  apply sends_only_try_except.
  - apply sends_only_bind; [apply sends_only_logger | intros _].
    apply sends_only_bind; [apply sends_only_call_get_token | intros t].
    apply sends_only_bind; [apply sends_only_logger | intros _].
    apply sends_only_mret.
  - repeat constructor; intros e; simpl.
    + apply sends_only_bind; [apply sends_only_logger | intros _].
      apply sends_only_bind; [apply sends_only_logger | intros _].
      apply sends_only_raise.
    + apply sends_only_bind; [apply sends_only_logger | intros _].
      apply sends_only_raise.
Qed.

Lemma sends_only_request_handlers response :
  Forall (fun h => forall e, sends_only good (snd h e))
    (PowerBIClient._request_handlers response).
Proof.
  repeat constructor; intros e; simpl.
  - destruct response.
    + apply sends_only_bind; [apply sends_only_logger | intros _].
      apply sends_only_raise.
    + apply sends_only_raise.
  - apply sends_only_bind; [apply sends_only_logger | intros _].
    apply sends_only_raise.
Qed.

(** [_request] sends at most the request it was asked for. *)
Lemma sends_only_request method endpoint kwargs :
  (forall headers,
     good (mkRequest method (PowerBIClient.request_url endpoint) headers
             (kw_params kwargs) (kw_json kwargs))) ->
  sends_only good (PowerBIClient._request method endpoint kwargs).
Proof.
  intros G. unfold PowerBIClient._request, PowerBIClient._get_headers.
  apply sends_only_bind.
  { apply sends_only_bind; [apply sends_only_get_access_token | intros t].
    apply sends_only_mret. }
  intros headers.
  apply sends_only_bind; [apply sends_only_logger | intros _].
  apply sends_only_bind.
  { apply sends_only_try_except;
      [apply sends_only_call_session_request, G | apply sends_only_request_handlers]. }
  intros response.
  apply sends_only_try_except; [| apply sends_only_request_handlers].
  apply sends_only_bind; [apply sends_only_raise_for_status | intros _].
  apply sends_only_bind; [apply sends_only_logger | intros _].
  apply sends_only_mret.
Qed.

Lemma sends_only_post endpoint json_body :
  (forall headers,
     good (mkRequest "POST" (PowerBIClient.request_url endpoint) headers
             None json_body)) ->
  sends_only good (PowerBIClient.post endpoint json_body).
Proof.
  intros G. unfold PowerBIClient.post.
  apply sends_only_bind; [apply sends_only_request, G | intros response].
  destruct (status_code response =? 204)%Z; [apply sends_only_mret |].
  apply sends_only_try_except; [apply sends_only_Response_json |].
  repeat constructor; intros e; simpl.
  apply sends_only_bind; [apply sends_only_logger | intros _].
  apply sends_only_mret.
Qed.

Lemma sends_only_log_api_error e : sends_only good (WorkspaceAdmin._log_api_error e).
Proof.
  apply sends_only_quiet. intros st. now rewrite _log_api_error_run.
Qed.

Lemma sends_only_add_workspace_user workspace_id identifier principal_type
    access_right email_address :
  (forall headers,
     good (mkRequest "POST"
             (PowerBIClient.request_url (WorkspaceAdmin.workspace_users_endpoint workspace_id))
             headers None
             (Some (WorkspaceAdmin.workspace_user_payload identifier principal_type
                      access_right email_address)))) ->
  sends_only good
    (WorkspaceAdmin.add_workspace_user workspace_id identifier principal_type
       access_right email_address).
Proof.
  intros G. unfold WorkspaceAdmin.add_workspace_user.
  apply sends_only_bind; [apply sends_only_logger | intros _].
  apply sends_only_bind.
  { destruct (_ && _); [apply sends_only_logger | apply sends_only_mret]. }
  intros _. apply sends_only_try_except.
  - unfold WorkspaceAdmin.add_workspace_user_try.
    apply sends_only_bind; [apply sends_only_post, G | intros _].
    apply sends_only_bind; [apply sends_only_logger | intros _].
    apply sends_only_mret.
  - repeat constructor; intros e; simpl.
    unfold WorkspaceAdmin.add_workspace_user_except.
    apply sends_only_bind; [apply sends_only_logger | intros _].
    apply sends_only_bind; [apply sends_only_log_api_error | intros _].
    apply sends_only_mret.
Qed.
End SendFacts.

Section PostFacts.
Context `{B : Backend}.

(** [post] returns on every response that passes [raise_for_status]. *)
Lemma post_returns st endpoint json_body t w1 r w2 :
  grants (world st) t w1 ->
  session_request (request_of "POST" endpoint t (mkKwargs None json_body)) w1 = (inr r, w2) ->
  is_http_error (status_code r) = false ->
  exists v records,
    PowerBIClient.post endpoint json_body st =
      (Ok v,
       mkState w2 (log st ++ records)
         (calls st ++ exchange_calls "POST" endpoint t (mkKwargs None json_body))).
Proof.
  intros G S E. destruct (json_loads (content r)) as [msg | v] eqn:D.
  - exists (JObj ∅). eexists. apply (post_not_json _ _ _ _ _ _ _ G S E).
    now exists msg.
  - exists (if (status_code r =? 204)%Z then JObj ∅ else v).
    exists (success_records "POST" endpoint r).
    unfold PowerBIClient.post.
    erewrite bind_ok by (eapply _request_ok; eauto).
    destruct (status_code r =? 204)%Z; [reflexivity |].
    apply try_except_ok, Response_json_valid, D.
Qed.

Lemma workspace_user_url workspace_id :
  PowerBIClient.request_url (WorkspaceAdmin.workspace_users_endpoint workspace_id)
  = PowerBIClient.BASE_URL ++ "/groups/" ++ workspace_id ++ "/users".
Proof. reflexivity. Qed.
End PostFacts.

(** C6. For every call of [add_workspace_user] with principal type
    ["User"] and no email address: the payload holds [emailAddress] equal
    to the identifier next to [identifier], [principalType] and
    [groupUserAccessRight]; every HTTP request the call sends, however the
    outside answers, is a POST to [groups/{id}/users] with that payload;
    and when the answer is a 200 response the call returns [true], having
    sent exactly that request. *)
Theorem C6_user_email_defaults_to_identifier `{B : Backend} (st : State)
    (workspace_id identifier access_right : string) :
  let payload :=
    WorkspaceAdmin.workspace_user_payload identifier "User" access_right None in
  let op :=
    WorkspaceAdmin.add_workspace_user workspace_id identifier "User" access_right None in
  let endpoint := "groups/" ++ workspace_id ++ "/users" in
  (payload !! "emailAddress" = Some (JStr identifier) /\
   payload !! "identifier" = Some (JStr identifier) /\
   payload !! "principalType" = Some (JStr "User") /\
   payload !! "groupUserAccessRight" = Some (JStr access_right)) /\
  (exists cs,
     called op st cs /\
     Forall (call_ok (fun req =>
                        req_method req = "POST" /\
                        req_url req = PowerBIClient.BASE_URL ++ "/groups/"
                                        ++ workspace_id ++ "/users" /\
                        req_json req = Some payload)) cs) /\
  (forall r,
     status_code r = 200%Z ->
     answers (world st) "POST" endpoint (mkKwargs None (Some payload)) r ->
     returns_only op st true /\
     exists t,
       called op st (exchange_calls "POST" endpoint t (mkKwargs None (Some payload)))).
Proof.
  intros payload op endpoint. split; [| split].
  - repeat split; reflexivity.
  - apply (sends_only_add_workspace_user _ workspace_id identifier "User"
             access_right None).
    intros headers. simpl. repeat split.
  - intros r H200 (t & w1 & w2 & G & S).
    assert (E : is_http_error (status_code r) = false) by (now rewrite H200).
    set (st0 := mkState (world st)
      ((log st ++
        [mkLog INFO [Txt "Adding "; Txt "User"; Txt " ("; Txt identifier;
                     Txt ") to workspace "; Txt workspace_id; Txt " with rights: ";
                     Txt access_right]]) ++
        [mkLog WARNING [Txt "Adding User principal ("; Txt identifier;
                        Txt ") without explicit emailAddress. Assuming identifier is email/UPN."]])
      (calls st)).
    destruct (post_returns st0 endpoint (Some payload) t w1 r w2 G S E)
      as (v & records & P).
    assert (R : op st
                = (Ok true,
                   mkState w2
                     ((log st0 ++ records) ++
                      [mkLog INFO [Txt "Successfully added "; Txt "User"; Txt " ";
                                   Txt identifier; Txt " to workspace ";
                                   Txt workspace_id; Txt "."]])
                     (calls st ++ exchange_calls "POST" endpoint t
                                    (mkKwargs None (Some payload))))).
    { change (op st) with
        (try_except
           (WorkspaceAdmin.add_workspace_user_try workspace_id identifier "User" payload)
           [ (Exception,
              WorkspaceAdmin.add_workspace_user_except workspace_id identifier "User") ]
           st0).
      apply try_except_ok. unfold WorkspaceAdmin.add_workspace_user_try.
      erewrite bind_ok by apply P. reflexivity. }
    split.
    + apply returns_is_only. eexists. apply R.
    + exists t. unfold called. rewrite R. reflexivity.
Qed.

Lemma C6_user_email_defaults_to_identifier_witness :
  status_code ok_added = 200%Z /\
  returns_only (B := answering ok_added)
    (WorkspaceAdmin.add_workspace_user "g1" "ada@contoso.com" "User" "Member" None)
    (fresh (answering ok_added) tt) true /\
  called (B := answering ok_added)
    (WorkspaceAdmin.add_workspace_user "g1" "ada@contoso.com" "User" "Member" None)
    (fresh (answering ok_added) tt)
    [ GetToken PowerBIAuth.scope;
      HttpRequest
        (mkRequest "POST" "https://api.powerbi.com/v1.0/myorg/groups/g1/users"
           (headers_of sample_token) None
           (Some {[ "identifier" := JStr "ada@contoso.com";
                    "principalType" := JStr "User";
                    "groupUserAccessRight" := JStr "Member";
                    "emailAddress" := JStr "ada@contoso.com" ]})) ].
Proof.
  pose proof (C6_user_email_defaults_to_identifier (B := answering ok_added)
                (fresh (answering ok_added) tt) "g1" "ada@contoso.com" "Member") as H.
  cbv zeta in H. destruct H as (_ & _ & H).
  destruct (H ok_added eq_refl) as (R & t & C).
  { exists sample_token, tt, tt. split; reflexivity. }
  split; [reflexivity |]. split; [exact R |].
  vm_compute. reflexivity.
Defined.

Lemma C8_mutations_report_boolean_witness :
  returns_only (B := answering ok_empty)
    (WorkspaceAdmin.delete_workspace_user "g1" "u1" None)
    (fresh (answering ok_empty) tt) true /\
  returns_only (B := answering forbidden)
    (WorkspaceAdmin.add_workspace_user "g1" "ada@contoso.com" "User" "Member" None)
    (fresh (answering forbidden) tt) false.
Proof.
  split.
  - destruct (C8_mutations_report_boolean (B := answering ok_empty)
                (fresh (answering ok_empty) tt) "gw1" "ds1" "p1" "User" "Read"
                None None None "g1" "u1" None) as (_ & _ & pre & H).
    erewrite (_request_ok (B := answering ok_empty) _ _ _ _ sample_token tt ok_empty tt)
      in H by reflexivity.
    exact H.
  - destruct (C8_mutations_report_boolean (B := answering forbidden)
                (fresh (answering forbidden) tt) "gw1" "ds1" "p1" "User" "Member"
                None None None "g1" "ada@contoso.com" None) as (_ & (pre & H) & _).
    destruct (_request_http_error (B := answering forbidden)
                (with_records (fresh (answering forbidden) tt) pre)
                "POST" (WorkspaceAdmin.workspace_users_endpoint "g1")
                (mkKwargs None
                   (Some (WorkspaceAdmin.workspace_user_payload "ada@contoso.com"
                            "User" "Member" None)))
                sample_token tt forbidden tt eq_refl eq_refl eq_refl) as [msg Q].
    unfold PowerBIClient.post in H.
    erewrite bind_raise in H by apply Q.
    apply H.
Defined.

(** * Further properties *)

(** ** Token acquisition and the request pipeline *)

Section PipelineFacts.
Context `{B : Backend}.

(** Without a token [_request] stops before the session is used. *)
Lemma _request_refused st method endpoint kwargs e w1 :
  credential_get_token PowerBIAuth.scope (world st) = (inl e, w1) ->
  PowerBIClient._request method endpoint kwargs st =
    (Raise e,
     mkState w1 (log st ++ token_failure_records e)
       (calls st ++ [GetToken PowerBIAuth.scope])).
Proof.
  intros H. unfold PowerBIClient._request, PowerBIClient._get_headers.
  erewrite bind_raise; [reflexivity |].
  erewrite bind_raise; [reflexivity |].
  now apply get_access_token_refused.
Qed.

(** What [_request] does with an exception raised by the session. *)
Lemma _request_transport st method endpoint kwargs t w1 e w2 :
  grants (world st) t w1 ->
  session_request (request_of method endpoint t kwargs) w1 = (inl e, w2) ->
  PowerBIClient._request method endpoint kwargs st =
    (Raise (if isinstance e HTTPError then unbound_response else e),
     mkState w2
       (log st ++ request_records method endpoint ++
        (if isinstance e HTTPError then []
         else if isinstance e RequestException then [transport_record e] else []))
       (calls st ++ exchange_calls method endpoint t kwargs)).
Proof.
  intros G S. unfold PowerBIClient._request, PowerBIClient._get_headers.
  erewrite bind_ok.
  2: { erewrite bind_ok; [| apply (get_access_token_granted _ _ _ G)]. reflexivity. }
  erewrite bind_ok; [| apply logger_run].
  erewrite bind_raise; [reflexivity |].
  unfold try_except, call_session_request. simpl.
  unfold request_of, headers_of in S. rewrite S. simpl.
  unfold isinstance, request_records, exchange_calls, transport_record, unbound_response.
  destruct (exn_cls e); simpl; unfold raise, mbind, M_bind, logger; simpl;
    rewrite <- ?app_assoc; simpl; rewrite ?app_nil_r; reflexivity.
Qed.

(** With a token, the outside calls of [_request] are the acquisition and
    the one request, whatever the session does. *)
Lemma _request_granted_calls st method endpoint kwargs t w1 :
  grants (world st) t w1 ->
  called (PowerBIClient._request method endpoint kwargs) st
    (exchange_calls method endpoint t kwargs).
Proof.
  intros G. unfold called.
  destruct (session_request (request_of method endpoint t kwargs) w1)
    as [[e | r] w2] eqn:S.
  - now rewrite (_request_transport _ _ _ _ _ _ _ _ G S).
  - destruct (is_http_error (status_code r)) eqn:E.
    + destruct (_request_http_error _ _ _ _ _ _ _ _ G S E) as [msg H].
      simpl in H. now rewrite H.
    + now rewrite (_request_ok _ _ _ _ _ _ _ _ G S E).
Qed.
End PipelineFacts.

(** X1. [get_access_token] relays what the credential gives, after asking
    it once for the Power BI scope: the token string of a granted token,
    or the very exception the credential raised, with the remediation
    record only for a [CredentialUnavailableError]. *)
Theorem X1_get_access_token_relays `{B : Backend} (st : State) :
  called PowerBIAuth.get_access_token st [GetToken PowerBIAuth.scope] /\
  match credential_get_token PowerBIAuth.scope (world st) with
  | (inr t, w1) =>
      returns_only PowerBIAuth.get_access_token st (token t) /\
      logged PowerBIAuth.get_access_token st token_records /\
      world (snd (PowerBIAuth.get_access_token st)) = w1
  | (inl e, w1) =>
      raises PowerBIAuth.get_access_token st e /\
      (forall tok, ~ returns PowerBIAuth.get_access_token st tok) /\
      logged PowerBIAuth.get_access_token st (token_failure_records e) /\
      (In (mkLog ERROR [Txt PowerBIAuth.remediation]) (token_failure_records e)
       <-> exn_cls e = CredentialUnavailableError) /\
      world (snd (PowerBIAuth.get_access_token st)) = w1
  end.
Proof.
  destruct (credential_get_token PowerBIAuth.scope (world st)) as [[e | t] w1] eqn:H.
  - pose proof (get_access_token_refused st e w1 H) as R.
    assert (Rs : raises PowerBIAuth.get_access_token st e) by (eexists; apply R).
    split; [unfold called; now rewrite R |].
    split; [exact Rs |].
    split; [intros tok; eapply raises_not_returns, Rs |].
    split; [unfold logged; now rewrite R |].
    split; [| now rewrite R].
    unfold token_failure_records, isinstance. simpl.
    destruct (exn_cls e); simpl;
      (split;
       [ intros Q; try reflexivity; exfalso;
         repeat (destruct Q as [Q | Q]; [discriminate Q |]); exact Q
       | intros Q; try discriminate Q; right; right; left; reflexivity ]).
  - pose proof (get_access_token_granted st t w1 H) as R.
    split; [unfold called; now rewrite R |].
    split; [apply returns_is_only; eexists; apply R |].
    split; [unfold logged; now rewrite R | now rewrite R].
Qed.

(** X2. Without a token nothing is sent: when the credential raises,
    [_request], [get], [post] and [delete] raise that exception, and the
    only outside call is the token acquisition. *)
Theorem X2_no_request_without_token `{B : Backend} (st : State)
    (method endpoint : string) (kwargs : Kwargs)
    (params json_body : option (gmap string json)) (e : exn) (w1 : World) :
  credential_get_token PowerBIAuth.scope (world st) = (inl e, w1) ->
  (raises (PowerBIClient._request method endpoint kwargs) st e /\
   called (PowerBIClient._request method endpoint kwargs) st
     [GetToken PowerBIAuth.scope]) /\
  (raises (PowerBIClient.get endpoint params) st e /\
   called (PowerBIClient.get endpoint params) st [GetToken PowerBIAuth.scope]) /\
  (raises (PowerBIClient.post endpoint json_body) st e /\
   called (PowerBIClient.post endpoint json_body) st [GetToken PowerBIAuth.scope]) /\
  (raises (PowerBIClient.delete endpoint params) st e /\
   called (PowerBIClient.delete endpoint params) st [GetToken PowerBIAuth.scope]).
Proof.
  intros H.
  split; [| split; [| split]].
  - pose proof (_request_refused st method endpoint kwargs e w1 H) as R.
    split; [eexists; apply R | unfold called; now rewrite R].
  - pose proof (_request_refused st "GET" endpoint (mkKwargs params None) e w1 H) as R.
    unfold PowerBIClient.get, raises, called.
    erewrite bind_raise by apply R. split; [eexists |]; reflexivity.
  - pose proof (_request_refused st "POST" endpoint (mkKwargs None json_body) e w1 H) as R.
    unfold PowerBIClient.post, raises, called.
    erewrite bind_raise by apply R. split; [eexists |]; reflexivity.
  - pose proof (_request_refused st "DELETE" endpoint (mkKwargs params None) e w1 H) as R.
    unfold PowerBIClient.delete, raises, called.
    erewrite bind_raise by apply R. split; [eexists |]; reflexivity.
Qed.

Lemma X2_no_request_without_token_witness :
  raises (B := scripted (inl unavailable) (inr ok_object))
    (PowerBIClient.get "gateways" None)
    (fresh (scripted (inl unavailable) (inr ok_object)) tt) unavailable /\
  called (B := scripted (inl unavailable) (inr ok_object))
    (PowerBIClient.get "gateways" None)
    (fresh (scripted (inl unavailable) (inr ok_object)) tt)
    [GetToken PowerBIAuth.scope].
Proof.
  destruct (X2_no_request_without_token
              (B := scripted (inl unavailable) (inr ok_object))
              (fresh (scripted (inl unavailable) (inr ok_object)) tt)
              "GET" "gateways" no_kwargs None None unavailable tt eq_refl)
    as (_ & H & _).
  exact H.
Defined.

(** X3. An exception raised by the session that is not an [HTTPError]
    leaves [_request] unchanged, after the one request was sent; it is
    logged as a request exception exactly when it belongs to the requests
    family. *)
Theorem X3_session_exception_propagates `{B : Backend} (st : State)
    (method endpoint : string) (kwargs : Kwargs) (t : AccessToken) (w1 : World)
    (e : exn) (w2 : World) :
  grants (world st) t w1 ->
  session_request (request_of method endpoint t kwargs) w1 = (inl e, w2) ->
  isinstance e HTTPError = false ->
  raises (PowerBIClient._request method endpoint kwargs) st e /\
  called (PowerBIClient._request method endpoint kwargs) st
    (exchange_calls method endpoint t kwargs) /\
  logged (PowerBIClient._request method endpoint kwargs) st
    (request_records method endpoint ++
     if isinstance e RequestException then [transport_record e] else []).
Proof.
  intros G S N. pose proof (_request_transport _ _ _ _ _ _ _ _ G S) as R.
  rewrite N in R.
  split; [eexists; apply R |].
  unfold called, logged. rewrite R. simpl. split; reflexivity.
Qed.

Lemma X3_session_exception_propagates_witness :
  raises (B := scripted (inr sample_token) (inl timed_out))
    (PowerBIClient._request "GET" "gateways" no_kwargs)
    (fresh (scripted (inr sample_token) (inl timed_out)) tt) timed_out /\
  logged (B := scripted (inr sample_token) (inl timed_out))
    (PowerBIClient._request "GET" "gateways" no_kwargs)
    (fresh (scripted (inr sample_token) (inl timed_out)) tt)
    (request_records "GET" "gateways" ++ [transport_record timed_out]).
Proof.
  destruct (X3_session_exception_propagates
              (B := scripted (inr sample_token) (inl timed_out))
              (fresh (scripted (inr sample_token) (inl timed_out)) tt)
              "GET" "gateways" no_kwargs sample_token tt timed_out tt
              eq_refl eq_refl eq_refl) as (R & _ & L).
  split; [exact R | exact L].
Defined.

(** X4. An [HTTPError] raised by [session.request] itself, before any
    response is bound, does not reach the caller: its handler reads the
    unbound local [response], so [_request] raises an [UnboundLocalError]
    instead and writes no error record. *)
Theorem X4_http_error_from_session_is_masked `{B : Backend} (st : State)
    (method endpoint : string) (kwargs : Kwargs) (t : AccessToken) (w1 : World)
    (e : exn) (w2 : World) :
  grants (world st) t w1 ->
  session_request (request_of method endpoint t kwargs) w1 = (inl e, w2) ->
  isinstance e HTTPError = true ->
  raises (PowerBIClient._request method endpoint kwargs) st unbound_response /\
  ~ raises (PowerBIClient._request method endpoint kwargs) st e /\
  logged (PowerBIClient._request method endpoint kwargs) st
    (request_records method endpoint).
Proof.
  intros G S N. pose proof (_request_transport _ _ _ _ _ _ _ _ G S) as R.
  rewrite N in R.
  split; [eexists; apply R |]. split.
  - intros [st' R']. rewrite R in R'. injection R' as He _.
    rewrite <- He in N. discriminate.
  - unfold logged. rewrite R. simpl. rewrite ?app_nil_r. reflexivity.
Qed.

Lemma X4_http_error_from_session_is_masked_witness :
  raises (B := scripted (inr sample_token) (inl stray_http_error))
    (PowerBIClient._request "GET" "gateways" no_kwargs)
    (fresh (scripted (inr sample_token) (inl stray_http_error)) tt)
    unbound_response.
Proof.
  destruct (X4_http_error_from_session_is_masked
              (B := scripted (inr sample_token) (inl stray_http_error))
              (fresh (scripted (inr sample_token) (inl stray_http_error)) tt)
              "GET" "gateways" no_kwargs sample_token tt stray_http_error tt
              eq_refl eq_refl eq_refl) as (R & _).
  exact R.
Defined.

(** X5. Once a token is granted, [_request] sends exactly one request,
    whatever the session then does: with the method and the keyword
    arguments it was given, the URL of the endpoint, and two headers, the
    bearer authorization built from that token and the JSON content
    type. *)
Theorem X5_one_request_with_bearer_token `{B : Backend} (st : State)
    (method endpoint : string) (kwargs : Kwargs) (t : AccessToken) (w1 : World) :
  grants (world st) t w1 ->
  exists req,
    called (PowerBIClient._request method endpoint kwargs) st
      [GetToken PowerBIAuth.scope; HttpRequest req] /\
    req_method req = method /\
    req_url req = PowerBIClient.request_url endpoint /\
    req_params req = kw_params kwargs /\
    req_json req = kw_json kwargs /\
    req_headers req !! "Authorization" = Some ("Bearer " ++ token t) /\
    req_headers req !! "Content-Type" = Some "application/json" /\
    dom (req_headers req) = ({[ "Authorization"; "Content-Type" ]} : gset string).
Proof.
  intros G. exists (request_of method endpoint t kwargs).
  split; [apply (_request_granted_calls _ _ _ _ _ _ G) |].
  repeat (split; [reflexivity |]).
  unfold request_of, headers_of. simpl.
  rewrite dom_insert_L, dom_singleton_L. reflexivity.
Qed.

Lemma X5_one_request_with_bearer_token_witness :
  exists req,
    called (B := scripted (inr sample_token) (inl timed_out))
      (PowerBIClient._request "GET" "gateways" no_kwargs)
      (fresh (scripted (inr sample_token) (inl timed_out)) tt)
      [GetToken PowerBIAuth.scope; HttpRequest req] /\
    req_headers req !! "Authorization" = Some "Bearer eyJ0".
Proof.
  destruct (X5_one_request_with_bearer_token
              (B := scripted (inr sample_token) (inl timed_out))
              (fresh (scripted (inr sample_token) (inl timed_out)) tt)
              "GET" "gateways" no_kwargs sample_token tt eq_refl)
    as (req & C & _ & _ & _ & _ & A & _).
  exists req. split; [exact C | exact A].
Defined.

(** X6. A response whose status is outside 400..599, a 3xx one included,
    is returned by [_request] as it is, after the one request, with two
    debug records after those of the token and no error record. *)
Theorem X6_other_statuses_are_returned `{B : Backend} (st : State)
    (method endpoint : string) (kwargs : Kwargs) (t : AccessToken) (w1 : World)
    (r : Response) (w2 : World) :
  grants (world st) t w1 ->
  session_request (request_of method endpoint t kwargs) w1 = (inr r, w2) ->
  is_http_error (status_code r) = false ->
  returns_only (PowerBIClient._request method endpoint kwargs) st r /\
  called (PowerBIClient._request method endpoint kwargs) st
    (exchange_calls method endpoint t kwargs) /\
  logged (PowerBIClient._request method endpoint kwargs) st
    (success_records method endpoint r) /\
  at_level ERROR (success_records method endpoint r) = [].
Proof.
  intros G S E. pose proof (_request_ok _ _ _ _ _ _ _ _ G S E) as R.
  split; [apply returns_is_only; eexists; apply R |].
  unfold called, logged. rewrite R. simpl. repeat split.
Qed.

Lemma X6_other_statuses_are_returned_witness :
  is_http_error (status_code not_modified) = false /\
  returns_only (B := answering not_modified)
    (PowerBIClient._request "GET" "gateways" no_kwargs)
    (fresh (answering not_modified) tt) not_modified.
Proof.
  destruct (X6_other_statuses_are_returned (B := answering not_modified)
              (fresh (answering not_modified) tt) "GET" "gateways" no_kwargs
              sample_token tt not_modified tt eq_refl eq_refl eq_refl) as (R & _).
  split; [reflexivity | exact R].
Defined.

(** ** Decoded bodies *)

Section DecodedFacts.
Context `{B : Backend}.

Lemma post_answered st endpoint json_body t w1 r w2 :
  grants (world st) t w1 ->
  session_request (request_of "POST" endpoint t (mkKwargs None json_body)) w1 = (inr r, w2) ->
  is_http_error (status_code r) = false ->
  PowerBIClient.post endpoint json_body st =
    (if (status_code r =? 204)%Z then mret (JObj ∅)
     else try_except (Response_json r)
            [ (JSONDecodeError, fun _ =>
                 logger WARNING [Txt "POST request to "; Txt endpoint;
                                 Txt " did not return JSON. Status: ";
                                 Num (status_code r)];;
                 mret (JObj ∅)) ])
      (mkState w2 (log st ++ success_records "POST" endpoint r)
         (calls st ++ exchange_calls "POST" endpoint t (mkKwargs None json_body))).
Proof.
  intros G S E. unfold PowerBIClient.post.
  erewrite bind_ok; [reflexivity | now eapply _request_ok; eauto].
Qed.

Lemma delete_answered st endpoint params t w1 r w2 :
  grants (world st) t w1 ->
  session_request (request_of "DELETE" endpoint t (mkKwargs params None)) w1 = (inr r, w2) ->
  is_http_error (status_code r) = false ->
  PowerBIClient.delete endpoint params st =
    (if delete_shortcut r
     then logger DEBUG [Txt "DELETE request to "; Txt endpoint;
                        Txt " successful with status "; Num (status_code r);
                        Txt " and no content."];;
          mret (JObj ∅)
     else try_except (Response_json r)
            [ (JSONDecodeError, fun _ =>
                 logger WARNING [Txt "DELETE request to "; Txt endpoint;
                                 Txt " did not return JSON. Status: ";
                                 Num (status_code r)];;
                 mret (JObj ∅)) ])
      (mkState w2 (log st ++ success_records "DELETE" endpoint r)
         (calls st ++ exchange_calls "DELETE" endpoint t (mkKwargs params None))).
Proof.
  intros G S E. unfold PowerBIClient.delete.
  erewrite bind_ok; [reflexivity | now eapply _request_ok; eauto].
Qed.
End DecodedFacts.

(** X7. On a response whose status passes and whose body decodes, [get]
    returns the decoded value as it is, a mapping or not, and adds no
    record to those of [_request]. *)
Theorem X7_get_returns_decoded_body `{B : Backend} (st : State) (endpoint : string)
    (params : option (gmap string json)) (r : Response) (v : json) :
  is_http_error (status_code r) = false ->
  json_loads (content r) = inr v ->
  answers (world st) "GET" endpoint (mkKwargs params None) r ->
  returns_only (PowerBIClient.get endpoint params) st v /\
  logged (PowerBIClient.get endpoint params) st (success_records "GET" endpoint r).
Proof.
  intros E D (t & w1 & w2 & G & S).
  pose proof (get_answered _ _ params _ _ _ _ G S E) as R.
  rewrite (Response_json_valid _ _ _ D) in R.
  split; [apply returns_is_only; eexists; apply R |].
  unfold logged. now rewrite R.
Qed.

Lemma X7_get_returns_decoded_body_witness :
  is_http_error (status_code ok_list) = false /\
  returns_only (B := answering ok_list)
    (PowerBIClient.get "gateways" None) (fresh (answering ok_list) tt) (JArr []).
Proof.
  destruct (X7_get_returns_decoded_body (B := answering ok_list)
              (fresh (answering ok_list) tt) "gateways" None ok_list (JArr [])
              eq_refl eq_refl) as (R & _).
  { exists sample_token, tt, tt. split; reflexivity. }
  split; [reflexivity | exact R].
Defined.

(** X8. [post] never reads the body of a 204 response: it returns the
    empty mapping even when that body decodes to something else.  At any
    other status that passes, it returns the decoded body. *)
Theorem X8_post_skips_body_at_204 `{B : Backend} (st : State) (endpoint : string)
    (json_body : option (gmap string json)) (r : Response) (v : json) :
  is_http_error (status_code r) = false ->
  json_loads (content r) = inr v ->
  answers (world st) "POST" endpoint (mkKwargs None json_body) r ->
  returns_only (PowerBIClient.post endpoint json_body) st
    (if (status_code r =? 204)%Z then JObj ∅ else v) /\
  logged (PowerBIClient.post endpoint json_body) st
    (success_records "POST" endpoint r).
Proof.
  intros E D (t & w1 & w2 & G & S).
  pose proof (post_answered _ _ json_body _ _ _ _ G S E) as R.
  destruct (status_code r =? 204)%Z.
  - split; [apply returns_is_only; eexists; apply R |].
    unfold logged. now rewrite R.
  - erewrite try_except_ok in R by apply Response_json_valid, D.
    split; [apply returns_is_only; eexists; apply R |].
    unfold logged. now rewrite R.
Qed.

Lemma X8_post_skips_body_at_204_witness :
  json_loads (Backend := answering no_content_with_body)
    (content no_content_with_body) = inr (JArr []) /\
  returns_only (B := answering no_content_with_body)
    (PowerBIClient.post "gateways" None)
    (fresh (answering no_content_with_body) tt) (JObj ∅).
Proof.
  destruct (X8_post_skips_body_at_204 (B := answering no_content_with_body)
              (fresh (answering no_content_with_body) tt) "gateways" None
              no_content_with_body (JArr []) eq_refl eq_refl) as (R & _).
  { exists sample_token, tt, tt. split; reflexivity. }
  split; [reflexivity | exact R].
Defined.

(** X9. [delete] skips the body only when it is empty and the status is
    200 or 204: then it returns the empty mapping after a debug record,
    whatever the decoder would say.  Otherwise a body that decodes is
    returned decoded, also at status 204, where [post] would drop it. *)
Theorem X9_delete_reads_nonempty_body `{B : Backend} (st : State) (endpoint : string)
    (params : option (gmap string json)) (r : Response) :
  is_http_error (status_code r) = false ->
  answers (world st) "DELETE" endpoint (mkKwargs params None) r ->
  (delete_shortcut r = true ->
   returns_only (PowerBIClient.delete endpoint params) st (JObj ∅) /\
   logged (PowerBIClient.delete endpoint params) st
     (success_records "DELETE" endpoint r ++ [delete_no_content endpoint r])) /\
  (forall v,
     delete_shortcut r = false ->
     json_loads (content r) = inr v ->
     returns_only (PowerBIClient.delete endpoint params) st v /\
     logged (PowerBIClient.delete endpoint params) st
       (success_records "DELETE" endpoint r)).
Proof.
  intros E (t & w1 & w2 & G & S).
  pose proof (delete_answered _ _ params _ _ _ _ G S E) as R.
  split.
  - intros Sh. rewrite Sh in R.
    split; [apply returns_is_only; eexists; apply R |].
    unfold logged. rewrite R. simpl. now rewrite <- app_assoc.
  - intros v Sh D. rewrite Sh in R.
    erewrite try_except_ok in R by apply Response_json_valid, D.
    split; [apply returns_is_only; eexists; apply R |].
    unfold logged. now rewrite R.
Qed.

Lemma X9_delete_reads_nonempty_body_witness :
  status_code no_content_with_body = 204%Z /\
  returns_only (B := answering no_content_with_body)
    (PowerBIClient.delete "gateways" None)
    (fresh (answering no_content_with_body) tt) (JArr []).
Proof.
  destruct (X9_delete_reads_nonempty_body (B := answering no_content_with_body)
              (fresh (answering no_content_with_body) tt) "gateways" None
              no_content_with_body eq_refl) as (_ & H).
  { exists sample_token, tt, tt. split; reflexivity. }
  destruct (H (JArr []) eq_refl eq_refl) as (R & _).
  split; [reflexivity | exact R].
Defined.

(** X10. Nothing is kept between two requests: the second of two
    consecutive [_request] calls asks the credential again, and its
    request carries the token of that second acquisition. *)
Theorem X10_token_acquired_per_request `{B : Backend} (st : State)
    (m1 e1 : string) (k1 : Kwargs) (m2 e2 : string) (k2 : Kwargs)
    (t1 : AccessToken) (w1 : World) (r1 : Response) (w2 : World)
    (t2 : AccessToken) (w3 : World) :
  grants (world st) t1 w1 ->
  session_request (request_of m1 e1 t1 k1) w1 = (inr r1, w2) ->
  is_http_error (status_code r1) = false ->
  grants w2 t2 w3 ->
  called (PowerBIClient._request m1 e1 k1;; PowerBIClient._request m2 e2 k2) st
    [ GetToken PowerBIAuth.scope; HttpRequest (request_of m1 e1 t1 k1);
      GetToken PowerBIAuth.scope; HttpRequest (request_of m2 e2 t2 k2) ].
Proof.
  intros G1 S1 E1 G2. unfold called.
  erewrite bind_ok by apply (_request_ok _ _ _ _ _ _ _ _ G1 S1 E1).
  pose proof (_request_granted_calls
                (mkState w2 (log st ++ success_records m1 e1 r1)
                   (calls st ++ exchange_calls m1 e1 t1 k1))
                m2 e2 k2 t2 w3 G2) as C.
  unfold called in C. rewrite C. simpl. rewrite <- app_assoc. reflexivity.
Qed.

Lemma X10_token_acquired_per_request_witness :
  called (B := rotating)
    (PowerBIClient._request "GET" "gateways" no_kwargs;;
     PowerBIClient._request "GET" "groups" no_kwargs)
    (fresh rotating 0%nat)
    [ GetToken PowerBIAuth.scope;
      HttpRequest (request_of "GET" "gateways" (mkAccessToken "first" 0) no_kwargs);
      GetToken PowerBIAuth.scope;
      HttpRequest (request_of "GET" "groups" (mkAccessToken "second" 0) no_kwargs) ].
Proof.
  apply (X10_token_acquired_per_request (B := rotating) (fresh rotating 0%nat)
           "GET" "gateways" no_kwargs "GET" "groups" no_kwargs
           (mkAccessToken "first" 0) 1%nat ok_object 1%nat
           (mkAccessToken "second" 0) 2%nat);
    reflexivity.
Defined.

(** ** The request URL, again *)

Lemma lstrip_separators_app (n : nat) (endpoint : string) :
  lstrip "/" (separators n ++ endpoint) = lstrip "/" endpoint.
Proof.
  induction n as [| n IH].
  - reflexivity.
  - change (separators (S n) ++ endpoint)
      with (String "/" (separators n ++ endpoint)).
    exact IH.
Qed.

Lemma lstrip_idempotent (endpoint : string) :
  lstrip "/" (lstrip "/" endpoint) = lstrip "/" endpoint.
Proof.
  induction endpoint as [| c rest IH].
  - reflexivity.
  - simpl. destruct (Ascii.eqb c "/") eqn:E.
    + exact IH.
    + simpl. now rewrite E.
Qed.

(** X11. Leading separators of an endpoint do not matter, and nothing else
    of it is touched: any number of ["/"] in front of an endpoint gives
    the URL of the endpoint; stripping twice is stripping once; and an
    endpoint that starts with another character is appended unchanged. *)
Theorem X11_leading_separators_are_ignored (endpoint : string) :
  (forall n,
     PowerBIClient.request_url (separators n ++ endpoint)
     = PowerBIClient.request_url endpoint) /\
  PowerBIClient.request_url (lstrip "/" endpoint)
  = PowerBIClient.request_url endpoint /\
  (forall c,
     c <> "/"%char ->
     PowerBIClient.request_url (String c endpoint)
     = PowerBIClient.BASE_URL ++ "/" ++ String c endpoint).
Proof.
  split; [| split].
  - intros n. unfold PowerBIClient.request_url. now rewrite lstrip_separators_app.
  - unfold PowerBIClient.request_url. now rewrite lstrip_idempotent.
  - intros c Hc. unfold PowerBIClient.request_url. simpl.
    destruct (Ascii.eqb c "/") eqn:E; [| reflexivity].
    apply Ascii.eqb_eq in E. contradiction.
Qed.

Lemma X11_leading_separators_are_ignored_witness :
  PowerBIClient.request_url "g?x=//"
  = PowerBIClient.BASE_URL ++ "/" ++ "g?x=//".
Proof.
  destruct (X11_leading_separators_are_ignored "?x=//") as (_ & _ & H).
  apply (H "g"%char). discriminate.
Defined.

(** ** Top-level listings *)

Section ListingRunFacts.
Context `{B : Backend}.

Lemma get_gateways_is_listing :
  GatewayAdmin.get_gateways
  = listing [Txt "Fetching gateways..."] "gateways" None [Txt " gateways."].
Proof. reflexivity. Qed.

Lemma get_gateway_datasources_is_listing gateway_id :
  GatewayAdmin.get_gateway_datasources gateway_id
  = listing [Txt "Fetching datasources for gateway ID: "; Txt gateway_id]
      ("gateways/" ++ gateway_id ++ "/datasources") None
      [Txt " datasources for gateway "; Txt gateway_id; Txt "."].
Proof. reflexivity. Qed.

Lemma get_workspaces_is_listing filter_str top skip :
  WorkspaceAdmin.get_workspaces filter_str top skip
  = listing [Txt "Fetching workspaces..."] "groups"
      (Some (WorkspaceAdmin.workspaces_params filter_str top skip))
      [Txt " workspaces matching criteria."].
Proof. reflexivity. Qed.

Lemma raises_http_error_intro {A} (m : M A) st msg r st' :
  m st = (Raise (mkExn HTTPError msg (Some r)), st') ->
  raises_http_error m st r.
Proof.
  intros H. exists (mkExn HTTPError msg (Some r)).
  assert (R : raises m st (mkExn HTTPError msg (Some r))) by (now exists st').
  repeat split; try exact R.
  intros a. eapply raises_not_returns, R.
Qed.

Lemma listing_http_error intro endpoint params after st r :
  is_http_error (status_code r) = true ->
  answers (world st) "GET" endpoint (mkKwargs params None) r ->
  raises_http_error (listing intro endpoint params after) st r.
Proof.
  intros E (t & w1 & w2 & G & S).
  destruct (_request_http_error (with_records st [mkLog INFO intro])
              "GET" endpoint (mkKwargs params None) t w1 r w2 G S E) as [msg H].
  eapply raises_http_error_intro. unfold listing.
  erewrite bind_ok by apply logger_run.
  erewrite bind_raise; [reflexivity |].
  unfold PowerBIClient.get. erewrite bind_raise; [reflexivity | apply H].
Qed.

(** The steps of a listing after [get] has returned the value [v]. *)
Lemma listing_after_get intro endpoint params after st r v :
  is_http_error (status_code r) = false ->
  json_loads (content r) = inr v ->
  answers (world st) "GET" endpoint (mkKwargs params None) r ->
  exists st1,
    log st1 = (log st ++ mkLog INFO intro :: success_records "GET" endpoint r)%list /\
    listing intro endpoint params after st
    = (items ← dict_get v "value" (JArr []);
       n ← len items;
       logger INFO (Txt "Found " :: Num n :: after);;
       mret items) st1.
Proof.
  intros E D (t & w1 & w2 & G & S).
  pose proof (get_answered (with_records st [mkLog INFO intro]) endpoint params
                t w1 r w2 G S E) as R.
  rewrite (Response_json_valid _ _ _ D) in R.
  eexists. split.
  2: { unfold listing. erewrite bind_ok by apply logger_run.
       erewrite bind_ok by apply R. reflexivity. }
  simpl. rewrite <- app_assoc. reflexivity.
Qed.

(** The length of a text is its number of characters, not of bytes: two
    characters of three bytes each, and one of two bytes among ASCII. *)
Lemma sized_counts_characters :
  sized (JStr "日本") = Some 2%Z /\ sized (JStr "café") = Some 4%Z /\
  String.length "日本" = 6%nat.
Proof. repeat split. Qed.

(** On ASCII text, characters are bytes. *)
Lemma code_points_ascii (s : string) :
  (forall c, In c (list_ascii_of_string s) -> is_continuation c = false) ->
  code_points s = String.length s.
Proof.
  induction s as [| c rest IH]; intros H; simpl; [reflexivity |].
  rewrite (H c) by (left; reflexivity).
  f_equal. apply IH. intros d Hd. apply H. right. exact Hd.
Qed.

Lemma len_sized v n st : sized v = Some n -> len v st = (Ok n, st).
Proof. destruct v; simpl; intros H; try discriminate; now inversion H. Qed.

Lemma len_unsized v st :
  sized v = None ->
  len v st = (Raise (mkExn TypeError
                       ("object of type '" ++ type_name v ++ "' has no len()") None), st).
Proof. destruct v; simpl; intros H; try discriminate; reflexivity. Qed.

Lemma dict_get_not_mapping v key dflt st :
  is_mapping v = false ->
  dict_get v key dflt st
  = (Raise (mkExn AttributeError
              ("'" ++ type_name v ++ "' object has no attribute 'get'") None), st).
Proof. destruct v; simpl; intros H; try discriminate; reflexivity. Qed.

Lemma listing_value intro endpoint params after st r d u n :
  is_http_error (status_code r) = false ->
  json_loads (content r) = inr (JObj d) ->
  d !! "value" = Some u ->
  sized u = Some n ->
  answers (world st) "GET" endpoint (mkKwargs params None) r ->
  returns_only (listing intro endpoint params after) st u /\
  logged (listing intro endpoint params after) st
    (mkLog INFO intro :: success_records "GET" endpoint r
       ++ [mkLog INFO (Txt "Found " :: Num n :: after)]).
Proof.
  intros E D V Z A.
  destruct (listing_after_get intro endpoint params after st r (JObj d) E D A)
    as (st1 & L & R).
  assert (Q : listing intro endpoint params after st
              = (Ok u, with_records st1 [mkLog INFO (Txt "Found " :: Num n :: after)])).
  { rewrite R. unfold dict_get. rewrite V. simpl.
    erewrite bind_ok by reflexivity.
    erewrite bind_ok by apply (len_sized _ _ _ Z). reflexivity. }
  split; [apply returns_is_only; eexists; apply Q |].
  unfold logged. rewrite Q. simpl. rewrite L.
  rewrite <- app_assoc. reflexivity.
Qed.

Lemma listing_not_mapping intro endpoint params after st r v :
  is_http_error (status_code r) = false ->
  json_loads (content r) = inr v ->
  is_mapping v = false ->
  answers (world st) "GET" endpoint (mkKwargs params None) r ->
  raises (listing intro endpoint params after) st
    (mkExn AttributeError
       ("'" ++ type_name v ++ "' object has no attribute 'get'") None).
Proof.
  intros E D N A.
  destruct (listing_after_get intro endpoint params after st r v E D A)
    as (st1 & L & R).
  exists st1. rewrite R.
  erewrite bind_raise; [reflexivity | now apply dict_get_not_mapping].
Qed.

Lemma listing_unsized intro endpoint params after st r d u :
  is_http_error (status_code r) = false ->
  json_loads (content r) = inr (JObj d) ->
  d !! "value" = Some u ->
  sized u = None ->
  answers (world st) "GET" endpoint (mkKwargs params None) r ->
  raises (listing intro endpoint params after) st
    (mkExn TypeError
       ("object of type '" ++ type_name u ++ "' has no len()") None).
Proof.
  intros E D V Z A.
  destruct (listing_after_get intro endpoint params after st r (JObj d) E D A)
    as (st1 & L & R).
  exists st1. rewrite R. unfold dict_get. rewrite V. simpl.
  erewrite bind_ok by reflexivity.
  erewrite bind_raise; [reflexivity | now apply len_unsized].
Qed.
End ListingRunFacts.

(** X12. The three top-level listings are not guarded: on a 4xx or 5xx
    response [get_gateways], [get_gateway_datasources] and
    [get_workspaces] raise the [HTTPError] carrying the response, and
    return no list. *)
Theorem X12_listings_propagate_http_errors `{B : Backend} (st : State)
    (gateway_id : string) (filter_str : option string) (top skip : option Z)
    (r : Response) :
  is_http_error (status_code r) = true ->
  (answers (world st) "GET" "gateways" (mkKwargs None None) r ->
   raises_http_error GatewayAdmin.get_gateways st r) /\
  (answers (world st) "GET" ("gateways/" ++ gateway_id ++ "/datasources")
     (mkKwargs None None) r ->
   raises_http_error (GatewayAdmin.get_gateway_datasources gateway_id) st r) /\
  (answers (world st) "GET" "groups"
     (mkKwargs (Some (WorkspaceAdmin.workspaces_params filter_str top skip)) None) r ->
   raises_http_error (WorkspaceAdmin.get_workspaces filter_str top skip) st r).
Proof.
  intros E. split; [| split]; intros A.
  - rewrite get_gateways_is_listing. now apply listing_http_error.
  - rewrite get_gateway_datasources_is_listing. now apply listing_http_error.
  - rewrite get_workspaces_is_listing. now apply listing_http_error.
Qed.

Lemma X12_listings_propagate_http_errors_witness :
  is_http_error (status_code forbidden) = true /\
  raises_http_error (B := answering forbidden)
    GatewayAdmin.get_gateways (fresh (answering forbidden) tt) forbidden.
Proof.
  destruct (X12_listings_propagate_http_errors (B := answering forbidden)
              (fresh (answering forbidden) tt) "gw1" None None None forbidden eq_refl)
    as (H & _).
  split; [reflexivity |]. apply H.
  exists sample_token, tt, tt. split; reflexivity.
Defined.

(** X13. When the body decodes to a mapping whose ["value"] has a length,
    each top-level listing returns that value untouched, without checking
    that it is a list, and its last record reports the length. *)
Theorem X13_listings_return_value `{B : Backend} (st : State)
    (gateway_id : string) (filter_str : option string) (top skip : option Z)
    (r : Response) (d : gmap string json) (u : json) (n : Z) :
  is_http_error (status_code r) = false ->
  json_loads (content r) = inr (JObj d) ->
  d !! "value" = Some u ->
  sized u = Some n ->
  (answers (world st) "GET" "gateways" (mkKwargs None None) r ->
   returns_only GatewayAdmin.get_gateways st u /\
   logged GatewayAdmin.get_gateways st
     (mkLog INFO [Txt "Fetching gateways..."] :: success_records "GET" "gateways" r
        ++ [mkLog INFO [Txt "Found "; Num n; Txt " gateways."]])) /\
  (answers (world st) "GET" ("gateways/" ++ gateway_id ++ "/datasources")
     (mkKwargs None None) r ->
   returns_only (GatewayAdmin.get_gateway_datasources gateway_id) st u /\
   logged (GatewayAdmin.get_gateway_datasources gateway_id) st
     (mkLog INFO [Txt "Fetching datasources for gateway ID: "; Txt gateway_id]
        :: success_records "GET" ("gateways/" ++ gateway_id ++ "/datasources") r
        ++ [mkLog INFO [Txt "Found "; Num n; Txt " datasources for gateway ";
                        Txt gateway_id; Txt "."]])) /\
  (answers (world st) "GET" "groups"
     (mkKwargs (Some (WorkspaceAdmin.workspaces_params filter_str top skip)) None) r ->
   returns_only (WorkspaceAdmin.get_workspaces filter_str top skip) st u /\
   logged (WorkspaceAdmin.get_workspaces filter_str top skip) st
     (mkLog INFO [Txt "Fetching workspaces..."] :: success_records "GET" "groups" r
        ++ [mkLog INFO [Txt "Found "; Num n; Txt " workspaces matching criteria."]])).
Proof.
  intros E D V Z. split; [| split]; intros A.
  - rewrite get_gateways_is_listing. now apply (listing_value _ _ _ _ _ r d u n).
  - rewrite get_gateway_datasources_is_listing.
    now apply (listing_value _ _ _ _ _ r d u n).
  - rewrite get_workspaces_is_listing. now apply (listing_value _ _ _ _ _ r d u n).
Qed.

Lemma X13_listings_return_value_witness :
  returns_only (B := listing_backend ok_two_items)
    (WorkspaceAdmin.get_workspaces (Some "startswith(name,'Test')") None None)
    (fresh (listing_backend ok_two_items) tt) (JArr two_items).
Proof.
  destruct (X13_listings_return_value (B := listing_backend ok_two_items)
              (fresh (listing_backend ok_two_items) tt) "gw1"
              (Some "startswith(name,'Test')") None None ok_two_items
              {[ "value" := JArr two_items ]} (JArr two_items) 2%Z
              eq_refl eq_refl eq_refl eq_refl) as (_ & _ & H).
  apply H. exists sample_token, tt, tt. split; reflexivity.
Defined.

(** X14. A body that decodes to something else than a mapping makes each
    top-level listing raise an [AttributeError], and a ["value"] without a
    length, such as [null] or a number, makes it raise a [TypeError]:
    neither is caught. *)
Theorem X14_listings_raise_on_malformed_body `{B : Backend} (st : State)
    (gateway_id : string) (filter_str : option string) (top skip : option Z)
    (r : Response) (v : json) :
  is_http_error (status_code r) = false ->
  json_loads (content r) = inr v ->
  forall e, listing_failure v = Some e ->
  (answers (world st) "GET" "gateways" (mkKwargs None None) r ->
   raises GatewayAdmin.get_gateways st e) /\
  (answers (world st) "GET" ("gateways/" ++ gateway_id ++ "/datasources")
     (mkKwargs None None) r ->
   raises (GatewayAdmin.get_gateway_datasources gateway_id) st e) /\
  (answers (world st) "GET" "groups"
     (mkKwargs (Some (WorkspaceAdmin.workspaces_params filter_str top skip)) None) r ->
   raises (WorkspaceAdmin.get_workspaces filter_str top skip) st e).
Proof.
  intros E D e Hbad.
  rewrite get_gateways_is_listing, get_gateway_datasources_is_listing,
    get_workspaces_is_listing.
  unfold listing_failure in Hbad.
  destruct v as [| b | z | f | s | items | d];
    try (injection Hbad as <-;
         split; [| split]; intros A;
         match type of D with
         | _ = inr ?v => now apply (listing_not_mapping _ _ _ _ _ r v)
         end).
  destruct (d !! "value") as [u |] eqn:V; [| discriminate].
  destruct (sized u) eqn:Z; [discriminate |].
  injection Hbad as <-.
  split; [| split]; intros A; now apply (listing_unsized _ _ _ _ _ r d u).
Qed.

Lemma X14_listings_raise_on_malformed_body_witness :
  raises (B := listing_backend ok_null_value)
    GatewayAdmin.get_gateways (fresh (listing_backend ok_null_value) tt)
    (mkExn TypeError "object of type 'NoneType' has no len()" None) /\
  raises (B := listing_backend ok_list)
    GatewayAdmin.get_gateways (fresh (listing_backend ok_list) tt)
    (mkExn AttributeError "'list' object has no attribute 'get'" None).
Proof.
  split.
  - destruct (X14_listings_raise_on_malformed_body (B := listing_backend ok_null_value)
                (fresh (listing_backend ok_null_value) tt) "gw1" None None None
                ok_null_value (JObj {[ "value" := JNull ]}) eq_refl eq_refl
                (mkExn TypeError "object of type 'NoneType' has no len()" None)
                eq_refl) as (H & _).
    apply H. exists sample_token, tt, tt. split; reflexivity.
  - destruct (X14_listings_raise_on_malformed_body (B := listing_backend ok_list)
                (fresh (listing_backend ok_list) tt) "gw1" None None None
                ok_list (JArr []) eq_refl eq_refl
                (mkExn AttributeError "'list' object has no attribute 'get'" None)
                eq_refl) as (H & _).
    apply H. exists sample_token, tt, tt. split; reflexivity.
Defined.

(** ** Guarded listings of users *)

Section UsersFacts.
Context `{B : Backend}.

(** A listing without parameters is its announcement followed by the
    [try] block of the users listings. *)
Lemma listing_is_users_try intro endpoint after st :
  listing intro endpoint None after st
  = users_try endpoint after (with_records st [mkLog INFO intro]).
Proof. reflexivity. Qed.

Lemma datasource_users_except_run gateway_id datasource_id e st :
  GatewayAdmin.get_gateway_datasource_users_except gateway_id datasource_id e st
  = (Ok (JArr []),
     with_records st
       (mkLog ERROR [Txt "Could not get users for datasource "; Txt datasource_id;
                     Txt " on gateway "; Txt gateway_id; Txt ": "; Exc e]
        :: response_records e)).
Proof.
  unfold GatewayAdmin.get_gateway_datasource_users_except.
  erewrite bind_ok by apply logger_run.
  erewrite bind_ok by apply log_error_response_run.
  unfold with_records, mret, M_ret. simpl. rewrite <- app_assoc. reflexivity.
Qed.

(** What the gateway listing of users makes of its [try] block. *)
Lemma datasource_users_run gateway_id datasource_id st :
  GatewayAdmin.get_gateway_datasource_users gateway_id datasource_id st
  = match listing [Txt "Fetching users for datasource ID: "; Txt datasource_id;
                   Txt " on gateway ID: "; Txt gateway_id]
            (GatewayAdmin.datasource_users_endpoint gateway_id datasource_id) None
            [Txt " users for datasource "; Txt datasource_id; Txt "."] st with
    | (Ok v, st1) => (Ok v, st1)
    | (Raise e, st1) =>
        (Ok (JArr []),
         with_records st1
           (mkLog ERROR [Txt "Could not get users for datasource "; Txt datasource_id;
                         Txt " on gateway "; Txt gateway_id; Txt ": "; Exc e]
            :: response_records e))
    end.
Proof.
  rewrite listing_is_users_try.
  unfold GatewayAdmin.get_gateway_datasource_users.
  erewrite bind_ok by apply logger_run.
  unfold try_except.
  change (GatewayAdmin.get_gateway_datasource_users_try gateway_id datasource_id)
    with (users_try (GatewayAdmin.datasource_users_endpoint gateway_id datasource_id)
            [Txt " users for datasource "; Txt datasource_id; Txt "."]).
  fold (with_records st [mkLog INFO [Txt "Fetching users for datasource ID: ";
                                     Txt datasource_id; Txt " on gateway ID: ";
                                     Txt gateway_id]]).
  destruct (users_try _ _ _) as [[v | e] st1]; [reflexivity |].
  simpl. apply datasource_users_except_run.
Qed.

(** What the workspace listing of users makes of its [try] block. *)
Lemma workspace_users_run workspace_id st :
  WorkspaceAdmin.get_workspace_users workspace_id st
  = match listing [Txt "Fetching users for workspace ID: "; Txt workspace_id]
            ("groups/" ++ workspace_id ++ "/users") None
            [Txt " users for workspace "; Txt workspace_id; Txt "."] st with
    | (Ok v, st1) => (Ok v, st1)
    | (Raise e, st1) =>
        (Ok (JArr []),
         with_records st1
           (mkLog ERROR [Txt "Could not get users for workspace "; Txt workspace_id;
                         Txt ": "; Exc e]
            :: response_records e))
    end.
Proof.
  rewrite listing_is_users_try.
  unfold WorkspaceAdmin.get_workspace_users.
  erewrite bind_ok by apply logger_run.
  unfold try_except.
  fold (with_records st [mkLog INFO [Txt "Fetching users for workspace ID: ";
                                     Txt workspace_id]]).
  match goal with
  | |- context [users_try ?ep ?after ?s] =>
      change (match users_try ep after s with
              | (Ok a, st') => (Ok a, st')
              | (Raise e, st') =>
                  (logger ERROR [Txt "Could not get users for workspace ";
                                 Txt workspace_id; Txt ": "; Exc e];;
                   WorkspaceAdmin._log_api_error e;;
                   mret (JArr [])) st'
              end = match users_try ep after s with
                    | (Ok v, st1) => (Ok v, st1)
                    | (Raise e, st1) =>
                        (Ok (JArr []),
                         with_records st1
                           (mkLog ERROR [Txt "Could not get users for workspace ";
                                         Txt workspace_id; Txt ": "; Exc e]
                            :: response_records e))
                    end);
      destruct (users_try ep after s) as [[v | e] st1]
  end; [reflexivity |].
  erewrite bind_ok by apply logger_run.
  erewrite bind_ok by apply _log_api_error_run.
  unfold with_records, mret, M_ret. simpl. rewrite <- app_assoc. reflexivity.
Qed.
End UsersFacts.

(** X15. [get_gateway_datasource_users] and [get_workspace_users] always
    return: whatever the credential, the session and the decoder do, and
    whatever the body holds, neither raises. *)
Theorem X15_users_listings_never_raise `{B : Backend}
    (gateway_id datasource_id workspace_id : string) :
  never_raises (GatewayAdmin.get_gateway_datasource_users gateway_id datasource_id) /\
  never_raises (WorkspaceAdmin.get_workspace_users workspace_id).
Proof.
  split; intros st.
  - rewrite datasource_users_run.
    destruct (listing _ _ _ _ st) as [[v | e] st1]; eexists; eexists; reflexivity.
  - rewrite workspace_users_run.
    destruct (listing _ _ _ _ st) as [[v | e] st1]; eexists; eexists; reflexivity.
Qed.

(** X16. When the body decodes to a mapping whose ["value"] has a length,
    both users listings return that value untouched. *)
Theorem X16_users_listings_return_value `{B : Backend} (st : State)
    (gateway_id datasource_id workspace_id : string)
    (r : Response) (d : gmap string json) (u : json) (n : Z) :
  is_http_error (status_code r) = false ->
  json_loads (content r) = inr (JObj d) ->
  d !! "value" = Some u ->
  sized u = Some n ->
  (answers (world st) "GET"
     ("gateways/" ++ gateway_id ++ "/datasources/" ++ datasource_id ++ "/users")
     (mkKwargs None None) r ->
   returns_only (GatewayAdmin.get_gateway_datasource_users gateway_id datasource_id)
     st u) /\
  (answers (world st) "GET" ("groups/" ++ workspace_id ++ "/users")
     (mkKwargs None None) r ->
   returns_only (WorkspaceAdmin.get_workspace_users workspace_id) st u).
Proof.
  intros E D V Z. split; intros A; apply returns_is_only.
  - destruct (listing_value
                [Txt "Fetching users for datasource ID: "; Txt datasource_id;
                 Txt " on gateway ID: "; Txt gateway_id]
                (GatewayAdmin.datasource_users_endpoint gateway_id datasource_id) None
                [Txt " users for datasource "; Txt datasource_id; Txt "."]
                st r d u n E D V Z A) as ([[st1 L] _] & _).
    exists st1. rewrite datasource_users_run, L. reflexivity.
  - destruct (listing_value
                [Txt "Fetching users for workspace ID: "; Txt workspace_id]
                ("groups/" ++ workspace_id ++ "/users") None
                [Txt " users for workspace "; Txt workspace_id; Txt "."]
                st r d u n E D V Z A) as ([[st1 L] _] & _).
    exists st1. rewrite workspace_users_run, L. reflexivity.
Qed.

Lemma X16_users_listings_return_value_witness :
  returns_only (B := listing_backend ok_two_items)
    (GatewayAdmin.get_gateway_datasource_users "gw1" "ds1")
    (fresh (listing_backend ok_two_items) tt) (JArr two_items).
Proof.
  destruct (X16_users_listings_return_value (B := listing_backend ok_two_items)
              (fresh (listing_backend ok_two_items) tt) "gw1" "ds1" "g1"
              ok_two_items {[ "value" := JArr two_items ]} (JArr two_items) 2%Z
              eq_refl eq_refl eq_refl eq_refl) as (H & _).
  apply H. exists sample_token, tt, tt. split; reflexivity.
Defined.

(** X17. A body the top-level listings would fail on, one that is no
    mapping or whose ["value"] has no length, makes both users listings
    return the empty list: the [AttributeError] or [TypeError] is caught
    and ends up in an error record. *)
Theorem X17_users_listings_absorb_malformed_body `{B : Backend} (st : State)
    (gateway_id datasource_id workspace_id : string)
    (r : Response) (v : json) (e : exn) :
  is_http_error (status_code r) = false ->
  json_loads (content r) = inr v ->
  listing_failure v = Some e ->
  (answers (world st) "GET"
     ("gateways/" ++ gateway_id ++ "/datasources/" ++ datasource_id ++ "/users")
     (mkKwargs None None) r ->
   returns_only (GatewayAdmin.get_gateway_datasource_users gateway_id datasource_id)
     st (JArr []) /\
   In (mkLog ERROR [Txt "Could not get users for datasource "; Txt datasource_id;
                    Txt " on gateway "; Txt gateway_id; Txt ": "; Exc e])
     (log (snd (GatewayAdmin.get_gateway_datasource_users gateway_id datasource_id st)))) /\
  (answers (world st) "GET" ("groups/" ++ workspace_id ++ "/users")
     (mkKwargs None None) r ->
   returns_only (WorkspaceAdmin.get_workspace_users workspace_id) st (JArr []) /\
   In (mkLog ERROR [Txt "Could not get users for workspace "; Txt workspace_id;
                    Txt ": "; Exc e])
     (log (snd (WorkspaceAdmin.get_workspace_users workspace_id st)))).
Proof.
  intros E D F.
  assert (R : forall intro endpoint after,
             answers (world st) "GET" endpoint (mkKwargs None None) r ->
             raises (listing intro endpoint None after) st e).
  { intros intro endpoint after A. unfold listing_failure in F.
    destruct v as [| b | z | f | s | items | d];
      try (injection F as <-;
           match type of D with
           | _ = inr ?v => now apply (listing_not_mapping _ _ _ _ _ r v)
           end).
    destruct (d !! "value") as [u |] eqn:V; [| discriminate].
    destruct (sized u) eqn:Z; [discriminate |].
    injection F as <-. now apply (listing_unsized _ _ _ _ _ r d u). }
  split; intros A.
  - destruct (R [Txt "Fetching users for datasource ID: "; Txt datasource_id;
                 Txt " on gateway ID: "; Txt gateway_id]
                (GatewayAdmin.datasource_users_endpoint gateway_id datasource_id)
                [Txt " users for datasource "; Txt datasource_id; Txt "."] A)
      as [st1 L].
    rewrite datasource_users_run, L. split.
    + apply returns_is_only. eexists. rewrite datasource_users_run, L. reflexivity.
    + simpl. apply in_or_app. right. left. reflexivity.
  - destruct (R [Txt "Fetching users for workspace ID: "; Txt workspace_id]
                ("groups/" ++ workspace_id ++ "/users")
                [Txt " users for workspace "; Txt workspace_id; Txt "."] A)
      as [st1 L].
    rewrite workspace_users_run, L. split.
    + apply returns_is_only. eexists. rewrite workspace_users_run, L. reflexivity.
    + simpl. apply in_or_app. right. left. reflexivity.
Qed.

Lemma X17_users_listings_absorb_malformed_body_witness :
  returns_only (B := listing_backend ok_null_value)
    (WorkspaceAdmin.get_workspace_users "g1")
    (fresh (listing_backend ok_null_value) tt) (JArr []).
Proof.
  destruct (X17_users_listings_absorb_malformed_body
              (B := listing_backend ok_null_value)
              (fresh (listing_backend ok_null_value) tt) "gw1" "ds1" "g1"
              ok_null_value (JObj {[ "value" := JNull ]})
              (mkExn TypeError "object of type 'NoneType' has no len()" None)
              eq_refl eq_refl eq_refl) as (_ & H).
  destruct H as [R _].
  { exists sample_token, tt, tt. split; reflexivity. }
  exact R.
Defined.

(** X18. Whatever exception the [get] of [get_workspace_users] raises, a
    refused token, a transport failure, an HTTP error or a body that does
    not decode, the operation returns the empty list after an error record
    with the exception and the records about its response. *)
Theorem X18_workspace_users_error_degrades `{B : Backend} (st : State)
    (workspace_id : string) (e : exn) (st1 : State) :
  PowerBIClient.get ("groups/" ++ workspace_id ++ "/users") None
    (with_records st
       [mkLog INFO [Txt "Fetching users for workspace ID: "; Txt workspace_id]])
  = (Raise e, st1) ->
  returns_only (WorkspaceAdmin.get_workspace_users workspace_id) st (JArr []) /\
  log (snd (WorkspaceAdmin.get_workspace_users workspace_id st))
  = (log st1 ++
     mkLog ERROR [Txt "Could not get users for workspace "; Txt workspace_id;
                  Txt ": "; Exc e]
     :: response_records e)%list.
Proof.
  intros G.
  assert (L : listing [Txt "Fetching users for workspace ID: "; Txt workspace_id]
                ("groups/" ++ workspace_id ++ "/users") None
                [Txt " users for workspace "; Txt workspace_id; Txt "."] st
              = (Raise e, st1)).
  { rewrite listing_is_users_try. unfold users_try.
    erewrite bind_raise; [reflexivity | apply G]. }
  pose proof (workspace_users_run workspace_id st) as R. rewrite L in R.
  split.
  - apply returns_is_only. eexists. apply R.
  - rewrite R. reflexivity.
Qed.

Lemma X18_workspace_users_error_degrades_witness :
  returns_only (B := scripted (inr sample_token) (inl timed_out))
    (WorkspaceAdmin.get_workspace_users "g1")
    (fresh (scripted (inr sample_token) (inl timed_out)) tt) (JArr []) /\
  at_level ERROR
    (log (snd (WorkspaceAdmin.get_workspace_users
                 (B := scripted (inr sample_token) (inl timed_out)) "g1"
                 (fresh (scripted (inr sample_token) (inl timed_out)) tt))))
  = [ transport_record timed_out;
      mkLog ERROR [Txt "Could not get users for workspace "; Txt "g1"; Txt ": ";
                   Exc timed_out] ].
Proof.
  destruct (X18_workspace_users_error_degrades
              (B := scripted (inr sample_token) (inl timed_out))
              (fresh (scripted (inr sample_token) (inl timed_out)) tt) "g1" timed_out
              (snd (PowerBIClient.get
                      (B := scripted (inr sample_token) (inl timed_out))
                      "groups/g1/users" None
                      (with_records
                         (fresh (scripted (inr sample_token) (inl timed_out)) tt)
                         [mkLog INFO [Txt "Fetching users for workspace ID: ";
                                      Txt "g1"]])))
              eq_refl) as (R & L).
  split; [exact R |]. rewrite L. reflexivity.
Defined.

(** ** Payloads and query parameters *)

(** X19. The payload of [add_datasource_user] always holds the identifier,
    the principal type and the access right; a display name and an email
    address only when given and not empty, the email address never being
    filled in from the identifier; a profile only for a
    ["ServicePrincipal"] with a non-empty profile; and no other key. *)
Theorem X19_datasource_user_payload_fields
    (principal_id principal_type access_right : string)
    (display_name email_address : option string)
    (profile : option (gmap string json)) :
  let payload :=
    GatewayAdmin.datasource_user_payload principal_id principal_type access_right
      display_name email_address profile in
  payload !! "identifier" = Some (JStr principal_id) /\
  payload !! "principalType" = Some (JStr principal_type) /\
  payload !! "datasourceUserAccessRight" = Some (JStr access_right) /\
  payload !! "displayName" = JStr <$> given display_name /\
  payload !! "emailAddress" = JStr <$> given email_address /\
  payload !! "profile"
  = (if String.eqb principal_type "ServicePrincipal"
     then JObj <$> given_dict profile else None) /\
  dom payload ⊆ ({[ "identifier"; "principalType"; "datasourceUserAccessRight";
                    "displayName"; "emailAddress"; "profile" ]} : gset string).
Proof.
  unfold GatewayAdmin.datasource_user_payload, given, given_dict.
  destruct (truthy_str display_name) eqn:Dn;
    destruct (truthy_str email_address) eqn:Em;
    destruct (String.eqb principal_type "ServicePrincipal");
    destruct (truthy_dict profile) eqn:Pr; simpl;
    destruct display_name as [dn |]; try discriminate Dn;
    destruct email_address as [em |]; try discriminate Em;
    destruct profile as [pf |]; try discriminate Pr; simpl;
    (repeat split; [reflexivity .. |]);
    rewrite ?dom_insert_L, ?dom_singleton_L; set_solver.
Qed.

(** X20. The payload of [add_workspace_user] holds an email address for
    the principal type ["User"] only: the given one, or the identifier
    when none is given or it is empty.  For every other principal type
    the email address passed by the caller is left out. *)
Theorem X20_workspace_user_payload_fields
    (identifier principal_type access_right : string)
    (email_address : option string) :
  let payload :=
    WorkspaceAdmin.workspace_user_payload identifier principal_type access_right
      email_address in
  payload !! "identifier" = Some (JStr identifier) /\
  payload !! "principalType" = Some (JStr principal_type) /\
  payload !! "groupUserAccessRight" = Some (JStr access_right) /\
  payload !! "emailAddress"
  = (if String.eqb principal_type "User"
     then Some (JStr (default identifier (given email_address))) else None) /\
  dom payload ⊆ ({[ "identifier"; "principalType"; "groupUserAccessRight";
                    "emailAddress" ]} : gset string).
Proof.
  unfold WorkspaceAdmin.workspace_user_payload, given.
  destruct (String.eqb principal_type "User");
    destruct (truthy_str email_address) eqn:Em;
    destruct email_address as [em |]; try discriminate Em; simpl;
    (repeat split; [reflexivity .. |]);
    rewrite ?dom_insert_L, ?dom_singleton_L; set_solver.
Qed.

(** X21. The query of [get_workspaces] holds [$filter], [$top] and [$skip]
    only for the arguments that are given: an empty filter, and a [top] or
    [skip] of zero, are left out like absent ones; there is no other
    key. *)
Theorem X21_workspaces_params_fields (filter_str : option string)
    (top skip : option Z) :
  let params := WorkspaceAdmin.workspaces_params filter_str top skip in
  params !! "$filter" = JStr <$> given filter_str /\
  params !! "$top" = JInt <$> given_int top /\
  params !! "$skip" = JInt <$> given_int skip /\
  dom params ⊆ ({[ "$filter"; "$top"; "$skip" ]} : gset string).
Proof.
  unfold WorkspaceAdmin.workspaces_params, given, given_int.
  destruct (truthy_str filter_str) eqn:Fl;
    destruct (truthy_int top) eqn:Tp;
    destruct (truthy_int skip) eqn:Sk;
    destruct filter_str as [fl |]; try discriminate Fl;
    destruct top as [tp |]; try discriminate Tp;
    destruct skip as [sk |]; try discriminate Sk; simpl;
    (repeat split; [reflexivity .. |]);
    rewrite ?dom_insert_L, ?dom_singleton_L, ?dom_empty_L; set_solver.
Qed.

(** ** Runs that make no outside call *)

Section SilentFacts.
Context `{B : Backend}.

Lemma silent_mret {A} (a : A) : silent (mret a).
Proof. intros st. split; reflexivity. Qed.

Lemma silent_raise {A} (e : exn) : silent (raise (A := A) e).
Proof. intros st. split; reflexivity. Qed.

Lemma silent_logger l parts : silent (logger l parts).
Proof. intros st. split; reflexivity. Qed.

Lemma silent_bind {A C} (m : M A) (k : A -> M C) :
  silent m -> (forall a, silent (k a)) -> silent (m ≫= k).
Proof.
  intros Hm Hk st. destruct (Hm st) as [C1 W1].
  unfold mbind, M_bind. destruct (m st) as [[a | e] st1]; simpl in *.
  - destruct (Hk a st1) as [C2 W2]. split; congruence.
  - split; assumption.
Qed.

Lemma silent_try_except {A} (m : M A) handlers :
  silent m ->
  Forall (fun h => forall e, silent (snd h e)) handlers ->
  silent (try_except m handlers).
Proof.
  intros Hm Hh st. destruct (Hm st) as [C1 W1].
  unfold try_except. destruct (m st) as [[a | e] st1]; simpl in *.
  - split; assumption.
  - destruct (List.find _ handlers) as [h |] eqn:Fh.
    + apply List.find_some in Fh as [Hin _].
      rewrite List.Forall_forall in Hh.
      destruct (Hh h Hin e st1) as [C2 W2]. split; congruence.
    + split; assumption.
Qed.

Lemma silent_dict_get v key dflt : silent (dict_get v key dflt).
Proof. intros st. destruct v; split; reflexivity. Qed.

Lemma silent_len v : silent (len v).
Proof. intros st. destruct v; split; reflexivity. Qed.

Lemma silent_Response_json r : silent (Response_json r).
Proof.
  intros st. unfold Response_json. destruct (json_loads (content r)); split; reflexivity.
Qed.

Lemma silent_log_api_error e : silent (WorkspaceAdmin._log_api_error e).
Proof. intros st. rewrite _log_api_error_run. split; reflexivity. Qed.

Lemma silent_log_error_response e : silent (GatewayAdmin.log_error_response e).
Proof. intros st. rewrite log_error_response_run. split; reflexivity. Qed.

(** The steps of a listing after its [get]. *)
Lemma silent_listing_tail response after :
  silent (items ← dict_get response "value" (JArr []);
          n ← len items;
          logger INFO (Txt "Found " :: Num n :: after);;
          mret items).
Proof.
  apply silent_bind; [apply silent_dict_get | intros items].
  apply silent_bind; [apply silent_len | intros n].
  apply silent_bind; [apply silent_logger | intros _]. apply silent_mret.
Qed.

Lemma called_bind_silent {A C} (m : M A) (k : A -> M C) st cs :
  called m st cs -> (forall a, silent (k a)) -> called (m ≫= k) st cs.
Proof.
  unfold called. intros Hm Hk. unfold mbind, M_bind.
  destruct (m st) as [[a | e] st1]; simpl in *; [| exact Hm].
  destruct (Hk a st1) as [C2 _]. congruence.
Qed.

Lemma called_try_except_silent {A} (m : M A) handlers st cs :
  called m st cs ->
  Forall (fun h => forall e, silent (snd h e)) handlers ->
  called (try_except m handlers) st cs.
Proof.
  unfold called. intros Hm Hh. unfold try_except.
  destruct (m st) as [[a | e] st1]; simpl in *; [exact Hm |].
  destruct (List.find _ handlers) as [h |] eqn:Fh; [| exact Hm].
  apply List.find_some in Fh as [Hin _].
  rewrite List.Forall_forall in Hh.
  destruct (Hh h Hin e st1) as [C2 _]. congruence.
Qed.

Lemma called_after_logger {A} l parts (m : M A) st cs :
  called m (with_records st [mkLog l parts]) cs ->
  called (logger l parts;; m) st cs.
Proof. unfold called. intros H. erewrite bind_ok by apply logger_run. exact H. Qed.

(** With a token, [get] makes the calls of its [_request]. *)
Lemma get_granted_calls st endpoint params t w1 :
  grants (world st) t w1 ->
  called (PowerBIClient.get endpoint params) st
    (exchange_calls "GET" endpoint t (mkKwargs params None)).
Proof.
  intros G. unfold PowerBIClient.get.
  apply called_bind_silent; [| intros r; apply silent_Response_json].
  now apply (_request_granted_calls _ _ _ _ _ w1).
Qed.

Lemma listing_granted_calls intro endpoint params after st t w1 :
  grants (world st) t w1 ->
  called (listing intro endpoint params after) st
    (exchange_calls "GET" endpoint t (mkKwargs params None)).
Proof.
  intros G. unfold listing. apply called_after_logger.
  apply called_bind_silent; [| intros r; apply silent_listing_tail].
  now apply (get_granted_calls _ _ _ _ w1).
Qed.

Lemma called_of_run {A C} (m : M A) (m' : M C) st cs :
  calls (snd (m st)) = calls (snd (m' st)) -> called m' st cs -> called m st cs.
Proof. unfold called. congruence. Qed.
End SilentFacts.

(** X22. Once a token is granted, each of the five listings sends exactly
    one request, whatever the session answers and whatever the body
    holds: a GET to its endpoint under the base URL, with the bearer
    headers, no JSON body, and query parameters only for
    [get_workspaces]. *)
Theorem X22_listings_send_one_get `{B : Backend} (st : State)
    (gateway_id datasource_id workspace_id : string)
    (filter_str : option string) (top skip : option Z)
    (t : AccessToken) (w1 : World) :
  grants (world st) t w1 ->
  called GatewayAdmin.get_gateways st (one_get t "gateways" None) /\
  called (GatewayAdmin.get_gateway_datasources gateway_id) st
    (one_get t ("gateways/" ++ gateway_id ++ "/datasources") None) /\
  called (GatewayAdmin.get_gateway_datasource_users gateway_id datasource_id) st
    (one_get t ("gateways/" ++ gateway_id ++ "/datasources/" ++ datasource_id
                  ++ "/users") None) /\
  called (WorkspaceAdmin.get_workspaces filter_str top skip) st
    (one_get t "groups" (Some (WorkspaceAdmin.workspaces_params filter_str top skip))) /\
  called (WorkspaceAdmin.get_workspace_users workspace_id) st
    (one_get t ("groups/" ++ workspace_id ++ "/users") None).
Proof.
  intros G. repeat split.
  - rewrite get_gateways_is_listing.
    apply (listing_granted_calls _ "gateways" None _ _ _ w1 G).
  - rewrite get_gateway_datasources_is_listing.
    apply (listing_granted_calls _ ("gateways/" ++ gateway_id ++ "/datasources")
             None _ _ _ w1 G).
  - eapply called_of_run;
      [| apply (listing_granted_calls
                  [Txt "Fetching users for datasource ID: "; Txt datasource_id;
                   Txt " on gateway ID: "; Txt gateway_id]
                  (GatewayAdmin.datasource_users_endpoint gateway_id datasource_id)
                  None [Txt " users for datasource "; Txt datasource_id; Txt "."]
                  _ _ w1 G)].
    rewrite datasource_users_run.
    destruct (listing _ _ _ _ st) as [[v | e] st1]; reflexivity.
  - rewrite get_workspaces_is_listing.
    apply (listing_granted_calls _ "groups"
             (Some (WorkspaceAdmin.workspaces_params filter_str top skip)) _ _ _ w1 G).
  - eapply called_of_run;
      [| apply (listing_granted_calls
                  [Txt "Fetching users for workspace ID: "; Txt workspace_id]
                  ("groups/" ++ workspace_id ++ "/users")
                  None [Txt " users for workspace "; Txt workspace_id; Txt "."]
                  _ _ w1 G)].
    rewrite workspace_users_run.
    destruct (listing _ _ _ _ st) as [[v | e] st1]; reflexivity.
Qed.

Lemma X22_listings_send_one_get_witness :
  called (B := answering forbidden)
    (WorkspaceAdmin.get_workspaces (Some "startswith(name,'Test')") (Some 0%Z) None)
    (fresh (answering forbidden) tt)
    [ GetToken PowerBIAuth.scope;
      HttpRequest
        (mkRequest "GET" "https://api.powerbi.com/v1.0/myorg/groups"
           (headers_of sample_token)
           (Some {[ "$filter" := JStr "startswith(name,'Test')" ]}) None) ].
Proof.
  destruct (X22_listings_send_one_get (B := answering forbidden)
              (fresh (answering forbidden) tt) "gw1" "ds1" "g1"
              (Some "startswith(name,'Test')") (Some 0%Z) None sample_token tt
              eq_refl) as (_ & _ & _ & H & _).
  exact H.
Defined.

(** ** Mutating operations, again *)

Section MutationRunFacts.
Context `{B : Backend}.

Lemma guarded_request_run {A} (request : M A) (done : list piece)
    (failure : exn -> LogRecord) (details : exn -> M unit) st0 :
  (forall e st, details e st = (Ok tt, with_records st (response_records e))) ->
  try_except (request;; logger INFO done;; mret true)
    [ (Exception, fun e =>
         logger (log_level (failure e)) (log_parts (failure e));;
         details e;; mret false) ] st0
  = boolean_of (request st0) done failure.
Proof.
  intros D. pose proof (guarded_request request done failure details st0 D) as G.
  unfold boolean_of. destruct (request st0) as [[a | e] st1]; exact G.
Qed.

Lemma add_datasource_user_run st gateway_id datasource_id principal_id
    principal_type access_right display_name email_address profile :
  GatewayAdmin.add_datasource_user gateway_id datasource_id principal_id
    principal_type access_right display_name email_address profile st
  = boolean_of
      (PowerBIClient.post
         (GatewayAdmin.datasource_users_endpoint gateway_id datasource_id)
         (Some (GatewayAdmin.datasource_user_payload principal_id principal_type
                  access_right display_name email_address profile))
         (with_records st
            (datasource_user_preamble gateway_id datasource_id principal_id
               principal_type access_right email_address profile)))
      [Txt "Successfully added "; Txt principal_type; Txt " "; Txt principal_id;
       Txt " to datasource "; Txt datasource_id; Txt "."]
      (fun e =>
         mkLog ERROR [Txt "Failed to add user "; Txt principal_id;
                      Txt " to datasource "; Txt datasource_id; Txt " on gateway ";
                      Txt gateway_id; Txt ": "; Exc e]).
Proof.
  rewrite <- (guarded_request_run _ _ _ GatewayAdmin.log_error_response _
                log_error_response_run).
  unfold GatewayAdmin.add_datasource_user, datasource_user_preamble.
  erewrite bind_ok by apply logger_run.
  destruct (String.eqb principal_type "ServicePrincipal" && truthy_dict profile).
  - reflexivity.
  - destruct (String.eqb principal_type "User" && negb (truthy_str email_address)).
    + erewrite bind_ok by apply logger_run.
      unfold with_records. simpl. rewrite <- app_assoc. reflexivity.
    + reflexivity.
Qed.

Lemma add_workspace_user_run st workspace_id identifier principal_type
    access_right email_address :
  WorkspaceAdmin.add_workspace_user workspace_id identifier principal_type
    access_right email_address st
  = boolean_of
      (PowerBIClient.post (WorkspaceAdmin.workspace_users_endpoint workspace_id)
         (Some (WorkspaceAdmin.workspace_user_payload identifier principal_type
                  access_right email_address))
         (with_records st
            (workspace_user_preamble workspace_id identifier principal_type
               access_right email_address)))
      [Txt "Successfully added "; Txt principal_type; Txt " "; Txt identifier;
       Txt " to workspace "; Txt workspace_id; Txt "."]
      (fun e =>
         mkLog ERROR [Txt "Failed to add "; Txt principal_type; Txt " ";
                      Txt identifier; Txt " to workspace "; Txt workspace_id;
                      Txt ": "; Exc e]).
Proof.
  rewrite <- (guarded_request_run _ _ _ WorkspaceAdmin._log_api_error _
                _log_api_error_run).
  unfold WorkspaceAdmin.add_workspace_user, workspace_user_preamble.
  erewrite bind_ok by apply logger_run.
  destruct (String.eqb principal_type "User" && negb (truthy_str email_address)).
  - erewrite bind_ok by apply logger_run.
    unfold with_records. simpl. rewrite <- app_assoc. reflexivity.
  - reflexivity.
Qed.

Lemma delete_workspace_user_run st workspace_id identifier principal_type :
  WorkspaceAdmin.delete_workspace_user workspace_id identifier principal_type st
  = boolean_of
      (PowerBIClient._request "DELETE"
         (WorkspaceAdmin.delete_user_endpoint workspace_id identifier) no_kwargs
         (with_records st
            [mkLog INFO [Txt "Deleting ";
                         Txt (WorkspaceAdmin.principal_info identifier principal_type);
                         Txt " from workspace "; Txt workspace_id]]))
      [Txt "Successfully deleted ";
       Txt (WorkspaceAdmin.principal_info identifier principal_type);
       Txt " from workspace "; Txt workspace_id; Txt "."]
      (fun e =>
         mkLog ERROR [Txt "Failed to delete ";
                      Txt (WorkspaceAdmin.principal_info identifier principal_type);
                      Txt " from workspace "; Txt workspace_id; Txt ": "; Exc e]).
Proof.
  rewrite <- (guarded_request_run _ _ _ WorkspaceAdmin._log_api_error _
                _log_api_error_run).
  unfold WorkspaceAdmin.delete_workspace_user.
  erewrite bind_ok by apply logger_run. reflexivity.
Qed.

Lemma post_refused st endpoint json_body e w1 :
  credential_get_token PowerBIAuth.scope (world st) = (inl e, w1) ->
  PowerBIClient.post endpoint json_body st
  = (Raise e,
     mkState w1 (log st ++ token_failure_records e)
       (calls st ++ [GetToken PowerBIAuth.scope])).
Proof.
  intros H. unfold PowerBIClient.post.
  erewrite bind_raise; [reflexivity | now apply _request_refused].
Qed.
End MutationRunFacts.

(** X23. [delete_workspace_user] never reads the body: once a token is
    granted and the session answers with a status outside 400..599, it
    returns [true] whatever the body holds, writes no warning, and has
    sent exactly one request, a DELETE to [groups/{id}/users/{identifier}]
    under the base URL with no query and no JSON body. *)
Theorem X23_delete_workspace_user_request `{B : Backend} (st : State)
    (workspace_id identifier : string) (hint : option string)
    (t : AccessToken) (w1 : World) (r : Response) (w2 : World) :
  let req :=
    mkRequest "DELETE"
      (PowerBIClient.BASE_URL ++ "/groups/" ++ workspace_id ++ "/users/" ++ identifier)
      (headers_of t) None None in
  grants (world st) t w1 ->
  session_request req w1 = (inr r, w2) ->
  is_http_error (status_code r) = false ->
  returns_only (WorkspaceAdmin.delete_workspace_user workspace_id identifier hint)
    st true /\
  called (WorkspaceAdmin.delete_workspace_user workspace_id identifier hint) st
    [GetToken PowerBIAuth.scope; HttpRequest req] /\
  at_level WARNING
    (log (snd (WorkspaceAdmin.delete_workspace_user workspace_id identifier hint st)))
  = at_level WARNING (log st).
Proof.
  intros req G S E.
  pose proof (delete_workspace_user_run st workspace_id identifier hint) as R.
  erewrite (_request_ok _ "DELETE"
              (WorkspaceAdmin.delete_user_endpoint workspace_id identifier)
              no_kwargs t w1 r w2) in R; [| exact G | exact S | exact E].
  unfold boolean_of in R.
  split; [apply returns_is_only; eexists; apply R |].
  split; [unfold called; rewrite R; reflexivity |].
  rewrite R. simpl. rewrite !at_level_app. simpl. now rewrite !app_nil_r.
Qed.

Lemma X23_delete_workspace_user_request_witness :
  returns_only (B := answering ok_html)
    (WorkspaceAdmin.delete_workspace_user "g1" "u1" (Some "User"))
    (fresh (answering ok_html) tt) true.
Proof.
  destruct (X23_delete_workspace_user_request (B := answering ok_html)
              (fresh (answering ok_html) tt) "g1" "u1" (Some "User")
              sample_token tt ok_html tt eq_refl eq_refl eq_refl) as (R & _).
  exact R.
Defined.

(** X24. When the credential raises, each of [add_datasource_user],
    [add_workspace_user] and [delete_workspace_user] returns [false]
    without sending any request: its only outside call is the token
    acquisition. *)
Theorem X24_mutations_without_token `{B : Backend} (st : State)
    (gateway_id datasource_id principal_id principal_type access_right : string)
    (display_name email_address : option string)
    (profile : option (gmap string json))
    (workspace_id identifier : string) (hint : option string)
    (e : exn) (w1 : World) :
  credential_get_token PowerBIAuth.scope (world st) = (inl e, w1) ->
  (returns_only
     (GatewayAdmin.add_datasource_user gateway_id datasource_id principal_id
        principal_type access_right display_name email_address profile) st false /\
   called
     (GatewayAdmin.add_datasource_user gateway_id datasource_id principal_id
        principal_type access_right display_name email_address profile) st
     [GetToken PowerBIAuth.scope]) /\
  (returns_only
     (WorkspaceAdmin.add_workspace_user workspace_id identifier principal_type
        access_right email_address) st false /\
   called
     (WorkspaceAdmin.add_workspace_user workspace_id identifier principal_type
        access_right email_address) st [GetToken PowerBIAuth.scope]) /\
  (returns_only (WorkspaceAdmin.delete_workspace_user workspace_id identifier hint)
     st false /\
   called (WorkspaceAdmin.delete_workspace_user workspace_id identifier hint) st
     [GetToken PowerBIAuth.scope]).
Proof.
  intros H. split; [| split].
  - pose proof (add_datasource_user_run st gateway_id datasource_id principal_id
                  principal_type access_right display_name email_address profile) as R.
    erewrite post_refused in R by exact H. unfold boolean_of in R.
    split; [apply returns_is_only; eexists; apply R |].
    unfold called. rewrite R. reflexivity.
  - pose proof (add_workspace_user_run st workspace_id identifier principal_type
                  access_right email_address) as R.
    erewrite post_refused in R by exact H. unfold boolean_of in R.
    split; [apply returns_is_only; eexists; apply R |].
    unfold called. rewrite R. reflexivity.
  - pose proof (delete_workspace_user_run st workspace_id identifier hint) as R.
    erewrite _request_refused in R by exact H. unfold boolean_of in R.
    split; [apply returns_is_only; eexists; apply R |].
    unfold called. rewrite R. reflexivity.
Qed.

Lemma X24_mutations_without_token_witness :
  returns_only (B := scripted (inl unavailable) (inr ok_added))
    (WorkspaceAdmin.add_workspace_user "g1" "ada@contoso.com" "User" "Member" None)
    (fresh (scripted (inl unavailable) (inr ok_added)) tt) false /\
  called (B := scripted (inl unavailable) (inr ok_added))
    (WorkspaceAdmin.add_workspace_user "g1" "ada@contoso.com" "User" "Member" None)
    (fresh (scripted (inl unavailable) (inr ok_added)) tt)
    [GetToken PowerBIAuth.scope].
Proof.
  destruct (X24_mutations_without_token
              (B := scripted (inl unavailable) (inr ok_added))
              (fresh (scripted (inl unavailable) (inr ok_added)) tt)
              "gw1" "ds1" "ada@contoso.com" "User" "Member" None None None
              "g1" "ada@contoso.com" None unavailable tt eq_refl) as (_ & H & _).
  exact H.
Defined.

(** X25. Once a token is granted and the session answers with a status
    outside 400..599, [add_datasource_user] returns [true], whatever the
    body holds, having sent exactly one POST with its payload.  For a
    ["User"] without an email address it only warns: the payload goes out
    with no [emailAddress]. *)
Theorem X25_add_datasource_user_on_success `{B : Backend} (st : State)
    (gateway_id datasource_id principal_id principal_type access_right : string)
    (display_name email_address : option string)
    (profile : option (gmap string json))
    (t : AccessToken) (w1 : World) (r : Response) (w2 : World) :
  let payload :=
    GatewayAdmin.datasource_user_payload principal_id principal_type access_right
      display_name email_address profile in
  let endpoint :=
    "gateways/" ++ gateway_id ++ "/datasources/" ++ datasource_id ++ "/users" in
  let op :=
    GatewayAdmin.add_datasource_user gateway_id datasource_id principal_id
      principal_type access_right display_name email_address profile in
  grants (world st) t w1 ->
  session_request (request_of "POST" endpoint t (mkKwargs None (Some payload))) w1
  = (inr r, w2) ->
  is_http_error (status_code r) = false ->
  returns_only op st true /\
  called op st (exchange_calls "POST" endpoint t (mkKwargs None (Some payload))) /\
  (principal_type = "User" ->
   truthy_str email_address = false ->
   payload !! "emailAddress" = None /\
   In (mkLog WARNING [Txt "Adding a user principal ("; Txt principal_id;
                      Txt ") without an emailAddress is often problematic."])
     (log (snd (op st)))).
Proof.
  intros payload endpoint op G S E.
  pose proof (add_datasource_user_run st gateway_id datasource_id principal_id
                principal_type access_right display_name email_address profile) as R.
  destruct (post_returns
              (with_records st
                 (datasource_user_preamble gateway_id datasource_id principal_id
                    principal_type access_right email_address profile))
              endpoint (Some payload) t w1 r w2 G S E) as (v & records & P).
  fold payload in R.
  change (GatewayAdmin.datasource_users_endpoint gateway_id datasource_id)
    with endpoint in R.
  rewrite P in R. unfold boolean_of in R. fold op in R.
  split; [apply returns_is_only; eexists; apply R |].
  split; [unfold called; rewrite R; reflexivity |].
  intros Hp Hm. split.
  - unfold payload, GatewayAdmin.datasource_user_payload. rewrite Hm, Hp. simpl.
    destruct (truthy_str display_name); reflexivity.
  - rewrite R. simpl. unfold datasource_user_preamble. rewrite Hm, Hp. simpl.
    apply in_or_app. left. apply in_or_app. left. apply in_or_app. right.
    right. left. reflexivity.
Qed.

Lemma X25_add_datasource_user_on_success_witness :
  returns_only (B := answering ok_added)
    (GatewayAdmin.add_datasource_user "gw1" "ds1" "9f3c" "User" "Read" None None None)
    (fresh (answering ok_added) tt) true /\
  GatewayAdmin.datasource_user_payload "9f3c" "User" "Read" None None None
    !! "emailAddress" = None.
Proof.
  destruct (X25_add_datasource_user_on_success (B := answering ok_added)
              (fresh (answering ok_added) tt) "gw1" "ds1" "9f3c" "User" "Read"
              None None None sample_token tt ok_added tt eq_refl eq_refl eq_refl)
    as (R & _ & H).
  destruct (H eq_refl eq_refl) as (P & _).
  split; [exact R | exact P].
Defined.

(** X26. [_log_api_error] cannot fail and calls nothing outside: for an
    exception without a response it writes nothing; otherwise it writes
    the status and then the body, as text when the body does not
    decode. *)
Theorem X26_log_api_error_cannot_fail `{B : Backend} (error : exn) :
  never_raises (WorkspaceAdmin._log_api_error error) /\
  silent (WorkspaceAdmin._log_api_error error) /\
  (exn_response error = None ->
   forall st, logged (WorkspaceAdmin._log_api_error error) st []) /\
  (forall r msg,
     exn_response error = Some r ->
     json_loads (content r) = inl msg ->
     forall st,
       logged (WorkspaceAdmin._log_api_error error) st
         [ mkLog ERROR [Txt "API Response Status: "; Num (status_code r)];
           mkLog ERROR [Txt "API Response Body: "; Txt (text r)] ]) /\
  (forall r body,
     exn_response error = Some r ->
     json_loads (content r) = inr body ->
     forall st,
       logged (WorkspaceAdmin._log_api_error error) st
         [ mkLog ERROR [Txt "API Response Status: "; Num (status_code r)];
           mkLog ERROR [Txt "API Response Body: "; Obj body] ]).
Proof.
  split; [| split; [| split; [| split]]].
  - intros st. rewrite _log_api_error_run. eexists. eexists. reflexivity.
  - intros st. rewrite _log_api_error_run. split; reflexivity.
  - intros N st. unfold logged. rewrite _log_api_error_run.
    unfold response_records. rewrite N. reflexivity.
  - intros r msg S D st. unfold logged. rewrite _log_api_error_run.
    unfold response_records. rewrite S, D. reflexivity.
  - intros r body S D st. unfold logged. rewrite _log_api_error_run.
    unfold response_records. rewrite S, D. reflexivity.
Qed.

Lemma X26_log_api_error_cannot_fail_witness :
  logged (B := answering ok_html)
    (WorkspaceAdmin._log_api_error (mkExn HTTPError "500 Server Error" (Some ok_html)))
    (fresh (answering ok_html) tt)
    [ mkLog ERROR [Txt "API Response Status: "; Num 200%Z];
      mkLog ERROR [Txt "API Response Body: "; Txt "<html></html>"] ].
Proof.
  destruct (X26_log_api_error_cannot_fail (B := answering ok_html)
              (mkExn HTTPError "500 Server Error" (Some ok_html)))
    as (_ & _ & _ & H & _).
  apply (H ok_html "Expecting value: line 1 column 1 (char 0)" eq_refl eq_refl).
Defined.

(** X27. Once a token is granted and the session answers with a status
    outside 400..599, [add_workspace_user] returns [true] for every
    principal type and email address, whatever the body holds, having sent
    exactly one POST to [groups/{id}/users] with its payload. *)
Theorem X27_add_workspace_user_on_success `{B : Backend} (st : State)
    (workspace_id identifier principal_type access_right : string)
    (email_address : option string)
    (t : AccessToken) (w1 : World) (r : Response) (w2 : World) :
  let req :=
    mkRequest "POST"
      (PowerBIClient.BASE_URL ++ "/groups/" ++ workspace_id ++ "/users")
      (headers_of t) None
      (Some (WorkspaceAdmin.workspace_user_payload identifier principal_type
               access_right email_address)) in
  let op :=
    WorkspaceAdmin.add_workspace_user workspace_id identifier principal_type
      access_right email_address in
  grants (world st) t w1 ->
  session_request req w1 = (inr r, w2) ->
  is_http_error (status_code r) = false ->
  returns_only op st true /\
  called op st [GetToken PowerBIAuth.scope; HttpRequest req].
Proof.
  intros req op G S E.
  pose proof (add_workspace_user_run st workspace_id identifier principal_type
                access_right email_address) as R.
  destruct (post_returns
              (with_records st
                 (workspace_user_preamble workspace_id identifier principal_type
                    access_right email_address))
              (WorkspaceAdmin.workspace_users_endpoint workspace_id)
              (Some (WorkspaceAdmin.workspace_user_payload identifier principal_type
                       access_right email_address))
              t w1 r w2 G S E) as (v & records & P).
  rewrite P in R. unfold boolean_of in R. fold op in R.
  split; [apply returns_is_only; eexists; apply R |].
  unfold called. rewrite R. reflexivity.
Qed.

Lemma X27_add_workspace_user_on_success_witness :
  returns_only (B := answering ok_html)
    (WorkspaceAdmin.add_workspace_user "g1" "7b1d" "Group" "Viewer"
       (Some "team@contoso.com"))
    (fresh (answering ok_html) tt) true /\
  WorkspaceAdmin.workspace_user_payload "7b1d" "Group" "Viewer"
    (Some "team@contoso.com") !! "emailAddress" = None.
Proof.
  destruct (X27_add_workspace_user_on_success (B := answering ok_html)
              (fresh (answering ok_html) tt) "g1" "7b1d" "Group" "Viewer"
              (Some "team@contoso.com") sample_token tt ok_html tt
              eq_refl eq_refl eq_refl) as (R & _).
  split; [exact R | reflexivity].
Defined.
